(** * go-iso8601: the ISO 8601 timestamp parser and its JSON/text wrapper

    A shallow embedding of [iso8601.go]: the six regular expressions of
    [init], [atoip], [ParseISO8601Timestamp], and the [Time] wrapper with
    [UnmarshalJSON] and [UnmarshalText].

    Go strings are byte sequences, modelled as [list ascii].  The packages
    [regexp], [strconv], [fmt] and [time] belong to the Go standard library;
    the part of each that the parser calls is modelled here:
    - [regexp]: a backtracking matcher with leftmost-first priority (the
      semantics [regexp] documents for [MatchString] and
      [FindStringSubmatch]), over the operators the six patterns use;
    - [strconv.Atoi]: base-10 conversion with optional sign;
    - [time.Date], [time.FixedZone]: recorded as constructors holding the
      arguments of the call, since normalisation happens inside [time];
    - run-time panics (index and slice bounds, the [panic] of [atoip]) are
      an explicit outcome of the [M] monad;
    - [time.Format]: the elements of a layout that [ISO8601CompactFormat]
      and [time.RFC3339Nano] are made of, on times whose fields [time.Date]
      keeps as given;
    - [fmt.Sprintf] with the verb [%#v] on a string, that is
      [strconv.Quote], on ASCII: the message of the error of [iso8601.go]. *)

From Stdlib Require Import Ascii String List ZArith Lia Bool Arith Permutation.
From Stdlib Require Import DecimalString.
Import ListNotations.

Open Scope Z_scope.

(* ================================================================= *)
(** ** Go strings *)

Definition gostring := list ascii.

(** A literal. *)
Definition str (s : string) : gostring := list_ascii_of_string s.

Definition code (c : ascii) : Z := Z.of_N (N_of_ascii c).

Fixpoint streq (a b : gostring) : bool :=
  match a, b with
  | [], [] => true
  | x :: a', y :: b' => Ascii.eqb x y && streq a' b'
  | _, _ => false
  end.

(* ================================================================= *)
(** ** Panics and the result monad *)

Inductive panic :=
| AtoipFailed (s : gostring)   (* panic(fmt.Sprintf("Failed to convert %#v to int", s)) *)
| IndexOutOfRange              (* runtime error: index out of range *)
| SliceOutOfRange.             (* runtime error: slice bounds out of range *)

Inductive M (A : Type) :=
| Val (a : A)
| Panic (p : panic).
Arguments Val {A} a.
Arguments Panic {A} p.

Definition bind {A B} (x : M A) (f : A -> M B) : M B :=
  match x with
  | Val a => f a
  | Panic p => Panic p
  end.

Notation "x <- c1 ;; c2" := (bind c1 (fun x => c2))
  (at level 61, c1 at next level, right associativity).
Notation "' pat <- c1 ;; c2" := (bind c1 (fun x => match x with pat => c2 end))
  (at level 61, pat pattern, c1 at next level, right associativity).

(** [s[i]] on a string, [parts[i]] on a slice of strings. *)
Definition index {A} (l : list A) (i : nat) : M A :=
  match nth_error l i with
  | Some a => Val a
  | None => Panic IndexOutOfRange
  end.

(** [s[lo:hi]]. *)
Definition slice (s : gostring) (lo hi : nat) : M gostring :=
  if ((lo <=? hi) && (hi <=? length s))%nat
  then Val (firstn (hi - lo) (skipn lo s))
  else Panic SliceOutOfRange.

(* ================================================================= *)
(** ** Machine integers: Go's [int] on a 64-bit platform *)

Definition int_min : Z := - 2 ^ 63.
Definition int_max : Z := 2 ^ 63 - 1.
Definition wrap (z : Z) : Z := (z + 2 ^ 63) mod 2 ^ 64 - 2 ^ 63.
Definition imul (a b : Z) : Z := wrap (a * b).
Definition iadd (a b : Z) : Z := wrap (a + b).

(* ================================================================= *)
(** ** strconv.Atoi *)

(** The loop of [Atoi]: [ch -= '0'] on a byte wraps around, [ch > 9] is a
    syntax error. *)
Fixpoint atoi_digits (s : gostring) (n : Z) : option Z :=
  match s with
  | [] => Some n
  | ch :: t =>
      let d := (code ch - 48) mod 256 in
      if 9 <? d then None else atoi_digits t (n * 10 + d)
  end.

Definition is_sign (c : ascii) : bool := Ascii.eqb c "-" || Ascii.eqb c "+".

Definition Atoi (s : gostring) : option Z :=
  match s with
  | [] => None
  | c :: t =>
      let body := if is_sign c then t else s in
      match body with
      | [] => None
      | _ =>
          match atoi_digits body 0 with
          | None => None
          | Some n =>
              let v := if Ascii.eqb c "-" then - n else n in
              if (int_min <=? v) && (v <=? int_max) then Some v else None
          end
      end
  end.

Definition atoip (s : gostring) : M Z :=
  match Atoi s with
  | Some value => Val value
  | None => Panic (AtoipFailed s)
  end.

(* ================================================================= *)
(** ** regexp: syntax *)

Inductive regexp :=
| Bot                                   (* ^  : beginning of text *)
| Eot                                   (* $  : end of text (no multi-line flag) *)
| Chr (c : ascii)                       (* a literal byte *)
| Cls (ranges : list (ascii * ascii))   (* [a-bc-d...] *)
| Cat (r1 r2 : regexp)                  (* r1r2 *)
| Alt (r1 r2 : regexp)                  (* r1|r2, r1 preferred *)
| Opt (r : regexp)                      (* r?, greedy *)
| Rep (lo hi : nat) (r : regexp)        (* r{lo,hi}, greedy *)
| Grp (i : nat) (r : regexp).           (* the i-th capturing group *)

Declare Scope re_scope.
Delimit Scope re_scope with re.
Bind Scope re_scope with regexp.
Infix ";;" := Cat (at level 61, right associativity) : re_scope.
Infix "<|>" := Alt (at level 62, right associativity) : re_scope.

Definition in_cls (ranges : list (ascii * ascii)) (a : ascii) : bool :=
  existsb (fun r => (code (fst r) <=? code a) && (code a <=? code (snd r))) ranges.

Fixpoint NumSubexp (r : regexp) : nat :=
  match r with
  | Bot | Eot | Chr _ | Cls _ => 0
  | Cat r1 r2 | Alt r1 r2 => Nat.max (NumSubexp r1) (NumSubexp r2)
  | Opt r' | Rep _ _ r' => NumSubexp r'
  | Grp i r' => Nat.max i (NumSubexp r')
  end.

(* ================================================================= *)
(** ** regexp: matching *)

(** The state of a match in progress: the offset reached in the text, the
    text still to read, and the submatch of every group closed so far
    (the empty string for a group that has not taken part). *)
Record mstate := MState {
  pos : nat;
  rest : gostring;
  cap : list gostring
}.

Fixpoint set_nth {A} (i : nat) (x : A) (l : list A) : list A :=
  match l, i with
  | [], _ => []
  | _ :: t, O => x :: t
  | y :: t, S i' => y :: set_nth i' x t
  end.

Definition advance (st : mstate) (t : gostring) : mstate :=
  MState (S (pos st)) t (cap st).

Definition close (i : nat) (x : gostring * mstate) : gostring * mstate :=
  (fst x, MState (pos (snd x)) (rest (snd x)) (set_nth i (fst x) (cap (snd x)))).

Definition pre (w : gostring) (x : gostring * mstate) : gostring * mstate :=
  (w ++ fst x, snd x).

Definition one (ok : ascii -> bool) (st : mstate) : list (gostring * mstate) :=
  match rest st with
  | a :: t => if ok a then [([a], advance st t)] else []
  | [] => []
  end.

Definition andthen (f g : mstate -> list (gostring * mstate)) (st : mstate)
  : list (gostring * mstate) :=
  flat_map (fun x => map (pre (fst x)) (g (snd x))) (f st).

(** [r{0,n}] is [(r(r(...)?)?)?]: one more iteration is tried before
    stopping. *)
Fixpoint rep_upto (step : mstate -> list (gostring * mstate)) (n : nat) (st : mstate)
  : list (gostring * mstate) :=
  match n with
  | O => [([], st)]
  | S n' => andthen step (rep_upto step n') st ++ [([], st)]
  end.

Fixpoint rep (step : mstate -> list (gostring * mstate)) (lo extra : nat) (st : mstate)
  : list (gostring * mstate) :=
  match lo with
  | O => rep_upto step extra st
  | S lo' => andthen step (rep step lo' extra) st
  end.

(** All the ways [r] matches a prefix of [rest st], in priority order:
    each with the text matched and the state reached. *)
Fixpoint run (r : regexp) (st : mstate) : list (gostring * mstate) :=
  match r with
  | Bot => if (pos st =? 0)%nat then [([], st)] else []
  | Eot => match rest st with [] => [([], st)] | _ :: _ => [] end
  | Chr c => one (Ascii.eqb c) st
  | Cls ranges => one (in_cls ranges) st
  | Cat r1 r2 => andthen (run r1) (run r2) st
  | Alt r1 r2 => run r1 st ++ run r2 st
  | Opt r' => run r' st ++ [([], st)]
  | Rep lo hi r' => rep (run r') lo (hi - lo) st
  | Grp i r' => map (close i) (run r' st)
  end.

(** Leftmost-first: the earliest start offset that has a match, and at that
    offset the match of highest priority. *)
Fixpoint search (r : regexp) (caps : list gostring) (p : nat) (s : gostring)
  : option (gostring * mstate) :=
  match run r (MState p s caps) with
  | x :: _ => Some x
  | [] => match s with
          | [] => None
          | _ :: s' => search r caps (S p) s'
          end
  end.

Definition first_match (re : regexp) (s : gostring) : option (gostring * mstate) :=
  search re (repeat [] (S (NumSubexp re))) 0 s.

Definition MatchString (re : regexp) (s : gostring) : bool :=
  match first_match re s with
  | Some _ => true
  | None => false
  end.

(** [nil] when there is no match; otherwise the whole match followed by the
    submatch of each group. *)
Definition FindStringSubmatch (re : regexp) (s : gostring) : list gostring :=
  match first_match re s with
  | Some (w, st) => set_nth 0 w (cap st)
  | None => []
  end.

(* ================================================================= *)
(** ** The six patterns of [init] *)

Definition digit : regexp := Cls [("0", "9")]%char.

(** [[0-9]{4}] *)
Definition year_re : regexp := Rep 4 4 digit.
(** [0[1-9]|1[0-2]] *)
Definition month_re : regexp :=
  (Chr "0" ;; Cls [("1", "9")]%char <|> Chr "1" ;; Cls [("0", "2")]%char)%re.
(** [0[1-9]|[12][0-9]|3[01]] *)
Definition day_re : regexp :=
  (Chr "0" ;; Cls [("1", "9")]%char
   <|> Cls [("1", "1"); ("2", "2")]%char ;; digit
   <|> Chr "3" ;; Cls [("0", "0"); ("1", "1")]%char)%re.
(** [[Tt ]] *)
Definition dtsep_re : regexp := Cls [("T", "T"); ("t", "t"); (" ", " ")]%char.
(** [[01][0-9]|2[0-3]] *)
Definition hour_re : regexp :=
  (Cls [("0", "0"); ("1", "1")]%char ;; digit <|> Chr "2" ;; Cls [("0", "3")]%char)%re.
(** [[0-5][0-9]] *)
Definition minute_re : regexp := (Cls [("0", "5")]%char ;; digit)%re.
(** [[0-5][0-9]|6[01]] *)
Definition second_re : regexp :=
  (Cls [("0", "5")]%char ;; digit <|> Chr "6" ;; Cls [("0", "0"); ("1", "1")]%char)%re.
(** [(?:[.,]([0-9]{1,9}))?] *)
Definition fraction_re : regexp :=
  Opt (Cls [(".", "."); (",", ",")]%char ;; Grp 7 (Rep 1 9 digit))%re.
(** [Z|[-+][01][0-9]:?(?:[0-5][0-9])?] *)
Definition offset_re : regexp :=
  (Chr "Z"
   <|> Cls [("-", "-"); ("+", "+")]%char ;; Cls [("0", "0"); ("1", "1")]%char ;; digit
       ;; Opt (Chr ":") ;; Opt (Cls [("0", "5")]%char ;; digit))%re.

Definition variant0 : regexp :=
  (Bot ;; Grp 1 year_re ;; Chr "-" ;; Grp 2 month_re ;; Chr "-" ;; Grp 3 day_re ;; dtsep_re
   ;; Grp 4 hour_re ;; Chr ":" ;; Grp 5 minute_re ;; Chr ":" ;; Grp 6 second_re
   ;; fraction_re ;; Grp 8 offset_re ;; Eot)%re.
Definition variant1 : regexp :=
  (Bot ;; Grp 1 year_re ;; Grp 2 month_re ;; Grp 3 day_re ;; dtsep_re
   ;; Grp 4 hour_re ;; Grp 5 minute_re ;; Grp 6 second_re
   ;; fraction_re ;; Grp 8 offset_re ;; Eot)%re.
Definition variant2 : regexp :=
  (Bot ;; Grp 1 year_re ;; Chr "-" ;; Grp 2 month_re ;; Chr "-" ;; Grp 3 day_re ;; dtsep_re
   ;; Grp 4 hour_re ;; Grp 5 minute_re ;; Grp 6 second_re
   ;; fraction_re ;; Grp 8 offset_re ;; Eot)%re.
Definition variant3 : regexp :=
  (Bot ;; Grp 1 year_re ;; Grp 2 month_re ;; Grp 3 day_re ;; dtsep_re
   ;; Grp 4 hour_re ;; Chr ":" ;; Grp 5 minute_re ;; Chr ":" ;; Grp 6 second_re
   ;; fraction_re ;; Grp 8 offset_re ;; Eot)%re.
Definition variant4 : regexp :=
  (Bot ;; Grp 1 year_re ;; Chr "-" ;; Grp 2 month_re ;; Chr "-" ;; Grp 3 day_re ;; Eot)%re.
Definition variant5 : regexp :=
  (Bot ;; Grp 1 year_re ;; Grp 2 month_re ;; Grp 3 day_re ;; Eot)%re.

Definition iso8601Variants : list regexp :=
  [variant0; variant1; variant2; variant3; variant4; variant5].

(* ================================================================= *)
(** ** time and fmt: what the parser hands over *)

Inductive time_Location :=
| time_UTC
| time_FixedZone (name : gostring) (offset : Z).

(** [time.Time{}] and the result of a call of [time.Date]. *)
Inductive time_Time :=
| time_zero
| time_Date (year month day hour min sec nsec : Z) (loc : time_Location).

(** The arguments of the call of [time.Date] behind a value. *)
Definition date_year (t : time_Time) : option Z :=
  match t with time_Date y _ _ _ _ _ _ _ => Some y | time_zero => None end.
Definition date_nsec (t : time_Time) : option Z :=
  match t with time_Date _ _ _ _ _ _ n _ => Some n | time_zero => None end.

(** Seconds east of UTC of a location. *)
Definition zone_offset (l : time_Location) : Z :=
  match l with time_UTC => 0 | time_FixedZone _ o => o end.

(** [%c] of a byte: the UTF-8 encoding of the code point of that value. *)
Definition fmt_c (b : ascii) : gostring :=
  let n := N_of_ascii b in
  if (n <? 128)%N then [b]
  else [ascii_of_N (192 + N.shiftr n 6); ascii_of_N (128 + N.land n 63)].

Fixpoint zero_pad (width : nat) (s : gostring) : gostring :=
  match width with
  | O => s
  | S w => if (length s <=? w)%nat then zero_pad w ("0"%char :: s) else s
  end.

Definition decimal (n : Z) : gostring :=
  str (NilZero.string_of_uint (N.to_uint (Z.to_N n))).

(** [%02d]: the sign counts towards the width. *)
Definition fmt_02d (n : Z) : gostring :=
  if n <? 0 then "-"%char :: zero_pad 1 (decimal (- n)) else zero_pad 2 (decimal n).

(* ================================================================= *)
(** ** ParseISO8601Timestamp *)

(** [for len(fracSecStr) < 9 { fracSecStr = fracSecStr + "0" }]: every
    round adds one byte, so the loop runs [9 - len] times. *)
Fixpoint pad_loop (rounds : nat) (fracSecStr : gostring) : gostring :=
  match rounds with
  | O => fracSecStr
  | S n => pad_loop n (fracSecStr ++ ["0"%char])
  end.

Definition pad9 (fracSecStr : gostring) : gostring :=
  pad_loop (9 - length fracSecStr) fracSecStr.

Definition nonempty (s : gostring) : bool :=
  match s with [] => false | _ :: _ => true end.

(** The time of day: [(hour, minute, second, nanosecs)]. *)
Definition time_of_day (parts : list gostring) : M (Z * Z * Z * Z) :=
  if (4 <? length parts)%nat then
    p4 <- index parts 4 ;; hour <- atoip p4 ;;
    p5 <- index parts 5 ;; minute <- atoip p5 ;;
    p6 <- index parts 6 ;; second <- atoip p6 ;;
    fracSecStr <- index parts 7 ;;
    nanosecs <- (if nonempty fracSecStr then atoip (pad9 fracSecStr) else Val 0) ;;
    Val (hour, minute, second, nanosecs)
  else Val (0, 0, 0, 0).

(** [if tzStr == "Z" { loc = time.UTC } else { ... time.FixedZone(...) }] *)
Definition zone_of (tzStr : gostring) : M time_Location :=
  if streq tzStr (str "Z") then Val time_UTC
  else
    signStr <- index tzStr 0 ;;
    let sign := if Ascii.eqb signStr "-" then -1 else 1 in
    hh <- slice tzStr 1 3 ;; tzHour <- atoip hh ;;
    c3 <- index tzStr 3 ;;
    tzMin <- (if Ascii.eqb c3 ":"
              then mm <- slice tzStr 4 6 ;; atoip mm
              else mm <- slice tzStr 3 5 ;; atoip mm) ;;
    Val (time_FixedZone
           (fmt_c signStr ++ fmt_02d tzHour ++ str ":" ++ fmt_02d tzMin)
           (imul sign (iadd (imul tzHour 3600) (imul tzMin 60)))).

Definition location (parts : list gostring) : M time_Location :=
  tzStr <- (if (4 <? length parts)%nat then index parts 8 else Val (str "Z")) ;;
  zone_of tzStr.

(** The body of [if re.MatchString(s) { ... }], from the submatches on. *)
Definition convert (parts : list gostring) : M time_Time :=
  p1 <- index parts 1 ;; year <- atoip p1 ;;
  p2 <- index parts 2 ;; month <- atoip p2 ;;
  p3 <- index parts 3 ;; day <- atoip p3 ;;
  '(hour, minute, second, nanosecs) <- time_of_day parts ;;
  loc <- location parts ;;
  Val (time_Date year month day hour minute second nanosecs loc).

(** [for _, re := range iso8601Variants]: the first pattern that matches
    decides; [None] when the loop falls through. *)
Fixpoint scanVariants (variants : list regexp) (s : gostring) : option (M time_Time) :=
  match variants with
  | [] => None
  | re :: more =>
      if MatchString re s then Some (convert (FindStringSubmatch re s))
      else scanVariants more s
  end.

Inductive error :=
| stacktrace_NewError (format : string) (arg : gostring)
| time_ParseError (Layout Value LayoutElem ValueElem Message : gostring).

Definition parse_with (failure : gostring -> error) (s : gostring)
  : M (time_Time * option error) :=
  match scanVariants iso8601Variants s with
  | Some r => t <- r ;; Val (t, None)
  | None => Val (time_zero, Some (failure s))
  end.

(** [iso8601.go]: the failure is built by [stacktrace.NewError]. *)
Definition ParseISO8601Timestamp (s : gostring) : M (time_Time * option error) :=
  parse_with (stacktrace_NewError "Invalid ISO 8601 timestamp: %#v") s.

(* ================================================================= *)
(** ** Layouts and time.Format

    [ISO8601CompactFormat] is a layout for [time.Format], and [String]
    formats with [time.RFC3339Nano].  The part of [Format] that these two
    layouts use is modelled: the split of a layout into its elements
    ([nextStdChunk]), the zero-padded decimal fields ([appendInt]), the
    trimmed fraction ([appendNano]) and the ISO 8601 zone. *)

(** [const ISO8601CompactFormat = "20060102T150405Z"] *)
Definition ISO8601CompactFormat : gostring := str "20060102T150405Z".

(** [time.RFC3339Nano] *)
Definition time_RFC3339Nano : gostring := str "2006-01-02T15:04:05.999999999Z07:00".

(** The elements of a layout that the two layouts are made of. *)
Inductive chunk :=
| literal (c : ascii)
| stdLongYear | stdZeroMonth | stdZeroDay | stdHour | stdZeroMinute | stdZeroSecond
| stdFracSecond9 (dot : ascii)
| stdISO8601ColonTZ.

(** [s] without its prefix [p]. *)
Fixpoint cut_prefix (p s : gostring) : option gostring :=
  match p, s with
  | [], _ => Some s
  | a :: p', b :: s' => if Ascii.eqb a b then cut_prefix p' s' else None
  | _ :: _, [] => None
  end.

Definition has_prefix (p s : gostring) : bool :=
  match cut_prefix p s with Some _ => true | None => false end.

(** The numeric elements modelled, each with its text in a layout. *)
Definition std_chunks : list (gostring * chunk) :=
  [(str "2006", stdLongYear); (str "01", stdZeroMonth); (str "02", stdZeroDay);
   (str "15", stdHour); (str "04", stdZeroMinute); (str "05", stdZeroSecond)].

Fixpoint find_std (table : list (gostring * chunk)) (layout : gostring)
  : option (chunk * gostring) :=
  match table with
  | [] => None
  | (text, k) :: more =>
      match cut_prefix text layout with
      | Some rest => Some (k, rest)
      | None => find_std more layout
      end
  end.

(** [nextStdChunk] on a non-empty layout: the element or literal byte at its
    head, and the rest.  [None] where [time] finds an element that is not
    modelled.  A [-] or [Z] starts a zone only before [07], a [.] or [,]
    starts a fraction only before a run of [0] or [9] that no digit
    follows. *)
Definition next_chunk (layout : gostring) : option (chunk * gostring) :=
  match layout with
  | [] => None
  | c :: more =>
      if Ascii.eqb c "-" then
        if has_prefix (str "07") more then None else Some (literal c, more)
      else if Ascii.eqb c "Z" then
        if has_prefix (str "07") more then
          match cut_prefix (str "07:00") more with
          | Some rest =>
              if has_prefix (str ":00") rest then None else Some (stdISO8601ColonTZ, rest)
          | None => None
          end
        else Some (literal c, more)
      else if Ascii.eqb c "." || Ascii.eqb c "," then
        if has_prefix (str "0") more || has_prefix (str "9") more then
          match cut_prefix (str "999999999") more with
          | Some rest =>
              if match rest with d :: _ => in_cls [("0", "9")]%char d | [] => false end
              then None else Some (stdFracSecond9 c, rest)
          | None => None
          end
        else Some (literal c, more)
      else if existsb (Ascii.eqb c) (str "JM0123_45Pp") then find_std std_chunks layout
      else Some (literal c, more)
  end.

(** The elements of a layout, in order. *)
Fixpoint chunks_upto (fuel : nat) (layout : gostring) : option (list chunk) :=
  match layout, fuel with
  | [], _ => Some []
  | _, O => None
  | _, S f =>
      match next_chunk layout with
      | Some (k, rest) => option_map (cons k) (chunks_upto f rest)
      | None => None
      end
  end.
Definition chunks (layout : gostring) : option (list chunk) :=
  chunks_upto (length layout) layout.

Definition digit_byte (u : Z) : ascii := ascii_of_N (Z.to_N ((48 + u) mod 256)).

(** The loop of [appendInt]: the decimal digits of [u], the buffer holding
    twenty of them. *)
Fixpoint decimal_digits (room : nat) (u : Z) : gostring :=
  match room with
  | O => []
  | S r =>
      if u <? 10 then [digit_byte u]
      else decimal_digits r (u / 10) ++ [digit_byte (u mod 10)]
  end.

(** What [appendInt(b, x, width)] appends to [b]: a sign for a negative
    [x], then the digits padded with zeros on the left to [width]. *)
Definition appendInt (x : Z) (width : nat) : gostring :=
  let ds := decimal_digits 20 (Z.abs x) in
  (if x <? 0 then ["-"%char] else []) ++ repeat "0"%char (width - length ds) ++ ds.

(** [b] without the bytes [c] at its end. *)
Fixpoint trim_right (c : ascii) (b : gostring) : gostring :=
  match b with
  | [] => []
  | a :: more =>
      match trim_right c more with
      | [] => if Ascii.eqb a c then [] else [a]
      | kept => a :: kept
      end
  end.

(** [b] without its last byte when that byte is [c]. *)
Definition drop_last (c : ascii) (b : gostring) : gostring :=
  match rev b with
  | a :: front => if Ascii.eqb a c then rev front else b
  | [] => b
  end.

(** [appendNano(b, nanosec, std)] for a fraction of nine [9]: nothing for
    zero nanoseconds; otherwise the mark and nine digits, then the zeros at
    the end of the buffer are removed, and the mark if it comes last. *)
Definition appendNano (b : gostring) (nanosec : Z) (dot : ascii) : gostring :=
  if nanosec =? 0 then b
  else drop_last dot (trim_right "0" (b ++ [dot] ++ appendInt nanosec 9)).

(** The zone of [stdISO8601ColonTZ]: [Z] for offset zero, otherwise sign,
    hours, colon, minutes. *)
Definition appendZone (b : gostring) (offset : Z) : gostring :=
  if offset =? 0 then b ++ ["Z"%char]
  else
    let zone := Z.quot offset 60 in
    let sign := if zone <? 0 then "-"%char else "+"%char in
    let zone := if zone <? 0 then - zone else zone in
    b ++ [sign] ++ appendInt (Z.quot zone 60) 2 ++ [":"%char] ++ appendInt (Z.rem zone 60) 2.

(** A date and time of day of the calendar, with the offset of its zone. *)
Record civil := Civil { c_year : Z; c_month : Z; c_day : Z;
                        c_hour : Z; c_minute : Z; c_second : Z;
                        c_nsec : Z; c_offset : Z }.

Definition leap_year (y : Z) : bool :=
  (y mod 4 =? 0) && (negb (y mod 100 =? 0) || (y mod 400 =? 0)).
Definition days_in (y m : Z) : Z :=
  if m =? 2 then (if leap_year y then 29 else 28)
  else if (m =? 4) || (m =? 6) || (m =? 9) || (m =? 11) then 30 else 31.
Definition between (lo v hi : Z) : bool := (lo <=? v) && (v <=? hi).

(** The date and time a value shows in its own location: the zero value is
    January 1 of year 1 in UTC, and [time.Date] keeps arguments that are a
    date and time of the calendar ([None] stands for arguments that
    [time.Date] normalises, which are not modelled). *)
Definition civil_of (t : time_Time) : option civil :=
  match t with
  | time_zero => Some (Civil 1 1 1 0 0 0 0 0)
  | time_Date y m d h mi s ns loc =>
      if between 1 m 12 && between 1 d (days_in y m) && between 0 h 23
         && between 0 mi 59 && between 0 s 59 && between 0 ns 999999999
      then Some (Civil y m d h mi s ns (zone_offset loc)) else None
  end.

(** One step of the loop of [Format]: the buffer after the element. *)
Definition append_chunk (c : civil) (b : gostring) (k : chunk) : gostring :=
  match k with
  | literal x => b ++ [x]
  | stdLongYear => b ++ appendInt (c_year c) 4
  | stdZeroMonth => b ++ appendInt (c_month c) 2
  | stdZeroDay => b ++ appendInt (c_day c) 2
  | stdHour => b ++ appendInt (c_hour c) 2
  | stdZeroMinute => b ++ appendInt (c_minute c) 2
  | stdZeroSecond => b ++ appendInt (c_second c) 2
  | stdFracSecond9 dot => appendNano b (c_nsec c) dot
  | stdISO8601ColonTZ => appendZone b (c_offset c)
  end.

(** [t.Format(layout)] *)
Definition Format (t : time_Time) (layout : gostring) : option gostring :=
  match civil_of t, chunks layout with
  | Some c, Some ks => Some (fold_left (append_chunk c) ks [])
  | _, _ => None
  end.

(* ================================================================= *)
(** ** The Time wrapper *)

(** The revision of [iso8601.go] that declares [Time]: its parser is the
    same loop and returns a [*time.ParseError] on failure. *)
Module Wrapper.

Definition ParseISO8601Timestamp (s : gostring) : M (time_Time * option error) :=
  parse_with
    (fun s => time_ParseError (str "ISO 8601") s [] []
                (str ": timestamp is not in ISO 8601 format")) s.

(** [type Time struct { time.Time }] *)
Record Time := { Time_Time : time_Time }.

Definition dquote : ascii := "034"%char.
Definition squote : ascii := "039"%char.

(** [len(s) < 2 || (!(s[0] == '"' && s[len(s)-1] == '"') &&
     !(s[0] == '\'' && s[len(s)-1] == '\''))] *)
Definition not_quoted (s : gostring) : M bool :=
  if (length s <? 2)%nat then Val true
  else
    first <- index s 0 ;;
    last <- index s (length s - 1) ;;
    Val (negb (Ascii.eqb first dquote && Ascii.eqb last dquote)
         && negb (Ascii.eqb first squote && Ascii.eqb last squote)).

(** The receiver after the call, and the error returned. *)
Definition UnmarshalJSON (t : Time) (data : gostring) : M (Time * option error) :=
  if streq data (str "null") then Val (t, None)
  else
    let s := data in
    bad <- not_quoted s ;;
    if bad then
      Val (t, Some (time_ParseError (str "ISO 8601") s [] []
                      (str ": timestamp must be a JSON string literal")))
    else
      s <- slice s 1 (length s - 1) ;;
      ' (tm, err) <- ParseISO8601Timestamp s ;;
      Val ({| Time_Time := tm |}, err).

Definition UnmarshalText (t : Time) (data : gostring) : M (Time * option error) :=
  ' (tm, err) <- ParseISO8601Timestamp data ;;
  Val ({| Time_Time := tm |}, err).

(** [func Date(year, month, day, hour, min, sec, nsec, loc) Time] *)
Definition Date (year month day hour min sec nsec : Z) (loc : time_Location) : Time :=
  {| Time_Time := time_Date year month day hour min sec nsec loc |}.

(** [func (t Time) String() string] *)
Definition String (t : Time) : option gostring := Format (Time_Time t) time_RFC3339Nano.

End Wrapper.

(* ================================================================= *)
(** ** fmt.Sprintf with [%#v], and the message of the error

    [stacktrace.NewError(format, args...)] keeps [fmt.Sprintf(format,
    args...)] as the message of the error.  For a string argument the verb
    [%#v] prints [strconv.Quote] of it. *)








(* ================================================================= *)
(** ** The grammar of the specification

    The field grammar in the words of the specification: each field as a
    test on its bytes, a timestamp as a record of fields, and the text of a
    timestamp as the rendering of its fields with or without the separators
    of each segment.  The lemmas below show that the six patterns accept
    exactly these renderings. *)

Definition is_digit (a : ascii) : bool := in_cls [("0", "9")]%char a.
Definition all_digits (w : gostring) : bool := forallb is_digit w.

(** Year: exactly four digits. *)
Definition year_ok (a b c d : ascii) : bool :=
  is_digit a && is_digit b && is_digit c && is_digit d.
(** Month: 01 to 12. *)
Definition month_ok (a b : ascii) : bool :=
  (Ascii.eqb "0" a && in_cls [("1", "9")]%char b)
  || (Ascii.eqb "1" a && in_cls [("0", "2")]%char b).
(** Day: 01 to 31. *)
Definition day_ok (a b : ascii) : bool :=
  (Ascii.eqb "0" a && in_cls [("1", "9")]%char b)
  || (in_cls [("1", "1"); ("2", "2")]%char a && is_digit b)
  || (Ascii.eqb "3" a && in_cls [("0", "0"); ("1", "1")]%char b).
(** Hour: 00 to 23. *)
Definition hour_ok (a b : ascii) : bool :=
  (in_cls [("0", "0"); ("1", "1")]%char a && is_digit b)
  || (Ascii.eqb "2" a && in_cls [("0", "3")]%char b).
(** Minute: 00 to 59. *)
Definition minute_ok (a b : ascii) : bool :=
  in_cls [("0", "5")]%char a && is_digit b.
(** Second: 00 to 61. *)
Definition second_ok (a b : ascii) : bool :=
  (in_cls [("0", "5")]%char a && is_digit b)
  || (Ascii.eqb "6" a && in_cls [("0", "0"); ("1", "1")]%char b).
(** The date/time separator: [T], [t] or a space. *)
Definition dtsep_ok (a : ascii) : bool :=
  in_cls [("T", "T"); ("t", "t"); (" ", " ")]%char a.
(** The mark that starts a fraction: [.] or [,]. *)
Definition fsep_ok (a : ascii) : bool :=
  in_cls [(".", "."); (",", ",")]%char a.
Definition sign_ok (a : ascii) : bool :=
  in_cls [("-", "-"); ("+", "+")]%char a.

(** Offset: [Z], or a sign and a two-digit hour, then nothing, a colon, a
    two-digit minute, or a colon and a two-digit minute. *)
Definition offset_ok (tz : gostring) : bool :=
  match tz with
  | [z] => Ascii.eqb "Z" z
  | [sg; h0; h1] =>
      sign_ok sg && in_cls [("0", "0"); ("1", "1")]%char h0 && is_digit h1
  | [sg; h0; h1; c] =>
      sign_ok sg && in_cls [("0", "0"); ("1", "1")]%char h0 && is_digit h1
      && Ascii.eqb ":" c
  | [sg; h0; h1; m0; m1] =>
      sign_ok sg && in_cls [("0", "0"); ("1", "1")]%char h0 && is_digit h1
      && minute_ok m0 m1
  | [sg; h0; h1; c; m0; m1] =>
      sign_ok sg && in_cls [("0", "0"); ("1", "1")]%char h0 && is_digit h1
      && Ascii.eqb ":" c && minute_ok m0 m1
  | _ => false
  end.

(** The offset is [Z] or carries a minute. *)
Definition offset_complete (tz : gostring) : bool :=
  (length tz =? 1)%nat || (5 <=? length tz)%nat.

(** Fraction: absent, or a mark followed by one to nine digits. *)
Definition frac_ok (fr : option (ascii * gostring)) : bool :=
  match fr with
  | None => true
  | Some (c, ds) =>
      fsep_ok c && forallb is_digit ds && (1 <=? length ds)%nat && (length ds <=? 9)%nat
  end.
Definition render_frac (fr : option (ascii * gostring)) : gostring :=
  match fr with None => [] | Some (c, ds) => c :: ds end.
Definition frac_digits (fr : option (ascii * gostring)) : gostring :=
  match fr with None => [] | Some (_, ds) => ds end.

(** The bytes of the fields of a date and of a time of day with its offset. *)
Record date_fields := DateFields { fy0 : ascii; fy1 : ascii; fy2 : ascii; fy3 : ascii;
                                   fm0 : ascii; fm1 : ascii; fd0 : ascii; fd1 : ascii }.
Record time_fields := TimeFields { fsep : ascii; fh0 : ascii; fh1 : ascii;
                                   fn0 : ascii; fn1 : ascii; fs0 : ascii; fs1 : ascii;
                                   ffrac : option (ascii * gostring); ftz : gostring }.

Definition year_of (df : date_fields) : gostring := [fy0 df; fy1 df; fy2 df; fy3 df].
Definition month_of (df : date_fields) : gostring := [fm0 df; fm1 df].
Definition day_of (df : date_fields) : gostring := [fd0 df; fd1 df].
Definition hour_of (tf : time_fields) : gostring := [fh0 tf; fh1 tf].
Definition minute_of (tf : time_fields) : gostring := [fn0 tf; fn1 tf].
Definition second_of (tf : time_fields) : gostring := [fs0 tf; fs1 tf].

Definition wf_date (df : date_fields) : bool :=
  year_ok (fy0 df) (fy1 df) (fy2 df) (fy3 df)
  && month_ok (fm0 df) (fm1 df) && day_ok (fd0 df) (fd1 df).
Definition wf_time (tf : time_fields) : bool :=
  dtsep_ok (fsep tf) && hour_ok (fh0 tf) (fh1 tf) && minute_ok (fn0 tf) (fn1 tf)
  && second_ok (fs0 tf) (fs1 tf) && frac_ok (ffrac tf) && offset_ok (ftz tf).

(** The separators of a segment: all present or all absent. *)
Definition hyphen (hy : bool) : gostring := if hy then ["-"%char] else [].
Definition colon (co : bool) : gostring := if co then [":"%char] else [].

Definition render_date (hy : bool) (df : date_fields) : gostring :=
  year_of df ++ hyphen hy ++ month_of df ++ hyphen hy ++ day_of df.
Definition render_time (co : bool) (tf : time_fields) : gostring :=
  fsep tf :: hour_of tf ++ colon co ++ minute_of tf ++ colon co ++ second_of tf
  ++ render_frac (ffrac tf) ++ ftz tf.

(** The submatches of a timestamp with and without a time of day. *)
Definition parts_time (s : gostring) (df : date_fields) (tf : time_fields) : list gostring :=
  [s; year_of df; month_of df; day_of df; hour_of tf; minute_of tf; second_of tf;
   frac_digits (ffrac tf); ftz tf].
Definition parts_date (s : gostring) (df : date_fields) : list gostring :=
  [s; year_of df; month_of df; day_of df].

(** Every string a pattern matches is a rendering of well-formed fields. *)
Inductive accepted_shape (s : gostring) : list gostring -> Prop :=
| shape_time hy co df tf :
    wf_date df = true -> wf_time tf = true ->
    s = render_date hy df ++ render_time co tf ->
    accepted_shape s (parts_time s df tf)
| shape_date hy df :
    wf_date df = true -> s = render_date hy df ->
    accepted_shape s (parts_date s df).

(** *** Mixed separators

    A date segment that has one hyphen out of two: [YYYY-MMDD] or
    [YYYYMM-DD], whatever follows. *)
Definition date_mixed (s : gostring) : bool :=
  match s with
  | y0 :: y1 :: y2 :: y3 :: c4 :: c5 :: c6 :: c7 :: c8 :: _ =>
      all_digits [y0; y1; y2; y3]
      && ((Ascii.eqb c4 "-" && all_digits [c5; c6; c7; c8])
          || (all_digits [c4; c5] && Ascii.eqb c6 "-" && all_digits [c7; c8]))
  | _ => false
  end.

(** A date segment with both hyphens or none. *)
Definition date_segment (d : gostring) : bool :=
  match d with
  | [y0; y1; y2; y3; c4; m0; m1; c7; d0; d1] =>
      all_digits [y0; y1; y2; y3; m0; m1; d0; d1] && Ascii.eqb c4 "-" && Ascii.eqb c7 "-"
  | [y0; y1; y2; y3; m0; m1; d0; d1] =>
      all_digits [y0; y1; y2; y3; m0; m1; d0; d1]
  | _ => false
  end.

(** A time segment that has one colon out of two: [hh:mmss] or [hhmm:ss]
    after the separator, whatever follows. *)
Definition time_mixed_at (t : gostring) : bool :=
  match t with
  | sep :: h0 :: h1 :: c2 :: c3 :: c4 :: c5 :: c6 :: _ =>
      dtsep_ok sep && all_digits [h0; h1]
      && ((Ascii.eqb c2 ":" && all_digits [c3; c4; c5; c6])
          || (all_digits [c2; c3] && Ascii.eqb c4 ":" && all_digits [c5; c6]))
  | _ => false
  end.

Definition time_mixed (s : gostring) : bool :=
  (date_segment (firstn 10 s) && time_mixed_at (skipn 10 s))
  || (date_segment (firstn 8 s) && time_mixed_at (skipn 8 s)).

(** *** Values *)

Definition digit_val (a : ascii) : Z := code a - 48.

(** A digit string read as a decimal number. *)
Fixpoint decimal_from (n : Z) (w : gostring) : Z :=
  match w with
  | [] => n
  | a :: t => decimal_from (n * 10 + digit_val a) t
  end.

Definition decimal_value (w : gostring) : Z := decimal_from 0 w.

Definition nanos_of (fr : option (ascii * gostring)) : Z :=
  match fr with None => 0 | Some (_, ds) => decimal_value (pad9 ds) end.

Definition sign_of (sg : ascii) : Z := if Ascii.eqb sg "-" then -1 else 1.

(** Seconds east of UTC that an offset with hour and minute denotes. *)
Definition offset_seconds (tz : gostring) : Z :=
  match tz with
  | [sg; h0; h1; m0; m1] =>
      sign_of sg * (decimal_value [h0; h1] * 3600 + decimal_value [m0; m1] * 60)
  | [sg; h0; h1; _; m0; m1] =>
      sign_of sg * (decimal_value [h0; h1] * 3600 + decimal_value [m0; m1] * 60)
  | _ => 0
  end.

(** The error of the failure path of [iso8601.go]. *)
Definition invalid_timestamp (s : gostring) : error :=
  stacktrace_NewError "Invalid ISO 8601 timestamp: %#v" s.



(** *** The wrapper

    A JSON string literal: at least two bytes, the first and the last the
    same quotation mark. *)
Definition string_literal (data : gostring) : bool :=
  match data with
  | q :: body =>
      (Ascii.eqb q Wrapper.dquote || Ascii.eqb q Wrapper.squote)
      && match rev body with
         | l :: _ => Ascii.eqb l q
         | [] => false
         end
  | [] => false
  end.

Definition unquote (data : gostring) : gostring := removelast (tl data).

Definition not_a_string_literal (data : gostring) : error :=
  time_ParseError (str "ISO 8601") data [] []
    (str ": timestamp must be a JSON string literal").

(** Handing the inner text to the parser and storing what it returns. *)
Definition delegate (inner : gostring) : M (Wrapper.Time * option error) :=
  ' (tm, err) <- Wrapper.ParseISO8601Timestamp inner ;;
  Val ({| Wrapper.Time_Time := tm |}, err).

(** *** Sample values *)

Definition new_year_2001 : Wrapper.Time :=
  {| Wrapper.Time_Time := time_Date 2001 1 1 3 15 45 0 (time_FixedZone (str "UTC") 0) |}.

(* ================================================================= *)
(** ** Proof vocabulary

    The patterns regrouped by segment, and the submatches a segment leaves
    behind. *)

(** What a two-byte field matches. *)
Definition fixed2 (ok : ascii -> ascii -> bool) (st : mstate) : list (gostring * mstate) :=
  match rest st with
  | a :: b :: t => if ok a b then [([a; b], MState (S (S (pos st))) t (cap st))] else []
  | _ => []
  end.

Definition set_frac (fr : option (ascii * gostring)) (caps : list gostring) : list gostring :=
  match fr with None => caps | Some (_, ds) => set_nth 7 ds caps end.
Definition date_caps (df : date_fields) (caps : list gostring) : list gostring :=
  set_nth 3 (day_of df) (set_nth 2 (month_of df) (set_nth 1 (year_of df) caps)).
Definition time_caps (tf : time_fields) (caps : list gostring) : list gostring :=
  set_nth 8 (ftz tf) (set_frac (ffrac tf)
    (set_nth 6 (second_of tf) (set_nth 5 (minute_of tf) (set_nth 4 (hour_of tf) caps)))).

(** The date segment followed by [K], and the time segment to the end. *)
Definition date_re (hy : bool) (K : regexp) : regexp :=
  if hy
  then (Grp 1 year_re ;; Chr "-" ;; Grp 2 month_re ;; Chr "-" ;; Grp 3 day_re ;; K)%re
  else (Grp 1 year_re ;; Grp 2 month_re ;; Grp 3 day_re ;; K)%re.
Definition time_re (co : bool) : regexp :=
  if co
  then (dtsep_re ;; Grp 4 hour_re ;; Chr ":" ;; Grp 5 minute_re ;; Chr ":" ;; Grp 6 second_re
        ;; fraction_re ;; Grp 8 offset_re ;; Eot)%re
  else (dtsep_re ;; Grp 4 hour_re ;; Grp 5 minute_re ;; Grp 6 second_re
        ;; fraction_re ;; Grp 8 offset_re ;; Eot)%re.

(** Each of the six patterns is one of these (lemma [variants_layout]). *)
Definition layout_re (hy : bool) (co : option bool) : regexp :=
  (Bot ;; date_re hy (match co with Some c => time_re c | None => Eot end))%re.

Definition segment_after (co : option bool) (t : gostring) : Prop :=
  match co with
  | Some c => exists tf, wf_time tf = true /\ t = render_time c tf
  | None => t = []
  end.

(* ================================================================= *)
(** ** The value of a timestamp

    What the parser is expected to return for the fields of a timestamp,
    and the vocabulary of the further properties. *)

Definition date_month (t : time_Time) : option Z :=
  match t with time_Date _ m _ _ _ _ _ _ => Some m | time_zero => None end.
Definition date_day (t : time_Time) : option Z :=
  match t with time_Date _ _ d _ _ _ _ _ => Some d | time_zero => None end.
Definition date_hour (t : time_Time) : option Z :=
  match t with time_Date _ _ _ h _ _ _ _ => Some h | time_zero => None end.
Definition date_minute (t : time_Time) : option Z :=
  match t with time_Date _ _ _ _ mi _ _ _ => Some mi | time_zero => None end.
Definition date_second (t : time_Time) : option Z :=
  match t with time_Date _ _ _ _ _ s _ _ => Some s | time_zero => None end.
Definition date_location (t : time_Time) : option time_Location :=
  match t with time_Date _ _ _ _ _ _ _ l => Some l | time_zero => None end.

(** The location an offset with a minute denotes: [time.UTC] for [Z],
    otherwise the fixed zone named by sign, hour, colon and minute. *)
Definition offset_minute (tz : gostring) : gostring :=
  match tz with
  | [_; _; _; m0; m1] => [m0; m1]
  | [_; _; _; _; m0; m1] => [m0; m1]
  | _ => []
  end.
Definition zone_name (tz : gostring) : gostring :=
  match tz with
  | sg :: h0 :: h1 :: _ => [sg; h0; h1; ":"%char] ++ offset_minute tz
  | _ => []
  end.
Definition zone_value (tz : gostring) : time_Location :=
  if streq tz (str "Z") then time_UTC
  else time_FixedZone (zone_name tz) (offset_seconds tz).

(** The nanoseconds a fraction denotes: no fraction is 0, and the digits
    [ds] after the mark are the number they spell, in units of
    10^-(number of digits) seconds. *)
Definition fraction_nanoseconds (fr : option (ascii * gostring)) : Z :=
  match fr with
  | None => 0
  | Some (_, ds) => decimal_value ds * 10 ^ Z.of_nat (9 - length ds)
  end.

(** The call of [time.Date] that the fields of a timestamp denote. *)
Definition timestamp_value (df : date_fields) (tf : time_fields) : time_Time :=
  time_Date (decimal_value (year_of df)) (decimal_value (month_of df))
    (decimal_value (day_of df)) (decimal_value (hour_of tf))
    (decimal_value (minute_of tf)) (decimal_value (second_of tf))
    (fraction_nanoseconds (ffrac tf)) (zone_value (ftz tf)).
Definition date_value (df : date_fields) : time_Time :=
  time_Date (decimal_value (year_of df)) (decimal_value (month_of df))
    (decimal_value (day_of df)) 0 0 0 0 time_UTC.

(** The pattern of [init] for a layout. *)
Definition pattern_of (hy : bool) (co : option bool) : regexp :=
  match hy, co with
  | true, Some true => variant0
  | false, Some false => variant1
  | true, Some false => variant2
  | false, Some true => variant3
  | true, None => variant4
  | false, None => variant5
  end.

(** Two time segments that read the same: they may differ in the date/time
    separator and in the mark of the fraction. *)
Definition same_reading (tf tf' : time_fields) : Prop :=
  hour_of tf = hour_of tf' /\ minute_of tf = minute_of tf'
  /\ second_of tf = second_of tf'
  /\ frac_digits (ffrac tf) = frac_digits (ffrac tf') /\ ftz tf = ftz tf'.

Definition with_frac (fr : option (ascii * gostring)) (tf : time_fields) : time_fields :=
  TimeFields (fsep tf) (fh0 tf) (fh1 tf) (fn0 tf) (fn1 tf) (fs0 tf) (fs1 tf) fr (ftz tf).


Definition time_11_39_27 : time_fields :=
  TimeFields "T" "1" "1" "3" "9" "2" "7" (Some ("."%char, str "658731")) (str "-02:30").
Definition time_11_39_27_alt : time_fields :=
  TimeFields " " "1" "1" "3" "9" "2" "7" (Some (","%char, str "658731")) (str "-02:30").
Definition date_2020_02_17 : date_fields := DateFields "2" "0" "2" "0" "0" "2" "1" "7".

Definition in_range (lo hi : Z) (v : option Z) : Prop :=
  exists x, v = Some x /\ lo <= x <= hi.

Definition time_11_39_27_6 : time_fields :=
  TimeFields "T" "1" "1" "3" "9" "2" "7" (Some ("."%char, str "6")) (str "Z").

Definition civil_1900 : civil := Civil 1900 12 31 0 10 20 0 0.

(* ================================================================= *)
(** ** The matcher on the six patterns *)

Lemma streq_spec : forall a b, streq a b = true <-> a = b.
Proof.
  induction a as [|x a IH]; intros [|y b]; cbn [streq]; try (split; [discriminate|discriminate]).
  - tauto.
  - rewrite andb_true_iff, Ascii.eqb_eq, IH. split; [intros [-> ->]; reflexivity|].
    intros [= -> ->]. auto.
Qed.

Arguments in_cls : simpl never.
Arguments Ascii.eqb : simpl never.
Arguments set_nth : simpl never.

Lemma pre_pre a b x : pre a (pre b x) = pre (a ++ b) x.
Proof. destruct x. unfold pre. simpl. now rewrite app_assoc. Qed.

Lemma In_map_pre w l x : In x (map (pre w) l) <-> exists y, In y l /\ x = pre w y.
Proof. rewrite in_map_iff. split; intros (y & A & B); exists y; auto. Qed.

Ltac split_bool :=
  repeat first
  [ match goal with
    | H : in_cls ?r ?a = _ |- context [in_cls ?r ?a] => rewrite H
    | H : ?c <> ?a |- context [Ascii.eqb ?c ?a] =>
        rewrite (proj2 (Ascii.eqb_neq c a) H)
    | |- context [Ascii.eqb ?c ?a] =>
        is_var a; destruct (Ascii.eqb_spec c a); [subst a|]
    | |- context [Ascii.eqb ?c ?a] =>
        let v := eval vm_compute in (Ascii.eqb c a) in change (Ascii.eqb c a) with v
    | |- context [in_cls ?r ?a] =>
        is_var a; destruct (in_cls r a) eqn:?
    | |- context [in_cls ?r ?a] =>
        let v := eval vm_compute in (in_cls r a) in change (in_cls r a) with v
    end
  | progress cbn ].

Ltac det_field :=
  cbn [run Nat.sub rep rep_upto rest]; unfold andthen, one, advance; cbn [rest pos cap];
  split_bool; try reflexivity; try discriminate; try congruence.

Ltac field2 :=
  let p := fresh "p" in let r := fresh "r" in let cp := fresh "cp" in
  intros [p r cp]; unfold fixed2; cbn [rest pos cap];
  destruct r as [|? [|? r]]; det_field.

Lemma run_year st :
  run year_re st =
  match rest st with
  | a :: b :: c :: d :: t =>
      if year_ok a b c d
      then [([a; b; c; d], MState (S (S (S (S (pos st))))) t (cap st))] else []
  | _ => []
  end.
Proof.
  destruct st as [p r cp]. unfold year_re, year_ok, is_digit, digit. cbn [rest pos cap].
  destruct r as [|? [|? [|? [|? r]]]]; det_field.
Qed.

Lemma run_month : forall st, run month_re st = fixed2 month_ok st.
Proof. unfold month_re, month_ok. field2. Qed.
Lemma run_day : forall st, run day_re st = fixed2 day_ok st.
Proof. unfold day_re, day_ok, is_digit, digit. field2. Qed.
Lemma run_hour : forall st, run hour_re st = fixed2 hour_ok st.
Proof. unfold hour_re, hour_ok, is_digit, digit. field2. Qed.
Lemma run_minute : forall st, run minute_re st = fixed2 minute_ok st.
Proof. unfold minute_re, minute_ok, is_digit, digit. field2. Qed.
Lemma run_second : forall st, run second_re st = fixed2 second_ok st.
Proof. unfold second_re, second_ok, is_digit, digit. field2. Qed.

(** Continuation forms. *)
Lemma run_grp2 i f ok K st :
  (forall st, run f st = fixed2 ok st) ->
  run (Grp i f ;; K) st =
  match rest st with
  | a :: b :: t =>
      if ok a b
      then map (pre [a; b]) (run K (MState (S (S (pos st))) t (set_nth i [a; b] (cap st))))
      else []
  | _ => []
  end.
Proof.
  intros Hf. cbn [run]. unfold andthen. rewrite Hf. unfold fixed2.
  destruct (rest st) as [|a [|b t]]; try reflexivity.
  destruct (ok a b); [|reflexivity]. cbn. apply app_nil_r.
Qed.

Lemma run_grp_year K st :
  run (Grp 1 year_re ;; K) st =
  match rest st with
  | a :: b :: c :: d :: t =>
      if year_ok a b c d
      then map (pre [a; b; c; d])
             (run K (MState (S (S (S (S (pos st))))) t (set_nth 1 [a; b; c; d] (cap st))))
      else []
  | _ => []
  end.
Proof.
  cbn [run]. unfold andthen. rewrite run_year.
  destruct (rest st) as [|a [|b [|c [|d t]]]]; try reflexivity.
  destruct (year_ok a b c d); [|reflexivity]. cbn. apply app_nil_r.
Qed.

Lemma run_chr c K st :
  run (Chr c ;; K) st =
  match rest st with
  | a :: t => if Ascii.eqb c a then map (pre [a]) (run K (MState (S (pos st)) t (cap st))) else []
  | [] => []
  end.
Proof.
  cbn [run]. unfold andthen, one, advance.
  destruct (rest st) as [|a t]; try reflexivity.
  destruct (Ascii.eqb c a); [|reflexivity]. cbn. apply app_nil_r.
Qed.

Lemma run_dtsep K st :
  run (dtsep_re ;; K) st =
  match rest st with
  | a :: t => if dtsep_ok a then map (pre [a]) (run K (MState (S (pos st)) t (cap st))) else []
  | [] => []
  end.
Proof.
  unfold dtsep_re, dtsep_ok. cbn [run]. unfold andthen, one, advance.
  destruct (rest st) as [|a t]; try reflexivity.
  destruct (in_cls _ a); [|reflexivity]. cbn. apply app_nil_r.
Qed.

Lemma run_bot K s caps :
  run (Bot ;; K) (MState 0 s caps) = map (pre []) (run K (MState 0 s caps)).
Proof. cbn. unfold andthen. cbn. apply app_nil_r. Qed.

Lemma run_bot_later K p s caps : run (Bot ;; K) (MState (S p) s caps) = [].
Proof. reflexivity. Qed.

Lemma run_eot st :
  run Eot st = match rest st with [] => [([], st)] | _ :: _ => [] end.
Proof. reflexivity. Qed.

(** The offset and the end of the text. *)
Lemma run_offset_eot st :
  run (Grp 8 offset_re ;; Eot) st =
  if offset_ok (rest st)
  then [(rest st, MState (length (rest st) + pos st) [] (set_nth 8 (rest st) (cap st)))]
  else [].
Proof.
  destruct st as [p r cp]. unfold offset_re, offset_ok, sign_ok, minute_ok, is_digit, digit.
  cbn [rest pos cap].
  destruct r as [|? [|? [|? [|? [|? [|? [|? r]]]]]]]; det_field.

Qed.

(** *** Repetition of a class *)

Lemma In_andthen f g st x :
  In x (andthen f g st) <->
  exists w1 st1 y, In (w1, st1) (f st) /\ In y (g st1) /\ x = pre w1 y.
Proof.
  unfold andthen. rewrite in_flat_map. split.
  - intros ([w1 st1] & A & B). apply In_map_pre in B as (y & B & ->).
    exists w1, st1, y. auto.
  - intros (w1 & st1 & y & A & B & ->). exists (w1, st1). split; [assumption|].
    apply In_map_pre. exists y. auto.
Qed.

Lemma In_one ok st x :
  In x (one ok st) <->
  exists a t, rest st = a :: t /\ ok a = true /\ x = ([a], MState (S (pos st)) t (cap st)).
Proof.
  unfold one, advance. destruct (rest st) as [|a t].
  - split; [intros []|intros (a & t & A & _); discriminate].
  - destruct (ok a) eqn:E.
    + split.
      * intros [<-|[]]. exists a, t. auto.
      * intros (a' & t' & A & B & ->). injection A as <- <-. now left.
    + split; [intros []|].
      intros (a' & t' & A & B & ->). injection A as <- <-. congruence.
Qed.

Lemma In_rep_upto ok n : forall st x,
  In x (rep_upto (one ok) n st) <->
  exists w t, rest st = w ++ t /\ forallb ok w = true /\ (length w <= n)%nat
              /\ x = (w, MState (length w + pos st) t (cap st)).
Proof.
  induction n as [|n IH]; intros [p r cp] x; cbn [rep_upto rest pos cap].
  - split.
    + intros [<-|[]]. exists [], r. repeat split; auto.
    + intros (w & t & A & B & C & ->). destruct w; [|cbn in C; lia].
      cbn in A. subst. now left.
  - rewrite in_app_iff, In_andthen. split.
    + intros [(w1 & st1 & y & A & B & ->)|[<-|[]]].
      * apply In_one in A as (a & t & A & Ha & E). injection E as -> ->.
        cbn [rest pos cap] in A. subst r.
        apply IH in B as (w & t' & B & Hw & Hn & ->). cbn [rest pos cap] in *. subst t.
        exists (a :: w), t'. cbn. rewrite Ha, Hw.
        repeat split; auto; try lia. unfold pre. cbn. do 2 f_equal. f_equal. lia.
      * exists [], r. repeat split; auto. cbn. lia.
    + intros (w & t & A & B & C & ->). destruct w as [|a w].
      * right. cbn in A. subst. now left.
      * left. cbn in A, B, C. apply andb_true_iff in B as [Ha Hw]. subst r.
        exists [a], (MState (S p) (w ++ t) cp), (w, MState (length w + S p) t cp).
        split; [apply In_one; exists a, (w ++ t); auto|].
        split; [apply IH; exists w, t; cbn; repeat split; auto; lia|].
        unfold pre. cbn. do 2 f_equal. f_equal. lia.
Qed.

Lemma In_rep ok lo extra : forall st x,
  In x (rep (one ok) lo extra st) <->
  exists w t, rest st = w ++ t /\ forallb ok w = true
              /\ (lo <= length w <= lo + extra)%nat
              /\ x = (w, MState (length w + pos st) t (cap st)).
Proof.
  induction lo as [|lo IH]; intros [p r cp] x; cbn [rep rest pos cap].
  - rewrite In_rep_upto. cbn [rest pos cap]. split.
    + intros (w & t & A & B & C & ->). exists w, t. repeat split; auto; lia.
    + intros (w & t & A & B & C & ->). exists w, t. repeat split; auto; lia.
  - rewrite In_andthen. split.
    + intros (w1 & st1 & y & A & B & ->).
      apply In_one in A as (a & t & A & Ha & E). injection E as -> ->.
      cbn [rest pos cap] in A. subst r.
      apply IH in B as (w & t' & B & Hw & Hn & ->). cbn [rest pos cap] in *. subst t.
      exists (a :: w), t'. cbn. rewrite Ha, Hw.
      repeat split; auto; try lia. unfold pre. cbn. do 2 f_equal. f_equal. lia.
    + intros (w & t & A & B & C & ->). destruct w as [|a w]; [cbn in C; lia|].
      cbn in A, B, C. apply andb_true_iff in B as [Ha Hw]. subst r.
      exists [a], (MState (S p) (w ++ t) cp), (w, MState (length w + S p) t cp).
      split; [apply In_one; exists a, (w ++ t); auto|].
      split; [apply IH; exists w, t; cbn; repeat split; auto; lia|].
      unfold pre. cbn. do 2 f_equal. f_equal. lia.
Qed.

(** *** The fraction and the offset *)

Lemma sign_ok_inv c : sign_ok c = true -> c = "-"%char \/ c = "+"%char.
Proof.
  destruct c as [[] [] [] [] [] [] [] []]; vm_compute; intros H;
    try discriminate H; auto.
Qed.

Lemma offset_ok_sign tz :
  offset_ok tz = true ->
  exists c t, tz = c :: t /\ (c = "Z"%char \/ c = "-"%char \/ c = "+"%char).
Proof.
  unfold offset_ok. destruct tz as [|c t]; [discriminate|]. intros H.
  exists c, t. split; [reflexivity|].
  destruct t as [|? [|? [|? [|? [|? [|? ?]]]]]]; try discriminate;
    try (apply Ascii.eqb_eq in H; auto);
    repeat (apply andb_true_iff in H as [H _]); right; now apply sign_ok_inv.
Qed.

Lemma offset_ok_head tz :
  offset_ok tz = true ->
  exists c t, tz = c :: t /\ is_digit c = false /\ fsep_ok c = false.
Proof.
  intros H. apply offset_ok_sign in H as (c & t & -> & [->|[->| ->]]);
    eexists _, t; repeat split.
Qed.

Lemma In_tail x st :
  In x (run (fraction_re ;; Grp 8 offset_re ;; Eot) st) <->
  exists fr tz, frac_ok fr = true /\ offset_ok tz = true
    /\ rest st = render_frac fr ++ tz
    /\ x = (rest st, MState (length (rest st) + pos st) [] (set_nth 8 tz (set_frac fr (cap st)))).
Proof.
  destruct st as [p r cp].
  change (run (fraction_re ;; Grp 8 offset_re ;; Eot) (MState p r cp))
    with (andthen (fun st => andthen (one fsep_ok)
                     (fun st1 => map (close 7) (rep (one is_digit) 1 8 st1)) st
                     ++ [([], st)])
            (run (Grp 8 offset_re ;; Eot)) (MState p r cp)).
  rewrite In_andthen. cbn [rest pos cap]. split.
  - intros (w1 & st1 & y & A & B & ->). rewrite run_offset_eot in B.
    apply in_app_iff in A as [A|[A|[]]].
    + apply In_andthen in A as (w0 & st0 & z & A & C & E).
      apply In_one in A as (c & t & A & Hc & E0). injection E0 as -> ->.
      cbn [rest pos cap] in A. subst r.
      apply in_map_iff in C as (z0 & <- & C).
      apply In_rep in C as (ds & t' & C & Hds & Hlen & ->).
      cbn [rest pos cap] in C. subst t.
      unfold close, pre in E. cbn in E. injection E as -> ->. cbn [rest pos cap] in B.
      destruct (offset_ok t') eqn:Ht; [|destruct B]. destruct B as [<-|[]].
      exists (Some (c, ds)), t'. cbn [frac_ok render_frac set_frac].
      rewrite Hc, Hds, Ht.
      rewrite (proj2 (Nat.leb_le 1 (length ds))) by lia.
      rewrite (proj2 (Nat.leb_le (length ds) 9)) by lia.
      repeat split. unfold pre. cbn [fst snd app length]. rewrite length_app.
      do 2 f_equal. lia.
    + injection A as <- <-. cbn [rest pos cap] in B.
      destruct (offset_ok r) eqn:Ht; [|destruct B]. destruct B as [<-|[]].
      exists None, r. cbn. auto.
  - intros (fr & tz & Hfr & Htz & -> & ->).
    destruct fr as [[c ds]|]; cbn [frac_ok render_frac set_frac app] in *.
    + apply andb_true_iff in Hfr as [Hfr H9]. apply andb_true_iff in Hfr as [Hfr H1].
      apply andb_true_iff in Hfr as [Hc Hds].
      apply Nat.leb_le in H1, H9.
      exists (c :: ds), (MState (length ds + S p) tz (set_nth 7 ds cp)),
        (tz, MState (length tz + (length ds + S p)) [] (set_nth 8 tz (set_nth 7 ds cp))).
      split; [|split].
      * apply in_app_iff. left. apply In_andthen.
        exists [c], (MState (S p) (ds ++ tz) cp), (ds, MState (length ds + S p) tz (set_nth 7 ds cp)).
        split; [apply In_one; exists c, (ds ++ tz); auto|]. split; [|reflexivity].
        apply in_map_iff. exists (ds, MState (length ds + S p) tz cp). split; [reflexivity|].
        apply In_rep. exists ds, tz. cbn. repeat split; auto; lia.
      * rewrite run_offset_eot. cbn [rest pos cap]. rewrite Htz. now left.
      * unfold pre. cbn [fst snd app length]. rewrite length_app. do 2 f_equal. lia.
    + exists [], (MState p tz cp), (tz, MState (length tz + p) [] (set_nth 8 tz cp)).
      split; [apply in_app_iff; right; now left|]. split; [|reflexivity].
      rewrite run_offset_eot. cbn [rest pos cap]. rewrite Htz. now left.
Qed.

(** *** The date and the time segments *)

Lemma run_grp_month i K st :
  run (Grp i month_re ;; K) st =
  match rest st with
  | a :: b :: t =>
      if month_ok a b
      then map (pre [a; b]) (run K (MState (S (S (pos st))) t (set_nth i [a; b] (cap st))))
      else []
  | _ => []
  end.
Proof. apply run_grp2, run_month. Qed.
Lemma run_grp_day i K st :
  run (Grp i day_re ;; K) st =
  match rest st with
  | a :: b :: t =>
      if day_ok a b
      then map (pre [a; b]) (run K (MState (S (S (pos st))) t (set_nth i [a; b] (cap st))))
      else []
  | _ => []
  end.
Proof. apply run_grp2, run_day. Qed.
Lemma run_grp_hour i K st :
  run (Grp i hour_re ;; K) st =
  match rest st with
  | a :: b :: t =>
      if hour_ok a b
      then map (pre [a; b]) (run K (MState (S (S (pos st))) t (set_nth i [a; b] (cap st))))
      else []
  | _ => []
  end.
Proof. apply run_grp2, run_hour. Qed.
Lemma run_grp_minute i K st :
  run (Grp i minute_re ;; K) st =
  match rest st with
  | a :: b :: t =>
      if minute_ok a b
      then map (pre [a; b]) (run K (MState (S (S (pos st))) t (set_nth i [a; b] (cap st))))
      else []
  | _ => []
  end.
Proof. apply run_grp2, run_minute. Qed.
Lemma run_grp_second i K st :
  run (Grp i second_re ;; K) st =
  match rest st with
  | a :: b :: t =>
      if second_ok a b
      then map (pre [a; b]) (run K (MState (S (S (pos st))) t (set_nth i [a; b] (cap st))))
      else []
  | _ => []
  end.
Proof. apply run_grp2, run_second. Qed.

Lemma In_pre_app w w' y l :
  In (pre w' y) l -> In (pre (w ++ w') y) (map (pre w) l).
Proof. intros H. apply In_map_pre. exists (pre w' y). split; [assumption|]. now rewrite pre_pre. Qed.

(** One step of a match in a hypothesis: the next field or separator. *)
Ltac step_in H :=
  first [ rewrite run_grp_year in H | rewrite run_grp_month in H | rewrite run_grp_day in H
        | rewrite run_grp_hour in H | rewrite run_grp_minute in H
        | rewrite run_grp_second in H | rewrite run_chr in H | rewrite run_dtsep in H ];
  cbn [rest pos cap] in H;
  repeat match type of H with
         | In _ (match ?r with [] => _ | _ :: _ => _ end) =>
             let a := fresh "a" in destruct r as [|a r]; [destruct H|]
         end;
  match type of H with
  | In _ (if ?b then _ else _) => destruct b eqn:?; [|destruct H]
  end;
  let y := fresh "y" in apply In_map_pre in H as (y & H & ->).

Ltac eqb_subst :=
  repeat match goal with
         | H : Ascii.eqb _ _ = true |- _ => apply Ascii.eqb_eq in H; subst
         end.

Ltac use_true :=
  repeat match goal with
         | H : ?b = true |- context [?b] => rewrite H
         end.

Lemma In_date hy K x st :
  In x (run (date_re hy K) st) <->
  exists df t y, wf_date df = true /\ rest st = render_date hy df ++ t
    /\ In y (run K (MState (length (render_date hy df) + pos st) t (date_caps df (cap st))))
    /\ x = pre (render_date hy df) y.
Proof.
  destruct st as [p r cp]. cbn [rest pos cap]. split.
  - intros H. destruct hy; unfold date_re in H.
    + do 5 step_in H. eqb_subst.
      eexists (DateFields _ _ _ _ _ _ _ _), _, _.
      split; [|split; [reflexivity|split; [exact H|]]].
      * unfold wf_date. cbn [fy0 fy1 fy2 fy3 fm0 fm1 fd0 fd1]. use_true. reflexivity.
      * rewrite !pre_pre. reflexivity.
    + do 3 step_in H. eqb_subst.
      eexists (DateFields _ _ _ _ _ _ _ _), _, _.
      split; [|split; [reflexivity|split; [exact H|]]].
      * unfold wf_date. cbn [fy0 fy1 fy2 fy3 fm0 fm1 fd0 fd1]. use_true. reflexivity.
      * rewrite !pre_pre. reflexivity.
  - intros ([a b c d e f g h] & t & y & Hwf & -> & Hy & ->).
    unfold wf_date in Hwf. cbn [fy0 fy1 fy2 fy3 fm0 fm1 fd0 fd1] in Hwf.
    apply andb_true_iff in Hwf as [Hwf Hd]. apply andb_true_iff in Hwf as [Hyr Hm].
    destruct hy; unfold date_re.
    + rewrite run_grp_year. cbn [rest pos cap render_date year_of month_of day_of hyphen app
        fy0 fy1 fy2 fy3 fm0 fm1 fd0 fd1]. rewrite Hyr.
      apply (In_pre_app [a; b; c; d]).
      rewrite run_chr. cbn [rest pos cap]. rewrite Ascii.eqb_refl.
      apply (In_pre_app ["-"%char]).
      rewrite run_grp_month. cbn [rest pos cap]. rewrite Hm.
      apply (In_pre_app [e; f]).
      rewrite run_chr. cbn [rest pos cap]. rewrite Ascii.eqb_refl.
      apply (In_pre_app ["-"%char]).
      rewrite run_grp_day. cbn [rest pos cap]. rewrite Hd.
      apply (In_pre_app [g; h] []). destruct y. exact Hy.
    + rewrite run_grp_year. cbn [rest pos cap render_date year_of month_of day_of hyphen app
        fy0 fy1 fy2 fy3 fm0 fm1 fd0 fd1]. rewrite Hyr.
      apply (In_pre_app [a; b; c; d]).
      rewrite run_grp_month. cbn [rest pos cap]. rewrite Hm.
      apply (In_pre_app [e; f]).
      rewrite run_grp_day. cbn [rest pos cap]. rewrite Hd.
      apply (In_pre_app [g; h] []). destruct y. exact Hy.
Qed.

Lemma In_time co x st :
  In x (run (time_re co) st) <->
  exists tf, wf_time tf = true /\ rest st = render_time co tf
    /\ x = (rest st, MState (length (rest st) + pos st) [] (time_caps tf (cap st))).
Proof.
  destruct st as [p r cp]. cbn [rest pos cap]. split.
  - intros H. destruct co; unfold time_re in H.
    + do 6 step_in H. eqb_subst.
      apply In_tail in H as (fr & tz & Hfr & Htz & Hr & ->). cbn [rest pos cap] in *. subst r.
      eexists (TimeFields _ _ _ _ _ _ _ fr tz).
      split; [|split; [reflexivity|]].
      * unfold wf_time. cbn [fsep fh0 fh1 fn0 fn1 fs0 fs1 ffrac ftz]. use_true. reflexivity.
      * unfold pre. cbn [fst snd app length]. do 2 f_equal. lia.
    + do 4 step_in H. eqb_subst.
      apply In_tail in H as (fr & tz & Hfr & Htz & Hr & ->). cbn [rest pos cap] in *. subst r.
      eexists (TimeFields _ _ _ _ _ _ _ fr tz).
      split; [|split; [reflexivity|]].
      * unfold wf_time. cbn [fsep fh0 fh1 fn0 fn1 fs0 fs1 ffrac ftz]. use_true. reflexivity.
      * unfold pre. cbn [fst snd app length]. do 2 f_equal. lia.
  - intros ([a b c d e f g fr tz] & Hwf & -> & ->).
    unfold wf_time in Hwf. cbn [fsep fh0 fh1 fn0 fn1 fs0 fs1 ffrac ftz] in Hwf.
    apply andb_true_iff in Hwf as [Hwf Htz]. apply andb_true_iff in Hwf as [Hwf Hfr].
    apply andb_true_iff in Hwf as [Hwf Hs]. apply andb_true_iff in Hwf as [Hwf Hn].
    apply andb_true_iff in Hwf as [Ha Hh].
    assert (Ht : In (render_frac fr ++ tz,
                     MState (length (render_frac fr ++ tz) + S (S (S (S (S (S (S (if co then S (S p) else p))))))))
                       [] (time_caps (TimeFields a b c d e f g fr tz) cp))
                 (run (fraction_re ;; Grp 8 offset_re ;; Eot)
                    (MState (S (S (S (S (S (S (S (if co then S (S p) else p))))))))
                       (render_frac fr ++ tz)
                       (set_nth 6 [f; g] (set_nth 5 [d; e] (set_nth 4 [b; c] cp)))))).
    { apply In_tail. exists fr, tz. repeat split; assumption. }
    destruct co; unfold time_re, render_time, hour_of, minute_of, second_of, colon;
      cbn [app fsep fh0 fh1 fn0 fn1 fs0 fs1 ffrac ftz].
    + rewrite run_dtsep. cbn [rest pos cap]. rewrite Ha.
      change (In (pre ([a] ++ [b; c] ++ [":"%char] ++ [d; e] ++ [":"%char] ++ [f; g] ++ [])
                    (render_frac fr ++ tz, MState
                       (length (a :: b :: c :: ":"%char :: d :: e :: ":"%char :: f :: g
                                  :: render_frac fr ++ tz) + p) []
                       (time_caps (TimeFields a b c d e f g fr tz) cp)))
                 (map (pre [a]) (run (Grp 4 hour_re ;; Chr ":" ;; Grp 5 minute_re ;; Chr ":"
                       ;; Grp 6 second_re ;; fraction_re ;; Grp 8 offset_re ;; Eot)
                     (MState (S p) (b :: c :: ":"%char :: d :: e :: ":"%char :: f :: g
                                  :: render_frac fr ++ tz) cp)))).
      apply In_pre_app.
      rewrite run_grp_hour. cbn [rest pos cap]. rewrite Hh. apply In_pre_app.
      rewrite run_chr. cbn [rest pos cap]. rewrite Ascii.eqb_refl. apply In_pre_app.
      rewrite run_grp_minute. cbn [rest pos cap]. rewrite Hn. apply In_pre_app.
      rewrite run_chr. cbn [rest pos cap]. rewrite Ascii.eqb_refl. apply In_pre_app.
      rewrite run_grp_second. cbn [rest pos cap]. rewrite Hs. apply In_pre_app.
      unfold pre. cbn [fst snd app length] in *.
      replace (S (S (S (S (S (S (S (S (S (length (render_frac fr ++ tz)))))))))) + p)%nat
        with (length (render_frac fr ++ tz) + S (S (S (S (S (S (S (S (S p)))))))))%nat by lia.
      exact Ht.
    + rewrite run_dtsep. cbn [rest pos cap]. rewrite Ha.
      change (In (pre ([a] ++ [b; c] ++ [d; e] ++ [f; g] ++ [])
                    (render_frac fr ++ tz, MState
                       (length (a :: b :: c :: d :: e :: f :: g
                                  :: render_frac fr ++ tz) + p) []
                       (time_caps (TimeFields a b c d e f g fr tz) cp)))
                 (map (pre [a]) (run (Grp 4 hour_re ;; Grp 5 minute_re
                       ;; Grp 6 second_re ;; fraction_re ;; Grp 8 offset_re ;; Eot)
                     (MState (S p) (b :: c :: d :: e :: f :: g
                                  :: render_frac fr ++ tz) cp)))).
      apply In_pre_app.
      rewrite run_grp_hour. cbn [rest pos cap]. rewrite Hh. apply In_pre_app.
      rewrite run_grp_minute. cbn [rest pos cap]. rewrite Hn. apply In_pre_app.
      rewrite run_grp_second. cbn [rest pos cap]. rewrite Hs. apply In_pre_app.
      unfold pre. cbn [fst snd app length] in *.
      replace (S (S (S (S (S (S (S (length (render_frac fr ++ tz)))))))) + p)%nat
        with (length (render_frac fr ++ tz) + S (S (S (S (S (S (S p)))))))%nat by lia.
      exact Ht.
Qed.

(** *** The six layouts *)

Lemma variants_layout :
  iso8601Variants =
  [layout_re true (Some true); layout_re false (Some false); layout_re true (Some false);
   layout_re false (Some true); layout_re true None; layout_re false None].
Proof. reflexivity. Qed.

Lemma search_later K caps : forall s p, search (Bot ;; K) caps (S p) s = None.
Proof. induction s as [|a s IH]; intros p; cbn [search]; rewrite run_bot_later; auto. Qed.

Lemma map_pre_nil l : map (pre []) l = l.
Proof. rewrite <- (map_id l) at 2. apply map_ext. now intros []. Qed.

Lemma search_anchored K caps s :
  search (Bot ;; K) caps 0 s = hd_error (run K (MState 0 s caps)).
Proof.
  destruct s as [|a s]; cbn [search]; rewrite run_bot, map_pre_nil;
    destruct (run K _); try reflexivity. now rewrite search_later.
Qed.

Lemma hd_error_unique {A} (l : list A) (x : A) :
  In x l -> (forall y, In y l -> y = x) -> hd_error l = Some x.
Proof.
  destruct l as [|a l]; [intros []|]. intros _ H. cbn. f_equal. apply H. now left.
Qed.

Lemma hd_error_In {A} (l : list A) (x : A) : hd_error l = Some x -> In x l.
Proof. destruct l; [discriminate|]. intros [= ->]. now left. Qed.

Lemma render_date_inj hy df df' t t' :
  render_date hy df ++ t = render_date hy df' ++ t' -> df = df' /\ t = t'.
Proof.
  destruct df, df', hy; cbn; intros H; injection H as -> -> -> -> -> -> -> -> ->; auto.
Qed.

Lemma digits_split : forall ds ds' tz tz',
  forallb is_digit ds = true -> forallb is_digit ds' = true ->
  offset_ok tz = true -> offset_ok tz' = true ->
  ds ++ tz = ds' ++ tz' -> ds = ds' /\ tz = tz'.
Proof.
  induction ds as [|a ds IH]; intros [|b ds'] tz tz' Hd Hd' Ht Ht' E; cbn in *.
  - auto.
  - subst tz. apply offset_ok_head in Ht as (c & t & [= <- <-] & Hc & _).
    apply andb_true_iff in Hd' as [Hb _]. congruence.
  - subst tz'. apply offset_ok_head in Ht' as (c & t & [= <- <-] & Hc & _).
    apply andb_true_iff in Hd as [Hb _]. congruence.
  - injection E as <- E. apply andb_true_iff in Hd as [_ Hd].
    apply andb_true_iff in Hd' as [_ Hd'].
    destruct (IH ds' tz tz' Hd Hd' Ht Ht' E) as [-> ->]. auto.
Qed.

Lemma tail_unique fr tz fr' tz' :
  frac_ok fr = true -> offset_ok tz = true ->
  frac_ok fr' = true -> offset_ok tz' = true ->
  render_frac fr ++ tz = render_frac fr' ++ tz' -> fr = fr' /\ tz = tz'.
Proof.
  intros Hf Ht Hf' Ht' E.
  destruct fr as [[c ds]|], fr' as [[c' ds']|]; cbn [render_frac frac_ok app] in *.
  - injection E as <- E.
    do 2 (apply andb_true_iff in Hf as [Hf _]). apply andb_true_iff in Hf as [_ Hf].
    do 2 (apply andb_true_iff in Hf' as [Hf' _]). apply andb_true_iff in Hf' as [_ Hf'].
    destruct (digits_split _ _ _ _ Hf Hf' Ht Ht' E) as [-> ->]. auto.
  - subst tz'. apply offset_ok_head in Ht' as (c' & t & [= <- <-] & _ & Hc).
    repeat (apply andb_true_iff in Hf as [Hf _]). congruence.
  - subst tz. apply offset_ok_head in Ht as (c & t & [= <- <-] & _ & Hc).
    repeat (apply andb_true_iff in Hf' as [Hf' _]). congruence.
  - auto.
Qed.

Lemma render_time_inj co tf tf' :
  wf_time tf = true -> wf_time tf' = true ->
  render_time co tf = render_time co tf' -> tf = tf'.
Proof.
  destruct tf as [a b c d e f g fr tz], tf' as [a' b' c' d' e' f' g' fr' tz'].
  unfold wf_time, render_time, hour_of, minute_of, second_of.
  cbn [fsep fh0 fh1 fn0 fn1 fs0 fs1 ffrac ftz]. intros H H' E.
  apply andb_true_iff in H as [H Htz]. apply andb_true_iff in H as [_ Hfr].
  apply andb_true_iff in H' as [H' Htz']. apply andb_true_iff in H' as [_ Hfr'].
  destruct co; cbn in E; injection E as -> -> -> -> -> -> -> E;
    destruct (tail_unique _ _ _ _ Hfr Htz Hfr' Htz' E) as [-> ->]; reflexivity.
Qed.

Lemma find_layout hy co s :
  first_match (layout_re hy co) s =
  hd_error (run (date_re hy (match co with Some c => time_re c | None => Eot end))
              (MState 0 s (repeat [] (match co with Some _ => 9 | None => 4 end)%nat))).
Proof.
  unfold first_match, layout_re. rewrite search_anchored.
  destruct hy, co as [[]|]; reflexivity.
Qed.

Lemma In_layout_time hy co s x :
  In x (run (date_re hy (time_re co)) (MState 0 s (repeat [] 9))) <->
  exists df tf, wf_date df = true /\ wf_time tf = true
    /\ s = render_date hy df ++ render_time co tf
    /\ x = (s, MState (length s) [] (time_caps tf (date_caps df (repeat [] 9)))).
Proof.
  rewrite In_date. cbn [rest pos cap]. split.
  - intros (df & t & y & Hd & -> & Hy & ->).
    apply In_time in Hy as (tf & Ht & E & ->). cbn [rest pos cap] in *. subst t.
    exists df, tf. repeat split; try assumption.
    unfold pre. cbn [fst snd]. rewrite length_app. do 2 f_equal. lia.
  - intros (df & tf & Hd & Ht & -> & ->).
    exists df, (render_time co tf),
      (render_time co tf,
       MState (length (render_time co tf) + (length (render_date hy df) + 0)) []
         (time_caps tf (date_caps df (repeat [] 9)))).
    repeat split; try assumption.
    + apply In_time. exists tf. repeat split; assumption.
    + unfold pre. cbn [fst snd]. rewrite length_app. do 2 f_equal. lia.
Qed.

Lemma In_layout_date hy s x :
  In x (run (date_re hy Eot) (MState 0 s (repeat [] 4))) <->
  exists df, wf_date df = true /\ s = render_date hy df
    /\ x = (s, MState (length s) [] (date_caps df (repeat [] 4))).
Proof.
  rewrite In_date. cbn [rest pos cap]. split.
  - intros (df & t & y & Hd & -> & Hy & ->). rewrite run_eot in Hy. cbn [rest] in Hy.
    destruct t; [|destruct Hy]. destruct Hy as [<-|[]].
    exists df. rewrite app_nil_r. repeat split; try assumption.
    unfold pre. cbn [fst snd]. rewrite app_nil_r. do 2 f_equal. lia.
  - intros (df & Hd & -> & ->).
    exists df, [], ([], MState (length (render_date hy df) + 0) [] (date_caps df (repeat [] 4))).
    rewrite app_nil_r. repeat split; try assumption.
    + now left.
    + unfold pre. cbn [fst snd]. rewrite app_nil_r. do 2 f_equal. lia.
Qed.

Lemma find_time hy co s x :
  first_match (layout_re hy (Some co)) s = Some x <->
  exists df tf, wf_date df = true /\ wf_time tf = true
    /\ s = render_date hy df ++ render_time co tf
    /\ x = (s, MState (length s) [] (time_caps tf (date_caps df (repeat [] 9)))).
Proof.
  rewrite find_layout. split.
  - intros H. apply hd_error_In in H. now apply In_layout_time.
  - intros H. apply hd_error_unique; [now apply In_layout_time|].
    intros y Hy. apply In_layout_time in Hy as (df' & tf' & Hd' & Ht' & E' & ->).
    destruct H as (df & tf & Hd & Ht & E & ->). subst s.
    apply render_date_inj in E' as [-> E'].
    apply render_time_inj in E'; try assumption. now subst.
Qed.

Lemma find_date hy s x :
  first_match (layout_re hy None) s = Some x <->
  exists df, wf_date df = true /\ s = render_date hy df
    /\ x = (s, MState (length s) [] (date_caps df (repeat [] 4))).
Proof.
  rewrite find_layout. split.
  - intros H. apply hd_error_In in H. now apply In_layout_date.
  - intros H. apply hd_error_unique; [now apply In_layout_date|].
    intros y Hy. apply In_layout_date in Hy as (df' & Hd' & E' & ->).
    destruct H as (df & Hd & E & ->). subst s.
    rewrite <- (app_nil_r (render_date hy df)), <- (app_nil_r (render_date hy df')) in E'.
    apply render_date_inj in E' as [-> _]. reflexivity.
Qed.

Lemma caps_time s df tf :
  set_nth 0 s (time_caps tf (date_caps df (repeat [] 9))) = parts_time s df tf.
Proof. destruct tf as [a b c d e f g [[x ds]|] tz]; reflexivity. Qed.

(** What [MatchString] and [FindStringSubmatch] say on each layout. *)
Lemma match_time hy co s :
  MatchString (layout_re hy (Some co)) s = true <->
  exists df tf, wf_date df = true /\ wf_time tf = true
    /\ s = render_date hy df ++ render_time co tf.
Proof.
  unfold MatchString. split.
  - destruct (first_match _ s) as [x|] eqn:E; [|discriminate]. intros _.
    apply find_time in E as (df & tf & A & B & C & _). eauto.
  - intros (df & tf & A & B & C).
    assert (E : first_match (layout_re hy (Some co)) s =
                Some (s, MState (length s) [] (time_caps tf (date_caps df (repeat [] 9)))))
      by (apply find_time; eauto 6).
    now rewrite E.
Qed.

Lemma submatch_time hy co df tf :
  wf_date df = true -> wf_time tf = true ->
  FindStringSubmatch (layout_re hy (Some co)) (render_date hy df ++ render_time co tf) =
  parts_time (render_date hy df ++ render_time co tf) df tf.
Proof.
  intros A B. unfold FindStringSubmatch.
  assert (E : first_match (layout_re hy (Some co)) (render_date hy df ++ render_time co tf) =
              Some (render_date hy df ++ render_time co tf,
                    MState (length (render_date hy df ++ render_time co tf)) []
                      (time_caps tf (date_caps df (repeat [] 9)))))
    by (apply find_time; eauto 6).
  rewrite E. cbn [cap]. apply caps_time.
Qed.

Lemma match_date hy s :
  MatchString (layout_re hy None) s = true <->
  exists df, wf_date df = true /\ s = render_date hy df.
Proof.
  unfold MatchString. split.
  - destruct (first_match _ s) as [x|] eqn:E; [|discriminate]. intros _.
    apply find_date in E as (df & A & B & _). eauto.
  - intros (df & A & B).
    assert (E : first_match (layout_re hy None) s =
                Some (s, MState (length s) [] (date_caps df (repeat [] 4))))
      by (apply find_date; eauto).
    now rewrite E.
Qed.

Lemma submatch_date hy df :
  wf_date df = true ->
  FindStringSubmatch (layout_re hy None) (render_date hy df) =
  parts_date (render_date hy df) df.
Proof.
  intros A. unfold FindStringSubmatch.
  assert (E : first_match (layout_re hy None) (render_date hy df) =
              Some (render_date hy df,
                    MState (length (render_date hy df)) [] (date_caps df (repeat [] 4))))
    by (apply find_date; eauto).
  rewrite E. reflexivity.
Qed.

(* ================================================================= *)
(** ** strconv.Atoi on digit strings *)

Lemma digit_facts a :
  is_digit a = true ->
  is_sign a = false /\ Ascii.eqb a "-" = false
  /\ (code a - 48) mod 256 = digit_val a /\ 0 <= digit_val a <= 9.
Proof.
  destruct a as [[] [] [] [] [] [] [] []]; vm_compute; intros H; try discriminate H;
    repeat split; intros; discriminate.
Qed.

Lemma atoi_digits_value : forall w n,
  forallb is_digit w = true -> atoi_digits w n = Some (decimal_from n w).
Proof.
  induction w as [|a w IH]; intros n H; cbn [atoi_digits decimal_from]; [reflexivity|].
  cbn in H. apply andb_true_iff in H as [Ha Hw].
  destruct (digit_facts a Ha) as (_ & _ & E & B). rewrite E.
  replace (9 <? digit_val a) with false by (symmetry; apply Z.ltb_ge; lia).
  now apply IH.
Qed.

Lemma decimal_from_bounds : forall w n,
  forallb is_digit w = true ->
  n * 10 ^ Z.of_nat (length w) <= decimal_from n w
  /\ decimal_from n w < (n + 1) * 10 ^ Z.of_nat (length w).
Proof.
  induction w as [|a w IH]; intros n H.
  - cbn. lia.
  - cbn in H. apply andb_true_iff in H as [Ha Hw].
    destruct (digit_facts a Ha) as (_ & _ & _ & B).
    cbn [decimal_from length]. rewrite Nat2Z.inj_succ, Z.pow_succ_r by lia.
    specialize (IH (n * 10 + digit_val a) Hw).
    assert (0 < 10 ^ Z.of_nat (length w)) by (apply Z.pow_pos_nonneg; lia).
    nia.
Qed.

Lemma decimal_value_bounds w :
  forallb is_digit w = true -> 0 <= decimal_value w < 10 ^ Z.of_nat (length w).
Proof. intros H. pose proof (decimal_from_bounds w 0 H). unfold decimal_value. lia. Qed.

Lemma Atoi_digits w :
  forallb is_digit w = true -> (1 <= length w <= 18)%nat ->
  Atoi w = Some (decimal_value w).
Proof.
  intros H L. destruct w as [|a w]; [cbn in L; lia|].
  pose proof (decimal_value_bounds _ H) as B.
  assert (10 ^ Z.of_nat (length (a :: w)) <= 10 ^ 18) by (apply Z.pow_le_mono_r; lia).
  unfold Atoi. pose proof H as H'. cbn in H'. apply andb_true_iff in H' as [Ha _].
  destruct (digit_facts a Ha) as (S1 & S2 & _ & _). rewrite S1, S2.
  rewrite atoi_digits_value by assumption. fold (decimal_value (a :: w)).
  unfold int_min, int_max.
  replace (- 2 ^ 63 <=? decimal_value (a :: w)) with true by (symmetry; apply Z.leb_le; lia).
  replace (decimal_value (a :: w) <=? 2 ^ 63 - 1) with true
    by (symmetry; apply Z.leb_le; lia).
  reflexivity.
Qed.

Lemma atoip_digits w :
  forallb is_digit w = true -> (1 <= length w <= 18)%nat ->
  atoip w = Val (decimal_value w).
Proof. intros H L. unfold atoip. now rewrite Atoi_digits. Qed.

Lemma decimal_from_app : forall w v n,
  decimal_from n (w ++ v) = decimal_from (decimal_from n w) v.
Proof. induction w as [|a w IH]; intros v n; cbn; [reflexivity|apply IH]. Qed.

Lemma pad_loop_zeros : forall k w, pad_loop k w = w ++ repeat "0"%char k.
Proof.
  induction k as [|k IH]; intros w; cbn [pad_loop repeat].
  - now rewrite app_nil_r.
  - rewrite IH, <- app_assoc. reflexivity.
Qed.

Lemma pad9_zeros w : pad9 w = w ++ repeat "0"%char (9 - length w).
Proof. apply pad_loop_zeros. Qed.

Lemma forallb_digit_zeros k : forallb is_digit (repeat "0"%char k) = true.
Proof. induction k; cbn; auto. Qed.

Lemma decimal_zeros : forall k n, decimal_from n (repeat "0"%char k) = n * 10 ^ Z.of_nat k.
Proof.
  induction k as [|k IH]; intros n.
  - cbn. lia.
  - cbn [repeat decimal_from]. rewrite IH, Nat2Z.inj_succ, Z.pow_succ_r by lia.
    change (digit_val "0") with 0. lia.
Qed.

Lemma decimal_value_zeros w k :
  decimal_value (w ++ repeat "0"%char k) = decimal_value w * 10 ^ Z.of_nat k.
Proof. unfold decimal_value. now rewrite decimal_from_app, decimal_zeros. Qed.

(* ================================================================= *)
(** ** The conversion of well-formed fields *)

Lemma is_digit_code c : is_digit c = true <-> 48 <= code c <= 57.
Proof.
  unfold is_digit, in_cls. cbn [existsb fst snd]. rewrite orb_false_r, andb_true_iff.
  change (code "0") with 48. change (code "9") with 57. rewrite !Z.leb_le. tauto.
Qed.

Lemma cls_digit ranges :
  forallb (fun r => is_digit (fst r) && is_digit (snd r)) ranges = true ->
  forall c, in_cls ranges c = true -> is_digit c = true.
Proof.
  intros H c Hc. unfold in_cls in Hc. apply existsb_exists in Hc as ([lo hi] & Hin & Hr).
  rewrite forallb_forall in H. specialize (H _ Hin). cbn [fst snd] in *.
  apply andb_true_iff in H as [Hlo Hhi]. apply andb_true_iff in Hr as [H1 H2].
  apply is_digit_code in Hlo, Hhi. apply Z.leb_le in H1, H2. apply is_digit_code. lia.
Qed.

Ltac digits_of H :=
  repeat match type of H with
         | _ || _ = true => apply orb_true_iff in H as [H|H]
         | _ && _ = true =>
             let H1 := fresh in apply andb_true_iff in H as [H1 H];
             first [ apply Ascii.eqb_eq in H1; subst
                   | apply cls_digit in H1; [|reflexivity] ]
         end;
  first [ apply Ascii.eqb_eq in H; subst | apply cls_digit in H; [|reflexivity] ].

Lemma month_ok_digits a b : month_ok a b = true -> is_digit a = true /\ is_digit b = true.
Proof. unfold month_ok. intros H. digits_of H; auto. Qed.
Lemma day_ok_digits a b : day_ok a b = true -> is_digit a = true /\ is_digit b = true.
Proof. unfold day_ok, is_digit. intros H. digits_of H; auto. Qed.
Lemma hour_ok_digits a b : hour_ok a b = true -> is_digit a = true /\ is_digit b = true.
Proof. unfold hour_ok, is_digit. intros H. digits_of H; auto. Qed.
Lemma minute_ok_digits a b : minute_ok a b = true -> is_digit a = true /\ is_digit b = true.
Proof. unfold minute_ok, is_digit. intros H. digits_of H; auto. Qed.
Lemma second_ok_digits a b : second_ok a b = true -> is_digit a = true /\ is_digit b = true.
Proof. unfold second_ok, is_digit. intros H. digits_of H; auto. Qed.

Lemma atoip2 a b :
  is_digit a = true /\ is_digit b = true -> atoip [a; b] = Val (decimal_value [a; b]).
Proof. intros [Ha Hb]. apply atoip_digits; cbn; [now rewrite Ha, Hb|lia]. Qed.

Lemma wf_date_inv df :
  wf_date df = true ->
  forallb is_digit (year_of df) = true
  /\ atoip (year_of df) = Val (decimal_value (year_of df))
  /\ atoip (month_of df) = Val (decimal_value (month_of df))
  /\ atoip (day_of df) = Val (decimal_value (day_of df)).
Proof.
  unfold wf_date. intros H. apply andb_true_iff in H as [H Hd].
  apply andb_true_iff in H as [Hy Hm].
  assert (Hy' : forallb is_digit (year_of df) = true).
  { unfold year_ok in Hy. unfold year_of. cbn. now rewrite andb_true_r, !andb_assoc. }
  repeat split.
  - assumption.
  - apply atoip_digits; [assumption|cbn; lia].
  - apply atoip2, month_ok_digits, Hm.
  - apply atoip2, day_ok_digits, Hd.
Qed.

Lemma frac_ok_inv c ds :
  frac_ok (Some (c, ds)) = true ->
  fsep_ok c = true /\ forallb is_digit ds = true /\ (1 <= length ds <= 9)%nat.
Proof.
  cbn [frac_ok]. intros H. apply andb_true_iff in H as [H H9].
  apply andb_true_iff in H as [H H1]. apply andb_true_iff in H as [Hc Hd].
  apply Nat.leb_le in H1, H9. auto.
Qed.

Lemma time_of_day_time s df tf :
  wf_time tf = true ->
  time_of_day (parts_time s df tf) =
  Val (decimal_value (hour_of tf), decimal_value (minute_of tf),
       decimal_value (second_of tf), nanos_of (ffrac tf)).
Proof.
  unfold wf_time. intros H.
  apply andb_true_iff in H as [H Htz]. apply andb_true_iff in H as [H Hfr].
  apply andb_true_iff in H as [H Hs]. apply andb_true_iff in H as [H Hn].
  apply andb_true_iff in H as [_ Hh].
  unfold time_of_day, parts_time, hour_of, minute_of, second_of.
  cbn [length Nat.ltb Nat.leb index nth_error bind].
  rewrite (atoip2 _ _ (hour_ok_digits _ _ Hh)). cbn [bind].
  rewrite (atoip2 _ _ (minute_ok_digits _ _ Hn)). cbn [bind].
  rewrite (atoip2 _ _ (second_ok_digits _ _ Hs)). cbn [bind].
  destruct (ffrac tf) as [[c ds]|]; cbn [frac_digits nanos_of]; [|reflexivity].
  apply frac_ok_inv in Hfr as (_ & Hd & L).
  destruct ds as [|d ds]; [cbn in L; lia|]. cbn [nonempty].
  rewrite atoip_digits; [reflexivity| |].
  - rewrite pad9_zeros, forallb_app, Hd. apply forallb_digit_zeros.
  - rewrite pad9_zeros, length_app, repeat_length. lia.
Qed.

Lemma convert_time s df tf :
  wf_date df = true -> wf_time tf = true ->
  convert (parts_time s df tf) =
  (loc <- zone_of (ftz tf) ;;
   Val (time_Date (decimal_value (year_of df)) (decimal_value (month_of df))
          (decimal_value (day_of df)) (decimal_value (hour_of tf))
          (decimal_value (minute_of tf)) (decimal_value (second_of tf))
          (nanos_of (ffrac tf)) loc)).
Proof.
  intros Hd Ht. destruct (wf_date_inv _ Hd) as (_ & Ey & Em & Ed).
  unfold convert. rewrite (time_of_day_time s df tf Ht).
  unfold parts_time at 1 2 3. cbn [index nth_error bind].
  rewrite Ey, Em, Ed. cbn [bind]. reflexivity.
Qed.

Lemma convert_date s df :
  wf_date df = true ->
  convert (parts_date s df) =
  Val (time_Date (decimal_value (year_of df)) (decimal_value (month_of df))
         (decimal_value (day_of df)) 0 0 0 0 time_UTC).
Proof.
  intros Hd. destruct (wf_date_inv _ Hd) as (_ & Ey & Em & Ed).
  unfold convert, parts_date. cbn [index nth_error bind].
  rewrite Ey, Em, Ed. reflexivity.
Qed.

(* ================================================================= *)
(** ** The loop over the patterns *)

Lemma variant_cases re :
  In re iso8601Variants -> exists hy co, re = layout_re hy co.
Proof.
  rewrite variants_layout. cbn [In].
  intros [<-|[<-|[<-|[<-|[<-|[<-|[]]]]]]]; eauto.
Qed.

Lemma layout_in hy co : In (layout_re hy co) iso8601Variants.
Proof. rewrite variants_layout. destruct hy, co as [[]|]; cbn; tauto. Qed.

Lemma match_layout hy co s :
  MatchString (layout_re hy co) s = true <->
  exists df t, wf_date df = true /\ s = render_date hy df ++ t /\ segment_after co t.
Proof.
  destruct co as [c|]; cbn [segment_after].
  - rewrite match_time. split.
    + intros (df & tf & A & B & C). eauto 7.
    + intros (df & t & A & B & tf & C & ->). eauto.
  - rewrite match_date. split.
    + intros (df & A & ->). exists df, []. now rewrite app_nil_r.
    + intros (df & t & A & -> & ->). exists df. now rewrite app_nil_r.
Qed.

Lemma hyphen_clash df df' t t' :
  wf_date df' = true -> render_date true df ++ t = render_date false df' ++ t' -> False.
Proof.
  destruct df, df'. unfold wf_date. cbn. intros H E.
  injection E; intros; subst.
  apply andb_true_iff in H as [H _]. apply andb_true_iff in H as [_ H].
  apply month_ok_digits in H as [H _]. discriminate H.
Qed.

Lemma colon_clash tf tf' :
  wf_time tf' = true -> render_time true tf = render_time false tf' -> False.
Proof.
  destruct tf, tf'. unfold wf_time. cbn. intros H E.
  injection E; intros; subst.
  do 3 (apply andb_true_iff in H as [H _]). apply andb_true_iff in H as [_ H].
  apply minute_ok_digits in H as [H _]. discriminate H.
Qed.

Lemma layout_unique hy co hy' co' s :
  MatchString (layout_re hy co) s = true -> MatchString (layout_re hy' co') s = true ->
  hy = hy' /\ co = co'.
Proof.
  intros H H'. apply match_layout in H as (df & t & Hd & -> & Ht).
  apply match_layout in H' as (df' & t' & Hd' & E & Ht').
  assert (hy = hy') as <-.
  { destruct hy, hy'; try reflexivity; exfalso.
    - exact (hyphen_clash _ _ _ _ Hd' E).
    - symmetry in E. exact (hyphen_clash _ _ _ _ Hd E). }
  split; [reflexivity|]. apply render_date_inj in E as [<- <-].
  destruct co as [c|], co' as [c'|]; cbn [segment_after] in *.
  - destruct Ht as (tf & Hf & ->), Ht' as (tf' & Hf' & E).
    destruct c, c'; try reflexivity; exfalso.
    + exact (colon_clash _ _ Hf' E).
    + symmetry in E. exact (colon_clash _ _ Hf E).
  - destruct Ht as (tf & _ & ->). discriminate Ht'.
  - destruct Ht' as (tf & _ & E). subst t. discriminate E.
  - reflexivity.
Qed.

Lemma variants_exclusive s re1 re2 :
  In re1 iso8601Variants -> In re2 iso8601Variants ->
  MatchString re1 s = true -> MatchString re2 s = true -> re1 = re2.
Proof.
  intros I1 I2 M1 M2.
  apply variant_cases in I1 as (hy & co & ->). apply variant_cases in I2 as (hy' & co' & ->).
  destruct (layout_unique _ _ _ _ _ M1 M2) as [-> ->]. reflexivity.
Qed.

Lemma scan_some : forall l s r,
  scanVariants l s = Some r ->
  exists re, In re l /\ MatchString re s = true /\ r = convert (FindStringSubmatch re s).
Proof.
  induction l as [|re l IH]; intros s r H; cbn [scanVariants] in H; [discriminate|].
  destruct (MatchString re s) eqn:E.
  - injection H as <-. exists re. cbn. auto.
  - destruct (IH _ _ H) as (re' & A & B & C). exists re'. cbn. auto.
Qed.

Lemma scan_none : forall l s,
  scanVariants l s = None <-> forallb (fun re => negb (MatchString re s)) l = true.
Proof.
  induction l as [|re l IH]; intros s; cbn [scanVariants forallb]; [tauto|].
  destruct (MatchString re s); cbn [negb andb]; [split; discriminate|apply IH].
Qed.

Lemma scan_match s re :
  In re iso8601Variants -> MatchString re s = true ->
  scanVariants iso8601Variants s = Some (convert (FindStringSubmatch re s)).
Proof.
  intros I Hm. destruct (scanVariants iso8601Variants s) as [r|] eqn:E.
  - apply scan_some in E as (re' & I' & M' & ->).
    now rewrite (variants_exclusive s re re' I I' Hm M').
  - apply scan_none in E. rewrite forallb_forall in E. specialize (E _ I).
    rewrite Hm in E. discriminate E.
Qed.

Lemma scan_time hy co df tf :
  wf_date df = true -> wf_time tf = true ->
  scanVariants iso8601Variants (render_date hy df ++ render_time co tf) =
  Some (convert (parts_time (render_date hy df ++ render_time co tf) df tf)).
Proof.
  intros Hd Ht. rewrite <- (submatch_time hy co df tf Hd Ht).
  apply scan_match; [apply layout_in|]. apply match_time. eauto.
Qed.

Lemma scan_date hy df :
  wf_date df = true ->
  scanVariants iso8601Variants (render_date hy df) =
  Some (convert (parts_date (render_date hy df) df)).
Proof.
  intros Hd. rewrite <- (submatch_date hy df Hd).
  apply scan_match; [apply layout_in|]. apply match_date. eauto.
Qed.

Lemma match_shape s re :
  In re iso8601Variants -> MatchString re s = true ->
  accepted_shape s (FindStringSubmatch re s).
Proof.
  intros I Hm. apply variant_cases in I as (hy & [co|] & ->).
  - apply match_time in Hm as (df & tf & Hd & Ht & ->).
    rewrite submatch_time by assumption. now apply shape_time with hy co.
  - apply match_date in Hm as (df & Hd & ->).
    rewrite submatch_date by assumption. now apply shape_date with hy.
Qed.

(* ================================================================= *)
(** ** The offset *)

Lemma wrap_small z : int_min <= z <= int_max -> wrap z = z.
Proof.
  unfold int_min, int_max, wrap. intros H.
  rewrite Z.mod_small by lia. lia.
Qed.

Lemma two_digits_bound a b :
  is_digit a = true /\ is_digit b = true -> 0 <= decimal_value [a; b] <= 99.
Proof.
  intros [Ha Hb]. assert (H : forallb is_digit [a; b] = true) by (cbn; now rewrite Ha, Hb).
  apply decimal_value_bounds in H. cbn [length] in H. change (10 ^ Z.of_nat 2) with 100 in H. lia.
Qed.

Lemma offset_arith sg h m :
  0 <= h <= 99 -> 0 <= m <= 99 ->
  imul (sign_of sg) (iadd (imul h 3600) (imul m 60)) = sign_of sg * (h * 3600 + m * 60).
Proof.
  intros Hh Hm. unfold imul, iadd.
  assert (B : int_min <= -1000000 /\ 1000000 <= int_max) by (cbv; split; discriminate).
  rewrite (wrap_small (h * 3600)) by lia. rewrite (wrap_small (m * 60)) by lia.
  rewrite (wrap_small (h * 3600 + m * 60)) by lia.
  apply wrap_small. unfold sign_of. destruct (Ascii.eqb sg "-"); lia.
Qed.

Lemma sign_not_Z sg t : sign_ok sg = true -> streq (sg :: t) (str "Z") = false.
Proof. intros H. apply sign_ok_inv in H as [->| ->]; reflexivity. Qed.

Lemma cls01_digit h :
  in_cls [("0", "0"); ("1", "1")]%char h = true -> is_digit h = true.
Proof. intros H. eapply cls_digit; [|exact H]. reflexivity. Qed.

Ltac offset_parts H :=
  unfold offset_ok in H;
  repeat match type of H with
         | _ && _ = true => let H1 := fresh "Hp" in apply andb_true_iff in H as [H H1]
         end.

Lemma zone_of_hour_only sg h0 h1 :
  offset_ok [sg; h0; h1] = true -> zone_of [sg; h0; h1] = Panic IndexOutOfRange.
Proof.
  intros H. offset_parts H. unfold zone_of. rewrite (sign_not_Z _ _ H).
  cbn [index nth_error bind slice length Nat.leb andb Nat.sub skipn firstn].
  rewrite atoip2 by (split; [apply (cls01_digit _ Hp0)|assumption]).
  reflexivity.
Qed.

Lemma zone_of_colon_only sg h0 h1 c :
  offset_ok [sg; h0; h1; c] = true -> zone_of [sg; h0; h1; c] = Panic SliceOutOfRange.
Proof.
  intros H. offset_parts H. apply Ascii.eqb_eq in Hp. subst c.
  unfold zone_of. rewrite (sign_not_Z _ _ H).
  cbn [index nth_error bind slice length Nat.leb andb Nat.sub skipn firstn].
  rewrite atoip2 by (split; [apply (cls01_digit _ Hp1)|assumption]).
  reflexivity.
Qed.


(* ================================================================= *)
(** ** The two outcomes of the parser *)

Lemma parse_with_error f s t e :
  parse_with f s = Val (t, Some e) <->
  scanVariants iso8601Variants s = None /\ t = time_zero /\ e = f s.
Proof.
  unfold parse_with. destruct (scanVariants iso8601Variants s) as [[t'|p]|]; cbn [bind].
  - split; [discriminate|intros [H _]; discriminate H].
  - split; [discriminate|intros [H _]; discriminate H].
  - split; [intros [= <- <-]; auto|intros (_ & -> & ->); reflexivity].
Qed.

Lemma parse_with_value f s t :
  parse_with f s = Val (t, None) <-> scanVariants iso8601Variants s = Some (Val t).
Proof.
  unfold parse_with. destruct (scanVariants iso8601Variants s) as [[t'|p]|]; cbn [bind].
  - split; [intros [= <-]; reflexivity|intros [= <-]; reflexivity].
  - split; discriminate.
  - split; discriminate.
Qed.

Lemma parse_with_accepted f s t :
  parse_with f s = Val (t, None) ->
  exists re, In re iso8601Variants /\ MatchString re s = true
             /\ convert (FindStringSubmatch re s) = Val t.
Proof.
  intros H. apply parse_with_value in H. apply scan_some in H as (re & A & B & C). eauto.
Qed.

Lemma parse_with_time f hy co df tf :
  wf_date df = true -> wf_time tf = true ->
  parse_with f (render_date hy df ++ render_time co tf) =
  (t <- convert (parts_time (render_date hy df ++ render_time co tf) df tf) ;; Val (t, None)).
Proof. intros Hd Ht. unfold parse_with. now rewrite scan_time. Qed.

Lemma parse_with_date f hy df :
  wf_date df = true ->
  parse_with f (render_date hy df) =
  (t <- convert (parts_date (render_date hy df) df) ;; Val (t, None)).
Proof. intros Hd. unfold parse_with. now rewrite scan_date. Qed.

Lemma zone_of_incomplete tz :
  offset_ok tz = true -> offset_complete tz = false ->
  (length tz = 3%nat /\ zone_of tz = Panic IndexOutOfRange)
  \/ (length tz = 4%nat /\ zone_of tz = Panic SliceOutOfRange).
Proof.
  intros H C.
  destruct tz as [|sg [|h0 [|h1 [|c [|m0 [|m1 [|x tz]]]]]]]; try discriminate.
  - left. split; [reflexivity|]. now apply zone_of_hour_only.
  - right. split; [reflexivity|]. now apply zone_of_colon_only.
Qed.

Lemma wf_time_offset tf : wf_time tf = true -> offset_ok (ftz tf) = true.
Proof. unfold wf_time. intros H. now apply andb_true_iff in H as [_ H]. Qed.

Lemma parse_time_panic hy co df tf :
  wf_date df = true -> wf_time tf = true -> offset_complete (ftz tf) = false ->
  (length (ftz tf) = 3%nat
   /\ ParseISO8601Timestamp (render_date hy df ++ render_time co tf) = Panic IndexOutOfRange)
  \/ (length (ftz tf) = 4%nat
      /\ ParseISO8601Timestamp (render_date hy df ++ render_time co tf) = Panic SliceOutOfRange).
Proof.
  intros Hd Ht Hc. unfold ParseISO8601Timestamp.
  rewrite parse_with_time, convert_time by assumption.
  destruct (zone_of_incomplete _ (wf_time_offset _ Ht) Hc) as [[L E]|[L E]]; rewrite E;
    [left|right]; auto.
Qed.

(* ================================================================= *)
(** ** Mixed separators *)

Ltac bools :=
  repeat match goal with
         | H : _ && _ = true |- _ => apply andb_true_iff in H; destruct H
         | H : _ || _ = true |- _ => apply orb_true_iff in H; destruct H
         | H : true = true |- _ => clear H
         | H : false = true |- _ => discriminate H
         | H : Ascii.eqb _ _ = true |- _ => apply Ascii.eqb_eq in H; subst
         | H : month_ok _ _ = true |- _ => apply month_ok_digits in H; destruct H
         | H : day_ok _ _ = true |- _ => apply day_ok_digits in H; destruct H
         | H : hour_ok _ _ = true |- _ => apply hour_ok_digits in H; destruct H
         | H : minute_ok _ _ = true |- _ => apply minute_ok_digits in H; destruct H
         | H : second_ok _ _ = true |- _ => apply second_ok_digits in H; destruct H
         | H : is_digit ?c = true |- _ =>
             tryif is_var c then fail else (exfalso; vm_compute in H; discriminate H)
         | H : context [match ?l with [] => _ | _ :: _ => _ end] |- _ => destruct l
         end.

Lemma date_mixed_no_match s hy co :
  date_mixed s = true -> MatchString (layout_re hy co) s = false.
Proof.
  intros Hm. destruct (MatchString _ s) eqn:E; [exfalso|reflexivity].
  apply match_layout in E as ([a b c d e f g h] & t & Hd & -> & _).
  unfold wf_date, year_ok in Hd. unfold date_mixed, all_digits in Hm.
  destruct hy; cbn in Hd, Hm; bools.
Qed.

Lemma time_mixed_no_match s hy co :
  time_mixed s = true -> MatchString (layout_re hy co) s = false.
Proof.
  intros Hm. destruct (MatchString _ s) eqn:E; [exfalso|reflexivity].
  apply match_layout in E as ([a b c d e f g h] & t & Hd & -> & Ht).
  unfold wf_date, year_ok in Hd.
  unfold time_mixed, date_segment, time_mixed_at, all_digits in Hm.
  destruct co as [co|]; cbn [segment_after] in Ht.
  - destruct Ht as ([sp h0 h1 n0 n1 s0 s1 fr tz] & Ht & ->).
    unfold wf_time in Ht.
    destruct hy, co; cbn in Hd, Ht, Hm; bools.
  - subst t. destruct hy; cbn in Hd, Hm; bools.
Qed.

(* ================================================================= *)
(** ** The tests of the repository, on the model *)

(** [TestValidDates], regular Zulu times. *)
Example test_zulu_times :
  map (fun s => ParseISO8601Timestamp (str s))
    ["1900-12-31T00:10:20Z"; "1900-12-31T001020Z"; "19001231T00:10:20Z"; "19001231T001020Z";
     "1900-12-31t00:10:20Z"; "1900-12-31t001020Z"; "19001231t00:10:20Z"; "19001231t001020Z";
     "1900-12-31 00:10:20Z"; "1900-12-31 001020Z"; "19001231 00:10:20Z"; "19001231 001020Z"]%string
  = repeat (Val (time_Date 1900 12 31 0 10 20 0 time_UTC, None)) 12.
Proof. vm_compute. reflexivity. Qed.

(** [TestValidDates], date only. *)
Example test_date_only :
  map (fun s => ParseISO8601Timestamp (str s)) ["1900-12-31"; "19001231"]%string
  = repeat (Val (time_Date 1900 12 31 0 0 0 0 time_UTC, None)) 2.
Proof. vm_compute. reflexivity. Qed.

(** [TestValidDates], time zone conversion. *)
Example test_time_zone :
  map (fun s => ParseISO8601Timestamp (str s))
    ["2020-02-17T11:39:27.658731-02:30"; "2020-02-17T11:39:27.658731-0230"]%string
  = repeat (Val (time_Date 2020 2 17 11 39 27 658731000
                   (time_FixedZone (str "-02:30") (-9000)), None)) 2.
Proof. vm_compute. reflexivity. Qed.

(** [TestParseJSON]: a number is not a string literal. *)
Example test_json_number :
  Wrapper.UnmarshalJSON new_year_2001 (str "1")
  = Val (new_year_2001, Some (not_a_string_literal (str "1"))).
Proof. vm_compute. reflexivity. Qed.

(* ================================================================= *)
(** ** The properties of the specification *)

(** C1.  An input whose date segment has one hyphen out of two
    ([date_mixed], as in 1900-1231T00:10:20Z) or whose time segment has one
    colon out of two ([time_mixed], as in 1900-12-31T00:1020Z) is matched by
    none of the six patterns, and [ParseISO8601Timestamp] returns the zero
    time with an error.  The two segments are independent: well-formed fields
    rendered with any choice [hy] of hyphens and any choice [co] of colons
    are matched by one of the patterns. *)
Theorem mixed_separators_rejected (s : gostring) :
  date_mixed s = true \/ time_mixed s = true ->
  forallb (fun re => negb (MatchString re s)) iso8601Variants = true
  /\ ParseISO8601Timestamp s = Val (time_zero, Some (invalid_timestamp s))
  /\ (forall hy co df tf, wf_date df = true -> wf_time tf = true ->
        exists re, In re iso8601Variants
                   /\ MatchString re (render_date hy df ++ render_time co tf) = true).
Proof.
  intros H.
  assert (N : forallb (fun re => negb (MatchString re s)) iso8601Variants = true).
  { apply forallb_forall. intros re I. apply variant_cases in I as (hy & co & ->).
    apply negb_true_iff.
    destruct H; [now apply date_mixed_no_match|now apply time_mixed_no_match]. }
  split; [exact N|]. split.
  - unfold ParseISO8601Timestamp, parse_with. apply scan_none in N. now rewrite N.
  - intros hy co df tf Hd Ht. exists (layout_re hy (Some co)).
    split; [apply layout_in|]. apply match_time. eauto.
Qed.

Lemma mixed_separators_rejected_witness :
  date_mixed (str "1900-1231T00:10:20Z") = true
  /\ time_mixed (str "1900-12-31T00:1020Z") = true
  /\ ParseISO8601Timestamp (str "1900-1231T00:10:20Z")
     = Val (time_zero, Some (invalid_timestamp (str "1900-1231T00:10:20Z")))
  /\ ParseISO8601Timestamp (str "1900-12-31T00:1020Z")
     = Val (time_zero, Some (invalid_timestamp (str "1900-12-31T00:1020Z"))).
Proof.
  split; [reflexivity|]. split; [reflexivity|]. split.
  - apply (mixed_separators_rejected (str "1900-1231T00:10:20Z")). left. reflexivity.
  - apply (mixed_separators_rejected (str "1900-12-31T00:1020Z")). right. reflexivity.
Defined.

(** C2.  The specification has an offset of a sign and a two-digit hour
    alone accepted, with the minute taken as 0.  The pattern does match such
    an input, but the conversion then reads [tzStr[3]] of a three-byte string:
    on 2020-02-17T11:39:27+05 the call panics with an index out of range, in
    both revisions of the parser, and so does every well-formed timestamp
    whose offset has three bytes.  With a colon and no minute
    (2020-02-17T11:39:27+05:) it is [tzStr[4:6]] that is out of range. *)
Theorem hour_only_offset_panics :
  MatchString variant0 (str "2020-02-17T11:39:27+05") = true
  /\ ParseISO8601Timestamp (str "2020-02-17T11:39:27+05") = Panic IndexOutOfRange
  /\ Wrapper.ParseISO8601Timestamp (str "2020-02-17T11:39:27+05") = Panic IndexOutOfRange
  /\ (forall hy co df tf,
        wf_date df = true -> wf_time tf = true -> length (ftz tf) = 3%nat ->
        ParseISO8601Timestamp (render_date hy df ++ render_time co tf)
        = Panic IndexOutOfRange)
  /\ (forall hy co df tf,
        wf_date df = true -> wf_time tf = true -> length (ftz tf) = 4%nat ->
        ParseISO8601Timestamp (render_date hy df ++ render_time co tf)
        = Panic SliceOutOfRange).
Proof.
  split; [vm_compute; reflexivity|]. split; [vm_compute; reflexivity|].
  split; [vm_compute; reflexivity|]. split.
  - intros hy co df tf Hd Ht L. unfold ParseISO8601Timestamp.
    rewrite parse_with_time, convert_time by assumption.
    unfold wf_time in Ht. apply andb_true_iff in Ht as [_ Ht].
    destruct (ftz tf) as [|sg [|h0 [|h1 [|c tz]]]]; try discriminate L.
    now rewrite zone_of_hour_only.
  - intros hy co df tf Hd Ht L. unfold ParseISO8601Timestamp.
    rewrite parse_with_time, convert_time by assumption.
    unfold wf_time in Ht. apply andb_true_iff in Ht as [_ Ht].
    destruct (ftz tf) as [|sg [|h0 [|h1 [|c [|x tz]]]]]; try discriminate L.
    now rewrite zone_of_colon_only.
Qed.

(** C3, with the lower bound 0.  For every string [ParseISO8601Timestamp] accepts, the
    year handed to [time.Date] lies between 0 and 9999: the four-digit
    pattern bounds it, and admits 0000. *)
Theorem accepted_year_range (s : gostring) (t : time_Time) :
  ParseISO8601Timestamp s = Val (t, None) ->
  exists y, date_year t = Some y /\ 0 <= y <= 9999.
Proof.
  intros H. apply parse_with_accepted in H as (re & I & Hm & C).
  pose proof (match_shape s re I Hm) as Sh.
  destruct Sh as [hy co df tf Hd Ht E|hy df Hd E].
  - rewrite convert_time in C by assumption.
    destruct (zone_of (ftz tf)) as [loc|p]; cbn [bind] in C; [|discriminate C].
    injection C as <-. eexists. split; [reflexivity|].
    destruct (wf_date_inv _ Hd) as (Hy & _).
    apply decimal_value_bounds in Hy. change (10 ^ Z.of_nat (length (year_of df))) with 10000 in Hy.
    lia.
  - rewrite convert_date in C by assumption. injection C as <-.
    eexists. split; [reflexivity|].
    destruct (wf_date_inv _ Hd) as (Hy & _).
    apply decimal_value_bounds in Hy. change (10 ^ Z.of_nat (length (year_of df))) with 10000 in Hy.
    lia.
Qed.

Lemma accepted_year_range_witness :
  ParseISO8601Timestamp (str "1900-12-31T00:10:20Z")
  = Val (time_Date 1900 12 31 0 10 20 0 time_UTC, None)
  /\ exists y, date_year (time_Date 1900 12 31 0 10 20 0 time_UTC) = Some y
               /\ 0 <= y <= 9999.
Proof.
  assert (H : ParseISO8601Timestamp (str "1900-12-31T00:10:20Z")
              = Val (time_Date 1900 12 31 0 10 20 0 time_UTC, None))
    by (vm_compute; reflexivity).
  split; [exact H|]. exact (accepted_year_range _ _ H).
Defined.

(** The lower bound 1 fails: 0000-01-01 is accepted with year 0. *)
Lemma year_zero_accepted :
  exists t, ParseISO8601Timestamp (str "0000-01-01") = Val (t, None)
            /\ date_year t = Some 0 /\ ~ (1 <= 0 <= 9999).
Proof.
  exists (time_Date 0 1 1 0 0 0 0 time_UTC).
  split; [vm_compute; reflexivity|]. split; [reflexivity|lia].
Qed.











(** C5.  On an accepted input, let [fracSecStr] be the seventh submatch of
    the pattern that matches.  When it is empty the nanoseconds handed to
    [time.Date] are 0; otherwise it has one to nine digits and the
    nanoseconds are the number read from it after padding with zeros on the
    right to nine digits. *)
Theorem fraction_to_nanoseconds (s : gostring) (re : regexp) (t : time_Time) :
  In re iso8601Variants -> MatchString re s = true ->
  ParseISO8601Timestamp s = Val (t, None) ->
  let fracSecStr := nth 7 (FindStringSubmatch re s) [] in
  (fracSecStr = [] -> date_nsec t = Some 0)
  /\ (fracSecStr <> [] ->
      (1 <= length fracSecStr <= 9)%nat
      /\ all_digits fracSecStr = true
      /\ date_nsec t =
         Some (decimal_value (fracSecStr ++ repeat "0"%char (9 - length fracSecStr)))
      /\ date_nsec t =
         Some (decimal_value fracSecStr * 10 ^ Z.of_nat (9 - length fracSecStr))).
Proof.
  intros I Hm H. apply parse_with_value in H.
  rewrite (scan_match s re I Hm) in H. injection H as C.
  pose proof (match_shape s re I Hm) as Sh.
  destruct Sh as [hy co df tf Hd Ht E|hy df Hd E]; cbn [nth parts_time parts_date].
  - rewrite convert_time in C by assumption.
    destruct (zone_of (ftz tf)) as [loc|p]; cbn [bind] in C; [|discriminate C].
    injection C as <-. cbn [date_nsec].
    unfold wf_time in Ht. apply andb_true_iff in Ht as [Ht _].
    apply andb_true_iff in Ht as [_ Hf].
    destruct (ffrac tf) as [[c ds]|]; cbn [frac_digits nanos_of].
    + apply frac_ok_inv in Hf as (_ & Hds & L). split.
      * intros ->. cbn in L. lia.
      * intros _. rewrite <- decimal_value_zeros, <- pad9_zeros. auto.
    + split; [reflexivity|]. intros N. now elim N.
  - rewrite convert_date in C by assumption. injection C as <-. cbn [date_nsec].
    split; [reflexivity|]. intros N. now elim N.
Qed.

Lemma fraction_to_nanoseconds_witness :
  ParseISO8601Timestamp (str "2020-02-17T11:39:27.6Z")
  = Val (time_Date 2020 2 17 11 39 27 600000000 time_UTC, None)
  /\ nth 7 (FindStringSubmatch variant0 (str "2020-02-17T11:39:27.6Z")) [] = str "6"
  /\ date_nsec (time_Date 2020 2 17 11 39 27 600000000 time_UTC)
     = Some (decimal_value (str "6" ++ repeat "0"%char 8)).
Proof.
  assert (H : ParseISO8601Timestamp (str "2020-02-17T11:39:27.6Z")
              = Val (time_Date 2020 2 17 11 39 27 600000000 time_UTC, None))
    by (vm_compute; reflexivity).
  assert (Hm : MatchString variant0 (str "2020-02-17T11:39:27.6Z") = true)
    by (vm_compute; reflexivity).
  assert (Hf : nth 7 (FindStringSubmatch variant0 (str "2020-02-17T11:39:27.6Z")) []
               = str "6") by (vm_compute; reflexivity).
  split; [exact H|]. split; [exact Hf|].
  pose proof (fraction_to_nanoseconds (str "2020-02-17T11:39:27.6Z") variant0 _
                (or_introl eq_refl) Hm H) as [_ N].
  cbv zeta in N. rewrite Hf in N. apply N. discriminate.
Defined.

Lemma digit_cases a : is_digit a = true -> In a (str "0123456789").
Proof.
  destruct a as [[] [] [] [] [] [] [] []]; intros H; try discriminate H;
    cbn; tauto.
Qed.







(** C7.  The six patterns are pairwise distinct and, on every input, at
    most one of them matches; hence trying them in any other order gives
    the same outcome of the loop. *)
Theorem patterns_mutually_exclusive (s : gostring) :
  NoDup iso8601Variants
  /\ (forall re1 re2, In re1 iso8601Variants -> In re2 iso8601Variants ->
        MatchString re1 s = true -> MatchString re2 s = true -> re1 = re2)
  /\ (forall order, Permutation iso8601Variants order ->
        scanVariants order s = scanVariants iso8601Variants s).
Proof.
  split; [|split].
  - unfold iso8601Variants. repeat constructor; cbn [In];
      intros H; repeat destruct H as [H|H]; try discriminate H; exact H.
  - apply variants_exclusive.
  - intros order P. destruct (scanVariants order s) as [r|] eqn:E.
    + apply scan_some in E as (re & I & Hm & ->). symmetry. apply scan_match; [|exact Hm].
      apply Permutation_sym in P. exact (Permutation_in _ P I).
    + symmetry. apply scan_none. apply scan_none in E. rewrite forallb_forall in *.
      intros re I. apply E. exact (Permutation_in _ P I).
Qed.

(** The quotation marks of the wrapper. *)
Lemma index_last (s : gostring) (l : ascii) :
  index (s ++ [l]) (length (s ++ [l]) - 1) = Val l.
Proof.
  unfold index. rewrite length_app. cbn [length].
  replace (length s + 1 - 1)%nat with (length s) by lia.
  rewrite nth_error_app2 by lia. now rewrite Nat.sub_diag.
Qed.

Lemma not_quoted_spec (data : gostring) :
  Wrapper.not_quoted data = Val (negb (string_literal data)).
Proof.
  unfold Wrapper.not_quoted, string_literal.
  destruct data as [|q body]; [reflexivity|].
  destruct (rev body) as [|l r] eqn:R.
  - apply (f_equal (@rev ascii)) in R. rewrite rev_involutive in R. subst body.
    cbn. now rewrite andb_false_r.
  - apply (f_equal (@rev ascii)) in R. rewrite rev_involutive in R. cbn [rev] in R. subst body.
    replace (length (q :: rev r ++ [l]) <? 2)%nat with false
      by (symmetry; apply Nat.ltb_ge; cbn [length]; rewrite length_app; cbn; lia).
    change (q :: rev r ++ [l]) with ((q :: rev r) ++ [l]) at 2.
    rewrite index_last. cbn [index nth_error bind]. f_equal.
    destruct (Ascii.eqb q Wrapper.dquote) eqn:Ed; destruct (Ascii.eqb q Wrapper.squote) eqn:Es;
      try (apply Ascii.eqb_eq in Ed; subst q); try (apply Ascii.eqb_eq in Es; subst q);
      try discriminate Es; try discriminate Ed; cbn [orb andb negb]; try reflexivity.
    apply andb_true_r.
Qed.

Lemma literal_quoted (q : ascii) (inner : gostring) :
  q = Wrapper.dquote \/ q = Wrapper.squote ->
  string_literal (q :: inner ++ [q]) = true /\ unquote (q :: inner ++ [q]) = inner
  /\ streq (q :: inner ++ [q]) (str "null") = false.
Proof.
  intros Hq. unfold string_literal, unquote. cbn [tl].
  rewrite rev_app_distr, removelast_last. cbn [rev app].
  rewrite Ascii.eqb_refl. destruct Hq as [-> | ->]; repeat split.
Qed.

Lemma slice_unquote (data : gostring) :
  string_literal data = true ->
  slice data 1 (length data - 1) = Val (unquote data).
Proof.
  unfold string_literal, unquote, slice. destruct data as [|q body]; [discriminate|].
  intros H. apply andb_true_iff in H as [_ H].
  destruct body as [|b body]; [discriminate H|]. clear H.
  cbn [length tl skipn].
  replace (S (S (length body)) - 1)%nat with (S (length body)) by lia.
  replace ((1 <=? S (length body)) && (S (length body) <=? S (S (length body))))%nat
    with true by (symmetry; apply andb_true_iff; split; apply Nat.leb_le; lia).
  rewrite removelast_firstn_len. cbn [length Nat.pred].
  now replace (S (length body) - 1)%nat with (length body) by lia.
Qed.

(** C8.  [UnmarshalJSON] on the literal null returns no error and leaves
    the receiver as it was. *)
Theorem unmarshal_json_null_is_noop (t : Wrapper.Time) :
  Wrapper.UnmarshalJSON t (str "null") = Val (t, None).
Proof. reflexivity. Qed.

Lemma UnmarshalJSON_cases (t : Wrapper.Time) (data : gostring) :
  streq data (str "null") = false ->
  Wrapper.UnmarshalJSON t data =
    (if string_literal data then delegate (unquote data)
     else Val (t, Some (not_a_string_literal data))).
Proof.
  intros N. unfold Wrapper.UnmarshalJSON. rewrite N, not_quoted_spec. cbn [bind].
  destruct (string_literal data) eqn:L; cbn [negb]; [|reflexivity].
  rewrite slice_unquote by assumption. reflexivity.
Qed.

(** C9.  On an input other than null, [UnmarshalJSON] returns the
    [time.ParseError] "timestamp must be a JSON string literal", with the
    receiver unchanged, unless the input has at least two bytes and begins
    and ends with the same quotation mark, double or single; in that case it
    strips the two marks and hands the inner text to
    [ParseISO8601Timestamp]. *)
Theorem unmarshal_json_string_literal (t : Wrapper.Time) (data : gostring) :
  streq data (str "null") = false ->
  Wrapper.UnmarshalJSON t data =
    (if string_literal data then delegate (unquote data)
     else Val (t, Some (not_a_string_literal data)))
  /\ (forall q inner, q = Wrapper.dquote \/ q = Wrapper.squote ->
        data = q :: inner ++ [q] ->
        string_literal data = true /\ unquote data = inner).
Proof.
  intros N. split.
  - now apply UnmarshalJSON_cases.
  - intros q inner Hq ->. destruct (literal_quoted q inner Hq) as (A & B & _). auto.
Qed.

Lemma unmarshal_json_string_literal_witness :
  Wrapper.UnmarshalJSON {| Wrapper.Time_Time := time_zero |} (str "1")
  = Val ({| Wrapper.Time_Time := time_zero |}, Some (not_a_string_literal (str "1")))
  /\ Wrapper.UnmarshalJSON {| Wrapper.Time_Time := time_zero |} (str "'1900-12-31'")
     = Val ({| Wrapper.Time_Time := time_Date 1900 12 31 0 0 0 0 time_UTC |}, None).
Proof.
  split.
  - exact (proj1 (unmarshal_json_string_literal {| Wrapper.Time_Time := time_zero |}
                    (str "1") eq_refl)).
  - exact (proj1 (unmarshal_json_string_literal {| Wrapper.Time_Time := time_zero |}
                    (str "'1900-12-31'") eq_refl)).
Defined.

(** C10.  When the parser rejects the text, [UnmarshalText], and
    [UnmarshalJSON] on that text between quotation marks, store the zero
    time in the receiver and return the error: the value held before is
    lost. *)
Theorem failed_unmarshal_resets_time
  (t : Wrapper.Time) (inner : gostring) (tm : time_Time) (e : error) :
  Wrapper.ParseISO8601Timestamp inner = Val (tm, Some e) ->
  Wrapper.UnmarshalText t inner = Val ({| Wrapper.Time_Time := time_zero |}, Some e)
  /\ (forall q, q = Wrapper.dquote \/ q = Wrapper.squote ->
        Wrapper.UnmarshalJSON t (q :: inner ++ [q])
        = Val ({| Wrapper.Time_Time := time_zero |}, Some e)).
Proof.
  intros H. pose proof H as H'. apply parse_with_error in H' as (_ & -> & _). split.
  - unfold Wrapper.UnmarshalText. now rewrite H.
  - intros q Hq. destruct (literal_quoted q inner Hq) as (A & B & C).
    rewrite (UnmarshalJSON_cases t _ C), A, B.
    unfold delegate. now rewrite H.
Qed.

Lemma failed_unmarshal_resets_time_witness :
  Wrapper.UnmarshalText new_year_2001 (str "tomorrow")
  = Val ({| Wrapper.Time_Time := time_zero |},
         Some (time_ParseError (str "ISO 8601") (str "tomorrow") [] []
                 (str ": timestamp is not in ISO 8601 format")))
  /\ Wrapper.UnmarshalJSON new_year_2001 (Wrapper.dquote :: str "tomorrow" ++ [Wrapper.dquote])
     = Val ({| Wrapper.Time_Time := time_zero |},
            Some (time_ParseError (str "ISO 8601") (str "tomorrow") [] []
                    (str ": timestamp is not in ISO 8601 format"))).
Proof.
  pose proof (failed_unmarshal_resets_time new_year_2001 (str "tomorrow") time_zero
                (time_ParseError (str "ISO 8601") (str "tomorrow") [] []
                   (str ": timestamp is not in ISO 8601 format")) eq_refl) as [A B].
  split; [exact A|]. apply B. left. reflexivity.
Defined.

(* ================================================================= *)
(** ** Further properties of the parser *)

Lemma pattern_layout hy co : pattern_of hy co = layout_re hy co.
Proof. destruct hy, co as [[]|]; reflexivity. Qed.

Lemma no_match_error s :
  (forall hy co, MatchString (layout_re hy co) s = false) ->
  ParseISO8601Timestamp s = Val (time_zero, Some (invalid_timestamp s)).
Proof.
  intros H. unfold ParseISO8601Timestamp, parse_with.
  assert (N : scanVariants iso8601Variants s = None).
  { apply scan_none, forallb_forall. intros re I.
    apply variant_cases in I as (hy & co & ->). now rewrite H. }
  now rewrite N.
Qed.

Ltac digit_pairs Ha Hb :=
  apply digit_cases in Ha, Hb; cbn [str list_ascii_of_string In] in Ha, Hb;
  repeat (destruct Ha as [<-|Ha]; [|]); try destruct Ha;
  repeat (destruct Hb as [<-|Hb]; [|]); try destruct Hb.

Lemma fmt_02d_digits a b :
  is_digit a = true -> is_digit b = true -> fmt_02d (decimal_value [a; b]) = [a; b].
Proof. intros Ha Hb. digit_pairs Ha Hb; reflexivity. Qed.

Lemma fmt_c_sign sg : sign_ok sg = true -> fmt_c sg = [sg].
Proof. intros H. apply sign_ok_inv in H as [-> | ->]; reflexivity. Qed.

Ltac range_cases H Ha Hb :=
  digit_pairs Ha Hb;
  first [ exfalso; vm_compute in H; discriminate H
        | vm_compute; repeat split; intros; discriminate ].

Lemma month_ok_range a b : month_ok a b = true -> 1 <= decimal_value [a; b] <= 12.
Proof. intros H. destruct (month_ok_digits _ _ H) as [Ha Hb]. range_cases H Ha Hb. Qed.
Lemma day_ok_range a b : day_ok a b = true -> 1 <= decimal_value [a; b] <= 31.
Proof. intros H. destruct (day_ok_digits _ _ H) as [Ha Hb]. range_cases H Ha Hb. Qed.
Lemma hour_ok_range a b : hour_ok a b = true -> 0 <= decimal_value [a; b] <= 23.
Proof. intros H. destruct (hour_ok_digits _ _ H) as [Ha Hb]. range_cases H Ha Hb. Qed.
Lemma minute_ok_range a b : minute_ok a b = true -> 0 <= decimal_value [a; b] <= 59.
Proof. intros H. destruct (minute_ok_digits _ _ H) as [Ha Hb]. range_cases H Ha Hb. Qed.
Lemma second_ok_bounds a b : second_ok a b = true -> 0 <= decimal_value [a; b] <= 61.
Proof. intros H. destruct (second_ok_digits _ _ H) as [Ha Hb]. range_cases H Ha Hb. Qed.

Lemma offset_hour_range h0 h1 :
  in_cls [("0", "0"); ("1", "1")]%char h0 = true -> is_digit h1 = true ->
  0 <= decimal_value [h0; h1] <= 19.
Proof.
  intros H Hb. pose proof (cls01_digit _ H) as Ha. range_cases H Ha Hb.
Qed.

(** The five shapes of an offset. *)
Lemma offset_ok_shapes tz :
  offset_ok tz = true ->
  tz = str "Z"
  \/ (exists sg h0 h1, tz = [sg; h0; h1])
  \/ (exists sg h0 h1, tz = [sg; h0; h1; ":"%char])
  \/ (exists sg h0 h1 m0 m1, tz = [sg; h0; h1; m0; m1] /\ m0 <> ":"%char)
  \/ (exists sg h0 h1 m0 m1, tz = [sg; h0; h1; ":"%char; m0; m1]).
Proof.
  intros H.
  destruct tz as [|sg [|h0 [|h1 [|c [|m0 [|m1 [|x tz]]]]]]]; try discriminate H.
  - left. cbn in H. apply Ascii.eqb_eq in H. now subst.
  - right. left. eauto.
  - right. right. left. offset_parts H. apply Ascii.eqb_eq in Hp. subst. eauto.
  - right. right. right. left. offset_parts H. apply minute_ok_digits in Hp as [Hc _].
    exists sg, h0, h1, c, m0. split; [reflexivity|]. intros ->. discriminate Hc.
  - right. right. right. right. offset_parts H. apply Ascii.eqb_eq in Hp0. subst. eauto 6.
Qed.

Lemma zone_of_value tz :
  offset_ok tz = true -> offset_complete tz = true -> zone_of tz = Val (zone_value tz).
Proof.
  intros H C.
  destruct tz as [|sg [|h0 [|h1 [|c [|m0 [|m1 [|x tz]]]]]]]; try discriminate.
  - cbn in H. apply Ascii.eqb_eq in H. subst sg. reflexivity.
  - offset_parts H. pose proof (minute_ok_digits _ _ Hp) as Hm.
    assert (Hh : is_digit h0 = true /\ is_digit h1 = true)
      by (split; [apply (cls01_digit _ Hp1)|assumption]).
    assert (Hc : Ascii.eqb c ":" = false).
    { destruct Hm as [Hc _]. destruct (Ascii.eqb_spec c ":"); [subst; discriminate Hc|reflexivity]. }
    unfold zone_of, zone_value. rewrite (sign_not_Z _ _ H).
    cbn [index nth_error bind slice length Nat.leb andb Nat.sub skipn firstn].
    rewrite (atoip2 _ _ Hh). cbn [bind]. rewrite Hc, (atoip2 _ _ Hm). cbn [bind].
    rewrite (fmt_c_sign _ H). destruct Hh as [Hh0 Hh1]. destruct Hm as [Hm0 Hm1].
    rewrite (fmt_02d_digits _ _ Hh0 Hh1), (fmt_02d_digits _ _ Hm0 Hm1).
    do 2 f_equal. cbn [offset_seconds].
    apply (offset_arith sg); apply two_digits_bound; auto.
  - offset_parts H. pose proof (minute_ok_digits _ _ Hp) as Hm.
    apply Ascii.eqb_eq in Hp0. subst c.
    assert (Hh : is_digit h0 = true /\ is_digit h1 = true)
      by (split; [apply (cls01_digit _ Hp2)|assumption]).
    unfold zone_of, zone_value. rewrite (sign_not_Z _ _ H).
    cbn [index nth_error bind slice length Nat.leb andb Nat.sub skipn firstn].
    rewrite (atoip2 _ _ Hh). cbn [bind]. rewrite Ascii.eqb_refl, (atoip2 _ _ Hm). cbn [bind].
    rewrite (fmt_c_sign _ H). destruct Hh as [Hh0 Hh1]. destruct Hm as [Hm0 Hm1].
    rewrite (fmt_02d_digits _ _ Hh0 Hh1), (fmt_02d_digits _ _ Hm0 Hm1).
    do 2 f_equal. cbn [offset_seconds].
    apply (offset_arith sg); apply two_digits_bound; auto.
Qed.

(** The padding loop scales the fraction to nanoseconds. *)
Lemma nanos_of_scaled fr : nanos_of fr = fraction_nanoseconds fr.
Proof.
  destruct fr as [[c ds]|]; cbn [nanos_of fraction_nanoseconds]; [|reflexivity].
  now rewrite pad9_zeros, decimal_value_zeros.
Qed.

Lemma parse_time_value hy co df tf :
  wf_date df = true -> wf_time tf = true -> offset_complete (ftz tf) = true ->
  ParseISO8601Timestamp (render_date hy df ++ render_time co tf)
  = Val (timestamp_value df tf, None).
Proof.
  intros Hd Ht Hc. unfold ParseISO8601Timestamp.
  rewrite parse_with_time, convert_time by assumption.
  rewrite (zone_of_value _ (wf_time_offset _ Ht) Hc), nanos_of_scaled. reflexivity.
Qed.

Lemma parse_date_value hy df :
  wf_date df = true ->
  ParseISO8601Timestamp (render_date hy df) = Val (date_value df, None).
Proof.
  intros Hd. unfold ParseISO8601Timestamp.
  rewrite parse_with_date, convert_date by assumption. reflexivity.
Qed.

(** The three outcomes, by the shape of the input. *)
Lemma parse_cases s :
  (exists hy co df tf, wf_date df = true /\ wf_time tf = true
     /\ s = render_date hy df ++ render_time co tf)
  \/ (exists hy df, wf_date df = true /\ s = render_date hy df)
  \/ ParseISO8601Timestamp s = Val (time_zero, Some (invalid_timestamp s)).
Proof.
  destruct (scanVariants iso8601Variants s) as [r|] eqn:E.
  - apply scan_some in E as (re & I & Hm & _).
    destruct (match_shape s re I Hm) as [hy co df tf Hd Ht Es|hy df Hd Es].
    + left. eauto 8.
    + right. left. eauto.
  - right. right. unfold ParseISO8601Timestamp, parse_with. now rewrite E.
Qed.

Lemma parse_value_inv (s : gostring) (t : time_Time) :
  ParseISO8601Timestamp s = Val (t, None) ->
  (exists hy co df tf,
      wf_date df = true /\ wf_time tf = true /\ offset_complete (ftz tf) = true
      /\ s = render_date hy df ++ render_time co tf /\ t = timestamp_value df tf)
  \/ (exists hy df, wf_date df = true /\ s = render_date hy df /\ t = date_value df).
Proof.
  intros H. destruct (parse_cases s) as [(hy & co & df & tf & Hd & Ht & ->)|
                                           [(hy & df & Hd & ->)|E]].
  - left. destruct (offset_complete (ftz tf)) eqn:Hc.
    + rewrite parse_time_value in H by assumption. injection H as <-. eauto 10.
    + destruct (parse_time_panic hy co df tf Hd Ht Hc) as [[_ E]|[_ E]];
        rewrite E in H; discriminate H.
  - right. rewrite parse_date_value in H by assumption. injection H as <-. eauto.
  - rewrite E in H. discriminate H.
Qed.

(** X1. [ParseISO8601Timestamp] returns a time without an error exactly on
    the texts of the grammar whose offset, if any, is [Z] or has a minute:
    a well-formed date in either layout, alone or followed by a well-formed
    time in either layout.  The time returned is [time.Date] called on the
    decimal values of the fields; the nanoseconds are 0 without a fraction
    and otherwise the number its digits spell times 10^(9 - number of
    digits), and the location is read from the offset; a date alone gives
    midnight UTC. *)
Theorem parse_accepts_exactly (s : gostring) (t : time_Time) :
  ParseISO8601Timestamp s = Val (t, None) <->
  (exists hy co df tf,
      wf_date df = true /\ wf_time tf = true /\ offset_complete (ftz tf) = true
      /\ s = render_date hy df ++ render_time co tf /\ t = timestamp_value df tf)
  \/ (exists hy df, wf_date df = true /\ s = render_date hy df /\ t = date_value df).
Proof.
  split; [apply parse_value_inv|].
  intros [(hy & co & df & tf & Hd & Ht & Hc & -> & ->)|(hy & df & Hd & -> & ->)].
  - now apply parse_time_value.
  - now apply parse_date_value.
Qed.

(** X2. [ParseISO8601Timestamp] panics exactly on a date and time of the
    grammar whose offset stops after the hour: with an index out of range
    when the offset is a sign and an hour, with slice bounds out of range
    when a colon follows the hour.  The panic of [atoip] is never raised:
    every submatch handed to it is a digit string. *)
Theorem parse_panics_exactly (s : gostring) (p : panic) :
  (ParseISO8601Timestamp s = Panic p <->
   exists hy co df tf,
     wf_date df = true /\ wf_time tf = true
     /\ s = render_date hy df ++ render_time co tf
     /\ ((length (ftz tf) = 3%nat /\ p = IndexOutOfRange)
         \/ (length (ftz tf) = 4%nat /\ p = SliceOutOfRange)))
  /\ (forall w, ParseISO8601Timestamp s <> Panic (AtoipFailed w)).
Proof.
  assert (A : forall q, ParseISO8601Timestamp s = Panic q ->
    exists hy co df tf,
     wf_date df = true /\ wf_time tf = true
     /\ s = render_date hy df ++ render_time co tf
     /\ ((length (ftz tf) = 3%nat /\ q = IndexOutOfRange)
         \/ (length (ftz tf) = 4%nat /\ q = SliceOutOfRange))).
  { intros q H. destruct (parse_cases s) as [(hy & co & df & tf & Hd & Ht & ->)|
                                           [(hy & df & Hd & ->)|E]].
    - destruct (offset_complete (ftz tf)) eqn:Hc.
      + rewrite parse_time_value in H by assumption. discriminate H.
      + exists hy, co, df, tf. repeat split; try assumption.
        destruct (parse_time_panic hy co df tf Hd Ht Hc) as [[L E]|[L E]];
          rewrite E in H; injection H as <-; auto.
    - rewrite parse_date_value in H by assumption. discriminate H.
    - rewrite E in H. discriminate H. }
  split; [split|].
  - apply A.
  - intros (hy & co & df & tf & Hd & Ht & -> & Hp).
    assert (Hc : offset_complete (ftz tf) = false).
    { unfold offset_complete. destruct Hp as [[L _]|[L _]]; rewrite L; reflexivity. }
    destruct (parse_time_panic hy co df tf Hd Ht Hc) as [[L E]|[L E]];
      destruct Hp as [[L' ->]|[L' ->]]; try exact E; rewrite L in L'; discriminate L'.
  - intros w H. apply A in H as (_ & _ & _ & _ & _ & _ & _ & [[_ E]|[_ E]]); discriminate E.
Qed.

Lemma same_reading_nanos tf tf' :
  wf_time tf = true -> wf_time tf' = true ->
  frac_digits (ffrac tf) = frac_digits (ffrac tf') ->
  nanos_of (ffrac tf) = nanos_of (ffrac tf').
Proof.
  unfold wf_time. intros H H' E.
  apply andb_true_iff in H as [H _]. apply andb_true_iff in H as [_ Hf].
  apply andb_true_iff in H' as [H' _]. apply andb_true_iff in H' as [_ Hf'].
  destruct (ffrac tf) as [[c ds]|], (ffrac tf') as [[c' ds']|]; cbn [frac_digits nanos_of] in *.
  - now subst.
  - apply frac_ok_inv in Hf as (_ & _ & L). subst ds. cbn in L. lia.
  - apply frac_ok_inv in Hf' as (_ & _ & L). subst ds'. cbn in L. lia.
  - reflexivity.
Qed.

(** X3. The result does not depend on the layout of either segment, on
    the separator between date and time ([T], [t] or a space), or on the
    mark of the fraction ([.] or [,]): two texts with the same date, whose
    times have the same digits and the same offset, parse alike. *)
Theorem layout_and_separators_do_not_matter
  (hy co hy' co' : bool) (df : date_fields) (tf tf' : time_fields) :
  wf_date df = true -> wf_time tf = true -> wf_time tf' = true ->
  same_reading tf tf' ->
  ParseISO8601Timestamp (render_date hy df ++ render_time co tf)
  = ParseISO8601Timestamp (render_date hy' df ++ render_time co' tf').
Proof.
  intros Hd Ht Ht' (Eh & Em & Es & Ef & Ez). unfold ParseISO8601Timestamp.
  rewrite !parse_with_time, !convert_time by assumption.
  rewrite Eh, Em, Es, Ez, (same_reading_nanos tf tf' Ht Ht' Ef). reflexivity.
Qed.

Lemma layout_and_separators_do_not_matter_witness :
  ParseISO8601Timestamp (str "2020-02-17T11:39:27.658731-02:30")
  = ParseISO8601Timestamp (str "20200217 113927,658731-02:30").
Proof.
  exact (layout_and_separators_do_not_matter true true false false date_2020_02_17
           time_11_39_27 time_11_39_27_alt eq_refl eq_refl eq_refl
           (conj eq_refl (conj eq_refl (conj eq_refl (conj eq_refl eq_refl))))).
Defined.

Lemma nanos_range fr : frac_ok fr = true -> 0 <= nanos_of fr <= 999999999.
Proof.
  destruct fr as [[c ds]|]; cbn [nanos_of]; [|lia].
  intros H. apply frac_ok_inv in H as (_ & Hd & L).
  assert (D : forallb is_digit (pad9 ds) = true)
    by (rewrite pad9_zeros, forallb_app, Hd; apply forallb_digit_zeros).
  apply decimal_value_bounds in D.
  replace (length (pad9 ds)) with 9%nat in D
    by (rewrite pad9_zeros, length_app, repeat_length; lia).
  change (10 ^ Z.of_nat 9) with 1000000000 in D. lia.
Qed.

Lemma offset_seconds_range tz :
  offset_ok tz = true ->
  -71940 <= offset_seconds tz <= 71940 /\ (offset_seconds tz) mod 60 = 0.
Proof.
  intros H.
  destruct tz as [|sg [|h0 [|h1 [|c [|m0 [|m1 [|x tz]]]]]]]; try discriminate H;
    cbn [offset_seconds]; try (split; [lia|reflexivity]).
  - offset_parts H. pose proof (offset_hour_range _ _ Hp1 Hp0). pose proof (minute_ok_range _ _ Hp).
    replace (sign_of sg * (decimal_value [h0; h1] * 3600 + decimal_value [c; m0] * 60))
      with (sign_of sg * (decimal_value [h0; h1] * 60 + decimal_value [c; m0]) * 60) by lia.
    rewrite Z_mod_mult. unfold sign_of. destruct (Ascii.eqb sg "-"); lia.
  - offset_parts H. pose proof (offset_hour_range _ _ Hp2 Hp1). pose proof (minute_ok_range _ _ Hp).
    replace (sign_of sg * (decimal_value [h0; h1] * 3600 + decimal_value [m0; m1] * 60))
      with (sign_of sg * (decimal_value [h0; h1] * 60 + decimal_value [m0; m1]) * 60) by lia.
    rewrite Z_mod_mult. unfold sign_of. destruct (Ascii.eqb sg "-"); lia.
Qed.

Lemma zone_value_offset tz :
  offset_ok tz = true -> zone_offset (zone_value tz) = offset_seconds tz.
Proof.
  intros H. unfold zone_value. destruct (streq tz (str "Z")) eqn:E; [|reflexivity].
  apply streq_spec in E. subst. reflexivity.
Qed.

Lemma wf_date_ranges df :
  wf_date df = true ->
  1 <= decimal_value (month_of df) <= 12 /\ 1 <= decimal_value (day_of df) <= 31.
Proof.
  unfold wf_date. intros H. apply andb_true_iff in H as [H Hd].
  apply andb_true_iff in H as [_ Hm].
  split; [now apply month_ok_range|now apply day_ok_range].
Qed.

Lemma wf_time_ranges tf :
  wf_time tf = true ->
  0 <= decimal_value (hour_of tf) <= 23 /\ 0 <= decimal_value (minute_of tf) <= 59
  /\ 0 <= decimal_value (second_of tf) <= 61 /\ 0 <= nanos_of (ffrac tf) <= 999999999.
Proof.
  unfold wf_time. intros H.
  apply andb_true_iff in H as [H _]. apply andb_true_iff in H as [H Hf].
  apply andb_true_iff in H as [H Hs]. apply andb_true_iff in H as [H Hn].
  apply andb_true_iff in H as [_ Hh].
  repeat split; try (now apply hour_ok_range); try (now apply minute_ok_range);
    try (now apply second_ok_bounds); now apply nanos_range.
Qed.

(** X4. The arguments handed to [time.Date] for an accepted text are in
    range: month 1 to 12, day 1 to 31, hour 0 to 23, minute 0 to 59, second
    0 to 61, nanoseconds 0 to 999999999, and a location whose offset is a
    whole number of minutes within 19 hours 59 minutes of UTC. *)
Theorem accepted_fields_in_range (s : gostring) (t : time_Time) :
  ParseISO8601Timestamp s = Val (t, None) ->
  in_range 1 12 (date_month t) /\ in_range 1 31 (date_day t)
  /\ in_range 0 23 (date_hour t) /\ in_range 0 59 (date_minute t)
  /\ in_range 0 61 (date_second t) /\ in_range 0 999999999 (date_nsec t)
  /\ exists loc, date_location t = Some loc
                 /\ -71940 <= zone_offset loc <= 71940 /\ (zone_offset loc) mod 60 = 0.
Proof.
  intros H. unfold in_range.
  apply parse_value_inv in H as [(hy & co & df & tf & Hd & Ht & Hc & _ & ->)|
                                 (hy & df & Hd & _ & ->)].
  - destruct (wf_date_ranges _ Hd) as (A1 & A2).
    destruct (wf_time_ranges _ Ht) as (B1 & B2 & B3 & B4).
    rewrite nanos_of_scaled in B4.
    destruct (offset_seconds_range _ (wf_time_offset _ Ht)) as (C1 & C2).
    cbn [timestamp_value date_month date_day date_hour date_minute date_second date_nsec
           date_location].
    repeat split; eauto.
    exists (zone_value (ftz tf)). rewrite (zone_value_offset _ (wf_time_offset _ Ht)). auto.
  - destruct (wf_date_ranges _ Hd) as (A1 & A2).
    cbn [date_value date_month date_day date_hour date_minute date_second date_nsec
           date_location].
    repeat split; eauto; try (eexists; split; [reflexivity|lia]).
    exists time_UTC. cbn. repeat split; auto; lia.
Qed.

Lemma accepted_fields_in_range_witness :
  ParseISO8601Timestamp (str "2020-02-17T11:39:27.658731-02:30")
  = Val (time_Date 2020 2 17 11 39 27 658731000 (time_FixedZone (str "-02:30") (-9000)), None)
  /\ in_range 0 999999999 (Some 658731000)
  /\ exists loc, Some (time_FixedZone (str "-02:30") (-9000)) = Some loc
                 /\ -71940 <= zone_offset loc <= 71940 /\ (zone_offset loc) mod 60 = 0.
Proof.
  assert (H : ParseISO8601Timestamp (str "2020-02-17T11:39:27.658731-02:30")
              = Val (time_Date 2020 2 17 11 39 27 658731000
                       (time_FixedZone (str "-02:30") (-9000)), None))
    by (vm_compute; reflexivity).
  split; [exact H|].
  destruct (accepted_fields_in_range _ _ H) as (_ & _ & _ & _ & _ & N & L).
  split; [exact N|exact L].
Defined.

(** X5. An offset with a minute gives the same location with and without
    the colon: in both forms the zone is named sign, hour, colon, minute
    and lies sign * (hour * 3600 + minute * 60) seconds east of UTC. *)
Theorem offset_colon_is_optional (sg h0 h1 m0 m1 : ascii) :
  offset_ok [sg; h0; h1; m0; m1] = true ->
  zone_of [sg; h0; h1; ":"%char; m0; m1] = zone_of [sg; h0; h1; m0; m1]
  /\ zone_of [sg; h0; h1; m0; m1]
     = Val (time_FixedZone [sg; h0; h1; ":"%char; m0; m1]
              (sign_of sg * (decimal_value [h0; h1] * 3600 + decimal_value [m0; m1] * 60))).
Proof.
  intros H.
  assert (H' : offset_ok [sg; h0; h1; ":"%char; m0; m1] = true).
  { pose proof H as G. offset_parts G. unfold offset_ok.
    rewrite G, Hp1, Hp0, Hp, Ascii.eqb_refl. reflexivity. }
  rewrite (zone_of_value _ H eq_refl), (zone_of_value _ H' eq_refl).
  pose proof H as G. offset_parts G. unfold zone_value.
  rewrite !(sign_not_Z _ _ G). split; reflexivity.
Qed.

Lemma offset_colon_is_optional_witness :
  zone_of (str "-02:30") = zone_of (str "-0230")
  /\ zone_of (str "-0230") = Val (time_FixedZone (str "-02:30") (-9000)).
Proof. exact (offset_colon_is_optional "-" "0" "2" "3" "0" eq_refl). Defined.

Lemma render_date_length hy df :
  length (render_date hy df) = if hy then 10%nat else 8%nat.
Proof. destruct hy; reflexivity. Qed.

Lemma offset_ok_length tz : offset_ok tz = true -> (1 <= length tz <= 6)%nat.
Proof.
  intros H. destruct tz as [|sg [|h0 [|h1 [|c [|m0 [|m1 [|x tz]]]]]]];
    try discriminate H; cbn; lia.
Qed.

Lemma render_time_length co tf :
  wf_time tf = true -> (8 <= length (render_time co tf) <= 25)%nat.
Proof.
  intros H. pose proof (offset_ok_length _ (wf_time_offset _ H)) as Lz.
  unfold wf_time in H. apply andb_true_iff in H as [H _]. apply andb_true_iff in H as [_ Hf].
  assert (Lf : (length (render_frac (ffrac tf)) <= 10)%nat).
  { destruct (ffrac tf) as [[c ds]|]; cbn [render_frac length]; [|lia].
    apply frac_ok_inv in Hf as (_ & _ & L). lia. }
  unfold render_time, hour_of, minute_of, second_of, colon.
  destruct co; cbn [app length]; rewrite length_app; lia.
Qed.

Lemma matched_length hy co s :
  MatchString (layout_re hy co) s = true -> (8 <= length s <= 35)%nat.
Proof.
  intros H. apply match_layout in H as (df & t & Hd & -> & Ht).
  rewrite length_app, render_date_length. destruct co as [c|]; cbn [segment_after] in Ht.
  - destruct Ht as (tf & Hf & ->). pose proof (render_time_length c tf Hf). destruct hy; lia.
  - subst t. cbn. destruct hy; lia.
Qed.

(** X6. A text shorter than 8 bytes or longer than 35 bytes is rejected
    with the error of the parser and the zero time. *)
Theorem too_short_or_too_long_is_rejected (s : gostring) :
  (length s < 8)%nat \/ (35 < length s)%nat ->
  ParseISO8601Timestamp s = Val (time_zero, Some (invalid_timestamp s)).
Proof.
  intros H. apply no_match_error. intros hy co.
  destruct (MatchString (layout_re hy co) s) eqn:E; [|reflexivity].
  apply matched_length in E. lia.
Qed.

Lemma too_short_or_too_long_is_rejected_witness :
  ParseISO8601Timestamp [] = Val (time_zero, Some (invalid_timestamp []))
  /\ ParseISO8601Timestamp (str "2020-02-17T11:39:27.1234567890+00:00")
     = Val (time_zero, Some (invalid_timestamp (str "2020-02-17T11:39:27.1234567890+00:00"))).
Proof.
  split.
  - apply (too_short_or_too_long_is_rejected []). left. cbn. lia.
  - apply (too_short_or_too_long_is_rejected (str "2020-02-17T11:39:27.1234567890+00:00")).
    right. cbn. lia.
Defined.

Lemma offset_ok_last tz :
  offset_ok tz = true ->
  exists front l, tz = front ++ [l]
                  /\ (is_digit l = true \/ l = "Z"%char \/ l = ":"%char).
Proof.
  intros H. destruct (offset_ok_shapes _ H) as
    [->|[(sg & h0 & h1 & ->)|[(sg & h0 & h1 & ->)|[(sg & h0 & h1 & m0 & m1 & -> & _)|
     (sg & h0 & h1 & m0 & m1 & ->)]]]].
  - exists [], "Z"%char. auto.
  - exists [sg; h0], h1. split; [reflexivity|]. left. now offset_parts H.
  - exists [sg; h0; h1], ":"%char. auto.
  - exists [sg; h0; h1; m0], m1. split; [reflexivity|]. left.
    offset_parts H. now apply minute_ok_digits in Hp as [_ Hp].
  - exists [sg; h0; h1; ":"%char; m0], m1. split; [reflexivity|]. left.
    offset_parts H. now apply minute_ok_digits in Hp as [_ Hp].
Qed.

Lemma matched_first hy co c s :
  MatchString (layout_re hy co) (c :: s) = true -> is_digit c = true.
Proof.
  intros H. apply match_layout in H as ([a b c' d e f g h] & t & Hd & E & _).
  unfold wf_date, year_ok in Hd. cbn [fy0 fy1 fy2 fy3] in Hd.
  do 5 (apply andb_true_iff in Hd as [Hd _]).
  destruct hy; cbn in E; injection E as -> _; exact Hd.
Qed.

Lemma matched_last hy co c s :
  MatchString (layout_re hy co) (s ++ [c]) = true ->
  is_digit c = true \/ c = "Z"%char \/ c = ":"%char.
Proof.
  intros H. apply match_layout in H as (df & t & Hd & E & Ht).
  destruct co as [co|]; cbn [segment_after] in Ht.
  - destruct Ht as (tf & Hf & ->).
    destruct (offset_ok_last _ (wf_time_offset _ Hf)) as (front & l & Ez & Hl).
    unfold render_time in E. rewrite Ez in E.
    change (fsep tf :: hour_of tf ++ colon co ++ minute_of tf ++ colon co ++ second_of tf
              ++ render_frac (ffrac tf) ++ front ++ [l])
      with ((fsep tf :: hour_of tf) ++ colon co ++ minute_of tf ++ colon co ++ second_of tf
              ++ render_frac (ffrac tf) ++ front ++ [l]) in E.
    rewrite !app_assoc in E. apply app_inj_tail in E as [_ ->]. exact Hl.
  - subst t. rewrite app_nil_r in E.
    unfold wf_date in Hd. apply andb_true_iff in Hd as [_ Hd].
    apply day_ok_digits in Hd as [_ Hd].
    unfold render_date, day_of in E.
    change [fd0 df; fd1 df] with ([fd0 df] ++ [fd1 df]) in E.
    rewrite !app_assoc in E. apply app_inj_tail in E as [_ ->]. now left.
Qed.

(** X7. The patterns are anchored at both ends: a text whose first byte
    is not a digit is rejected, and so is a text whose last byte is neither
    a digit, nor [Z], nor a colon (surrounding white space or a trailing
    newline, for instance). *)
Theorem surrounding_bytes_are_rejected (s : gostring) (c : ascii) :
  is_digit c = false ->
  ParseISO8601Timestamp (c :: s) = Val (time_zero, Some (invalid_timestamp (c :: s)))
  /\ (c <> "Z"%char -> c <> ":"%char ->
      ParseISO8601Timestamp (s ++ [c]) = Val (time_zero, Some (invalid_timestamp (s ++ [c])))).
Proof.
  intros Hc. split.
  - apply no_match_error. intros hy co.
    destruct (MatchString (layout_re hy co) (c :: s)) eqn:E; [|reflexivity].
    apply matched_first in E. congruence.
  - intros NZ NC. apply no_match_error. intros hy co.
    destruct (MatchString (layout_re hy co) (s ++ [c])) eqn:E; [|reflexivity].
    apply matched_last in E as [E|[E|E]]; congruence.
Qed.

Lemma surrounding_bytes_are_rejected_witness :
  ParseISO8601Timestamp (" "%char :: str "1900-12-31")
  = Val (time_zero, Some (invalid_timestamp (" "%char :: str "1900-12-31")))
  /\ ParseISO8601Timestamp (str "1900-12-31T00:10:20Z" ++ ["010"%char])
     = Val (time_zero, Some (invalid_timestamp (str "1900-12-31T00:10:20Z" ++ ["010"%char]))).
Proof.
  split.
  - exact (proj1 (surrounding_bytes_are_rejected (str "1900-12-31") " " eq_refl)).
  - apply (proj2 (surrounding_bytes_are_rejected (str "1900-12-31T00:10:20Z") "010" eq_refl));
      discriminate.
Defined.

Lemma pad9_trailing_zero ds :
  (length ds <= 8)%nat -> pad9 (ds ++ ["0"%char]) = pad9 ds.
Proof.
  intros L. rewrite !pad9_zeros, length_app. cbn [length].
  replace (9 - length ds)%nat with (S (9 - (length ds + 1))) by lia.
  cbn [repeat]. now rewrite <- app_assoc.
Qed.

Lemma wf_time_with_frac fr tf :
  wf_time tf = true -> frac_ok fr = true -> wf_time (with_frac fr tf) = true.
Proof.
  unfold wf_time, with_frac. cbn [fsep fh0 fh1 fn0 fn1 fs0 fs1 ffrac ftz]. intros H Hf.
  apply andb_true_iff in H as [H Hz]. apply andb_true_iff in H as [H _].
  now rewrite H, Hf, Hz.
Qed.

(** X8. Since the fraction is padded with zeros on the right, a further
    zero at the end of a fraction of at most eight digits does not change
    the result. *)
Theorem trailing_zero_of_fraction_is_ignored
  (hy co : bool) (df : date_fields) (tf : time_fields) (c : ascii) (ds : gostring) :
  wf_date df = true -> wf_time tf = true ->
  ffrac tf = Some (c, ds) -> (length ds <= 8)%nat ->
  wf_time (with_frac (Some (c, ds ++ ["0"%char])) tf) = true
  /\ ParseISO8601Timestamp
       (render_date hy df ++ render_time co (with_frac (Some (c, ds ++ ["0"%char])) tf))
     = ParseISO8601Timestamp (render_date hy df ++ render_time co tf).
Proof.
  intros Hd Ht Ef L.
  assert (Hf : frac_ok (Some (c, ds ++ ["0"%char])) = true).
  { pose proof Ht as G. unfold wf_time in G. apply andb_true_iff in G as [G _].
    apply andb_true_iff in G as [_ G]. rewrite Ef in G.
    apply frac_ok_inv in G as (Hc & Hds & L1). cbn [frac_ok].
    rewrite Hc, forallb_app, Hds, length_app. cbn [forallb length andb].
    change (is_digit "0") with true. cbn [andb].
    rewrite (proj2 (Nat.leb_le 1 _)) by lia. rewrite (proj2 (Nat.leb_le _ 9)) by lia.
    reflexivity. }
  pose proof (wf_time_with_frac _ tf Ht Hf) as Ht'. split; [exact Ht'|].
  unfold ParseISO8601Timestamp. rewrite !parse_with_time, !convert_time by assumption.
  rewrite Ef. cbn [with_frac hour_of minute_of second_of fh0 fh1 fn0 fn1 fs0 fs1 ffrac ftz
                     nanos_of].
  now rewrite pad9_trailing_zero.
Qed.

Lemma trailing_zero_of_fraction_is_ignored_witness :
  ParseISO8601Timestamp (str "2020-02-17T11:39:27.60Z")
  = ParseISO8601Timestamp (str "2020-02-17T11:39:27.6Z").
Proof.
  exact (proj2 (trailing_zero_of_fraction_is_ignored true true date_2020_02_17
                  time_11_39_27_6 "." (str "6") eq_refl eq_refl eq_refl
                  (le_S _ _ (le_S _ _ (le_S _ _ (le_S _ _ (le_S _ _ (le_S _ _ (le_S _ _ (le_n 1)))))))))).
Defined.

(** X9. On a text between two double quotes or two single quotes,
    [UnmarshalJSON] does what [UnmarshalText] does on the text between the
    quotes, whatever that text is (no escape sequence is decoded). *)
Theorem unmarshal_json_is_unmarshal_text_of_the_inner_text
  (t : Wrapper.Time) (q : ascii) (inner : gostring) :
  q = Wrapper.dquote \/ q = Wrapper.squote ->
  Wrapper.UnmarshalJSON t (q :: inner ++ [q]) = Wrapper.UnmarshalText t inner.
Proof.
  intros Hq. destruct (literal_quoted q inner Hq) as (A & B & C).
  rewrite (UnmarshalJSON_cases t _ C), A, B. reflexivity.
Qed.

Lemma unmarshal_json_is_unmarshal_text_of_the_inner_text_witness :
  Wrapper.UnmarshalJSON new_year_2001 (Wrapper.squote :: str "19001231" ++ [Wrapper.squote])
  = Wrapper.UnmarshalText new_year_2001 (str "19001231").
Proof.
  exact (unmarshal_json_is_unmarshal_text_of_the_inner_text new_year_2001 Wrapper.squote
           (str "19001231") (or_intror eq_refl)).
Defined.

(** X10. Each of the six patterns of [init] stands for one layout, a date
    with or without hyphens followed by a time with colons, a time without
    colons, or nothing, and it matches exactly the texts of that layout:
    a well-formed date, then a well-formed time or the end of the text. *)
Theorem patterns_accept_exactly_the_renderings (hy : bool) (co : option bool) (s : gostring) :
  In (pattern_of hy co) iso8601Variants
  /\ (MatchString (pattern_of hy co) s = true <->
      exists df t, wf_date df = true /\ s = render_date hy df ++ t
        /\ match co with
           | Some c => exists tf, wf_time tf = true /\ t = render_time c tf
           | None => t = []
           end).
Proof.
  rewrite pattern_layout. split; [apply layout_in|]. apply match_layout.
Qed.

(** X11. On a text it matches, [FindStringSubmatch] returns the whole text
    followed by the fields: year, month, day and, for a pattern with a
    time, hour, minute, second, the digits of the fraction (empty when
    there is none) and the offset.  A date pattern has four parts, a
    date and time pattern nine. *)
Theorem submatches_are_the_fields
  (hy co : bool) (df : date_fields) (tf : time_fields) :
  wf_date df = true -> wf_time tf = true ->
  FindStringSubmatch (pattern_of hy (Some co)) (render_date hy df ++ render_time co tf)
  = [render_date hy df ++ render_time co tf; year_of df; month_of df; day_of df;
     hour_of tf; minute_of tf; second_of tf; frac_digits (ffrac tf); ftz tf]
  /\ FindStringSubmatch (pattern_of hy None) (render_date hy df)
     = [render_date hy df; year_of df; month_of df; day_of df].
Proof.
  intros Hd Ht. rewrite !pattern_layout. split.
  - now apply submatch_time.
  - now apply submatch_date.
Qed.

Lemma submatches_are_the_fields_witness :
  FindStringSubmatch variant1 (str "20200217 113927,658731-02:30")
  = map str ["20200217 113927,658731-02:30"; "2020"; "02"; "17"; "11"; "39"; "27";
             "658731"; "-02:30"]%string
  /\ FindStringSubmatch variant5 (str "20200217") = map str ["20200217"; "2020"; "02"; "17"]%string.
Proof.
  exact (submatches_are_the_fields false false date_2020_02_17 time_11_39_27_alt
           eq_refl eq_refl).
Defined.

(* ================================================================= *)
(** ** The compact layout, written and read back *)

Lemma digit_byte_facts u :
  0 <= u <= 9 -> is_digit (digit_byte u) = true /\ digit_val (digit_byte u) = u.
Proof.
  intros H.
  assert (E : u = 0 \/ u = 1 \/ u = 2 \/ u = 3 \/ u = 4 \/ u = 5 \/ u = 6 \/ u = 7
              \/ u = 8 \/ u = 9) by lia.
  repeat (destruct E as [-> | E]; [split; reflexivity|]). subst. split; reflexivity.
Qed.

Lemma decimal_value_snoc w d :
  decimal_value (w ++ [d]) = decimal_value w * 10 + digit_val d.
Proof. unfold decimal_value. now rewrite decimal_from_app. Qed.

Lemma decimal_digits_spec : forall room k u,
  (1 <= k <= room)%nat -> 0 <= u < 10 ^ Z.of_nat k ->
  (1 <= length (decimal_digits room u) <= k)%nat
  /\ forallb is_digit (decimal_digits room u) = true
  /\ decimal_value (decimal_digits room u) = u.
Proof.
  induction room as [|room IH]; intros k u Hk Hu; [lia|]. cbn [decimal_digits].
  destruct (u <? 10) eqn:E.
  - apply Z.ltb_lt in E. destruct (digit_byte_facts u ltac:(lia)) as [D V].
    cbn [length forallb]. rewrite D. unfold decimal_value. cbn [decimal_from]. rewrite V.
    repeat split; try lia; try reflexivity.
  - apply Z.ltb_ge in E.
    assert (K : (2 <= k)%nat).
    { destruct k as [|[|k]]; try lia; cbn in Hu; lia. }
    assert (Hq : 0 <= u / 10 < 10 ^ Z.of_nat (k - 1)).
    { split; [apply Z.div_pos; lia|]. apply Z.div_lt_upper_bound; [lia|].
      rewrite <- Z.pow_succ_r by lia. replace (Z.succ (Z.of_nat (k - 1))) with (Z.of_nat k) by lia.
      lia. }
    destruct (IH (k - 1)%nat (u / 10) ltac:(lia) Hq) as (L & D & V).
    pose proof (Z.mod_pos_bound u 10 ltac:(lia)) as Hm.
    destruct (digit_byte_facts (u mod 10) ltac:(lia)) as [D' V'].
    rewrite length_app, forallb_app, decimal_value_snoc, D, V, V'. cbn [length forallb].
    rewrite D'. repeat split; try lia; try reflexivity.
    pose proof (Z.div_mod u 10 ltac:(lia)). lia.
Qed.

Lemma decimal_value_lead w n :
  decimal_value (repeat "0"%char n ++ w) = decimal_value w.
Proof.
  unfold decimal_value. rewrite decimal_from_app, decimal_zeros, Z.mul_0_l. reflexivity.
Qed.

Lemma appendInt_spec x width :
  (1 <= width <= 20)%nat -> 0 <= x < 10 ^ Z.of_nat width ->
  length (appendInt x width) = width
  /\ forallb is_digit (appendInt x width) = true
  /\ decimal_value (appendInt x width) = x.
Proof.
  intros Hw Hx. unfold appendInt.
  replace (x <? 0) with false by (symmetry; apply Z.ltb_ge; lia).
  rewrite Z.abs_eq by lia. cbn [app].
  destruct (decimal_digits_spec 20 width x ltac:(lia) Hx) as (L & D & V).
  rewrite length_app, repeat_length, forallb_app, forallb_digit_zeros, D, decimal_value_lead, V.
  repeat split; try reflexivity. lia.
Qed.

Lemma appendInt2 x :
  0 <= x <= 99 ->
  exists a b, appendInt x 2 = [a; b] /\ is_digit a = true /\ is_digit b = true
              /\ decimal_value [a; b] = x.
Proof.
  intros H. destruct (appendInt_spec x 2 ltac:(lia) ltac:(change (10 ^ Z.of_nat 2) with 100; lia))
    as (L & D & V).
  destruct (appendInt x 2) as [|a [|b [|c w]]]; try discriminate L.
  cbn in D. apply andb_true_iff in D as [Da D]. apply andb_true_iff in D as [Db _].
  exists a, b. auto.
Qed.

Lemma appendInt4 x :
  0 <= x <= 9999 ->
  exists a b c d, appendInt x 4 = [a; b; c; d] /\ year_ok a b c d = true
                  /\ decimal_value [a; b; c; d] = x.
Proof.
  intros H.
  destruct (appendInt_spec x 4 ltac:(lia) ltac:(change (10 ^ Z.of_nat 4) with 10000; lia))
    as (L & D & V).
  destruct (appendInt x 4) as [|a [|b [|c [|d [|e w]]]]]; try discriminate L.
  cbn in D. apply andb_true_iff in D as [Da D]. apply andb_true_iff in D as [Db D].
  apply andb_true_iff in D as [Dc D]. apply andb_true_iff in D as [Dd _].
  exists a, b, c, d. unfold year_ok. rewrite Da, Db, Dc, Dd. auto.
Qed.

Ltac ok_cases H Ha Hb :=
  digit_pairs Ha Hb; first [ reflexivity | exfalso; vm_compute in H; discriminate H ].

Lemma month_ok_of_value a b :
  is_digit a = true -> is_digit b = true ->
  between 1 (decimal_value [a; b]) 12 = true -> month_ok a b = true.
Proof. intros Ha Hb H. ok_cases H Ha Hb. Qed.
Lemma day_ok_of_value a b :
  is_digit a = true -> is_digit b = true ->
  between 1 (decimal_value [a; b]) 31 = true -> day_ok a b = true.
Proof. intros Ha Hb H. ok_cases H Ha Hb. Qed.
Lemma hour_ok_of_value a b :
  is_digit a = true -> is_digit b = true ->
  between 0 (decimal_value [a; b]) 23 = true -> hour_ok a b = true.
Proof. intros Ha Hb H. ok_cases H Ha Hb. Qed.
Lemma minute_ok_of_value a b :
  is_digit a = true -> is_digit b = true ->
  between 0 (decimal_value [a; b]) 59 = true -> minute_ok a b = true.
Proof. intros Ha Hb H. ok_cases H Ha Hb. Qed.
Lemma second_ok_of_value a b :
  is_digit a = true -> is_digit b = true ->
  between 0 (decimal_value [a; b]) 61 = true -> second_ok a b = true.
Proof. intros Ha Hb H. ok_cases H Ha Hb. Qed.

Lemma between_spec lo v hi : between lo v hi = true <-> lo <= v <= hi.
Proof. unfold between. rewrite andb_true_iff, !Z.leb_le. tauto. Qed.

Lemma days_in_le y m : days_in y m <= 31.
Proof.
  unfold days_in. destruct (m =? 2); [destruct (leap_year y); lia|].
  destruct ((m =? 4) || (m =? 6) || (m =? 9) || (m =? 11)); lia.
Qed.

Lemma chunks_compact :
  chunks ISO8601CompactFormat
  = Some [stdLongYear; stdZeroMonth; stdZeroDay; literal "T"; stdHour; stdZeroMinute;
          stdZeroSecond; literal "Z"].
Proof. vm_compute. reflexivity. Qed.

Lemma chunks_RFC3339Nano :
  chunks time_RFC3339Nano
  = Some [stdLongYear; literal "-"; stdZeroMonth; literal "-"; stdZeroDay; literal "T";
          stdHour; literal ":"; stdZeroMinute; literal ":"; stdZeroSecond;
          stdFracSecond9 "."; stdISO8601ColonTZ].
Proof. vm_compute. reflexivity. Qed.

Lemma format_compact t c :
  civil_of t = Some c ->
  Format t ISO8601CompactFormat
  = Some (appendInt (c_year c) 4 ++ appendInt (c_month c) 2 ++ appendInt (c_day c) 2
          ++ ["T"%char] ++ appendInt (c_hour c) 2 ++ appendInt (c_minute c) 2
          ++ appendInt (c_second c) 2 ++ ["Z"%char]).
Proof.
  intros Hc. unfold Format. rewrite Hc, chunks_compact.
  cbn [fold_left append_chunk]. rewrite app_nil_l, <- !app_assoc. reflexivity.
Qed.

Lemma format_RFC3339Nano t c :
  civil_of t = Some c ->
  Format t time_RFC3339Nano
  = Some (appendZone
            (appendNano
               (appendInt (c_year c) 4 ++ ["-"%char] ++ appendInt (c_month c) 2
                ++ ["-"%char] ++ appendInt (c_day c) 2 ++ ["T"%char]
                ++ appendInt (c_hour c) 2 ++ [":"%char] ++ appendInt (c_minute c) 2
                ++ [":"%char] ++ appendInt (c_second c) 2)
               (c_nsec c) ".")
            (c_offset c)).
Proof.
  intros Hc. unfold Format. rewrite Hc, chunks_RFC3339Nano.
  cbn [fold_left append_chunk]. rewrite app_nil_l, <- !app_assoc. reflexivity.
Qed.

Lemma civil_of_ranges t c :
  civil_of t = Some c ->
  1 <= c_month c <= 12 /\ 1 <= c_day c <= 31 /\ 0 <= c_hour c <= 23
  /\ 0 <= c_minute c <= 59 /\ 0 <= c_second c <= 59 /\ 0 <= c_nsec c <= 999999999.
Proof.
  intros Hc.
  destruct t as [|y m d h mi s ns loc]; cbn [civil_of] in Hc.
  - injection Hc as <-. cbn. lia.
  - destruct (between 1 m 12 && between 1 d (days_in y m) && between 0 h 23
              && between 0 mi 59 && between 0 s 59 && between 0 ns 999999999) eqn:B;
      [|discriminate Hc].
    injection Hc as <-. cbn [c_month c_day c_hour c_minute c_second c_nsec].
    repeat (apply andb_true_iff in B as [B ?]).
    repeat match goal with H : between _ _ _ = true |- _ => apply between_spec in H end.
    pose proof (days_in_le y m). lia.
Qed.

Lemma compact_parses (c : civil) :
  0 <= c_year c <= 9999 -> 1 <= c_month c <= 12 -> 1 <= c_day c <= 31 ->
  0 <= c_hour c <= 23 -> 0 <= c_minute c <= 59 -> 0 <= c_second c <= 61 ->
  ParseISO8601Timestamp
    (appendInt (c_year c) 4 ++ appendInt (c_month c) 2 ++ appendInt (c_day c) 2
     ++ ["T"%char] ++ appendInt (c_hour c) 2 ++ appendInt (c_minute c) 2
     ++ appendInt (c_second c) 2 ++ ["Z"%char])
  = Val (time_Date (c_year c) (c_month c) (c_day c) (c_hour c) (c_minute c) (c_second c)
           0 time_UTC, None).
Proof.
  intros Hy Hm Hd Hh Hn Hs.
  destruct (appendInt4 _ Hy) as (y0 & y1 & y2 & y3 & -> & Oy & Vy).
  destruct (appendInt2 (c_month c) ltac:(lia)) as (m0 & m1 & -> & Dm0 & Dm1 & Vm).
  destruct (appendInt2 (c_day c) ltac:(lia)) as (d0 & d1 & -> & Dd0 & Dd1 & Vd).
  destruct (appendInt2 (c_hour c) ltac:(lia)) as (h0 & h1 & -> & Dh0 & Dh1 & Vh).
  destruct (appendInt2 (c_minute c) ltac:(lia)) as (n0 & n1 & -> & Dn0 & Dn1 & Vn).
  destruct (appendInt2 (c_second c) ltac:(lia)) as (s0 & s1 & -> & Ds0 & Ds1 & Vs).
  pose (df := DateFields y0 y1 y2 y3 m0 m1 d0 d1).
  pose (tf := TimeFields "T" h0 h1 n0 n1 s0 s1 None (str "Z")).
  assert (Wd : wf_date df = true).
  { unfold wf_date, df. cbn [fy0 fy1 fy2 fy3 fm0 fm1 fd0 fd1]. rewrite Oy.
    rewrite (month_ok_of_value _ _ Dm0 Dm1) by (rewrite Vm; apply between_spec; lia).
    rewrite (day_ok_of_value _ _ Dd0 Dd1) by (rewrite Vd; apply between_spec; lia).
    reflexivity. }
  assert (Wt : wf_time tf = true).
  { unfold wf_time, tf. cbn [fsep fh0 fh1 fn0 fn1 fs0 fs1 ffrac ftz].
    rewrite (hour_ok_of_value _ _ Dh0 Dh1) by (rewrite Vh; apply between_spec; lia).
    rewrite (minute_ok_of_value _ _ Dn0 Dn1) by (rewrite Vn; apply between_spec; lia).
    rewrite (second_ok_of_value _ _ Ds0 Ds1) by (rewrite Vs; apply between_spec; lia).
    reflexivity. }
  change ([y0; y1; y2; y3] ++ [m0; m1] ++ [d0; d1] ++ ["T"%char] ++ [h0; h1] ++ [n0; n1]
            ++ [s0; s1] ++ ["Z"%char])
    with (render_date false df ++ render_time false tf).
  rewrite (parse_time_value false false df tf Wd Wt eq_refl).
  unfold timestamp_value, df, tf, year_of, month_of, day_of, hour_of, minute_of, second_of.
  cbn [fy0 fy1 fy2 fy3 fm0 fm1 fd0 fd1 fsep fh0 fh1 fn0 fn1 fs0 fs1 ffrac ftz].
  rewrite Vy, Vm, Vd, Vh, Vn, Vs. reflexivity.
Qed.

(** X12. A time with a year from 0 to 9999, formatted with
    [ISO8601CompactFormat], is a text of 16 bytes that
    [ParseISO8601Timestamp] accepts; it reads back the same date and time
    of day, with the nanoseconds dropped and the location replaced by UTC
    (the layout prints neither, and ends in a literal [Z]). *)
Theorem compact_format_parses_back (t : time_Time) (c : civil) :
  civil_of t = Some c -> 0 <= c_year c <= 9999 ->
  exists s, Format t ISO8601CompactFormat = Some s
            /\ length s = 16%nat
            /\ ParseISO8601Timestamp s
               = Val (time_Date (c_year c) (c_month c) (c_day c) (c_hour c) (c_minute c)
                        (c_second c) 0 time_UTC, None).
Proof.
  intros Hc Hy.
  destruct (civil_of_ranges t c Hc) as (Hm & Hd & Hh & Hn & Hs & _).
  rewrite (format_compact t c Hc). eexists. split; [reflexivity|]. split.
  - destruct (appendInt_spec (c_year c) 4 ltac:(lia)
                ltac:(change (10 ^ Z.of_nat 4) with 10000; lia)) as (L & _).
    assert (L2 : forall x, 0 <= x <= 99 -> length (appendInt x 2) = 2%nat).
    { intros x Hx. apply appendInt_spec; [lia|]. change (10 ^ Z.of_nat 2) with 100. lia. }
    rewrite !length_app, L, !L2 by lia. reflexivity.
  - apply compact_parses; lia.
Qed.

Lemma compact_format_parses_back_witness :
  exists s, Format (time_Date 1900 12 31 0 10 20 0 time_UTC) ISO8601CompactFormat = Some s
            /\ length s = 16%nat
            /\ ParseISO8601Timestamp s = Val (time_Date 1900 12 31 0 10 20 0 time_UTC, None).
Proof.
  apply (compact_format_parses_back (time_Date 1900 12 31 0 10 20 0 time_UTC) civil_1900).
  - reflexivity.
  - cbn. lia.
Defined.

Lemma decimal_digits_length_ge : forall room k u,
  (1 <= k <= room)%nat -> 10 ^ Z.of_nat (k - 1) <= u ->
  (k <= length (decimal_digits room u))%nat.
Proof.
  induction room as [|room IH]; intros k u Hk Hu; [lia|]. cbn [decimal_digits].
  destruct (u <? 10) eqn:E.
  - apply Z.ltb_lt in E. destruct k as [|[|k]]; [lia|cbn; lia|].
    exfalso. replace (S (S k) - 1)%nat with (S k) in Hu by lia.
    rewrite Nat2Z.inj_succ, Z.pow_succ_r in Hu by lia.
    pose proof (Z.pow_pos_nonneg 10 (Z.of_nat k) ltac:(lia) ltac:(lia)). lia.
  - apply Z.ltb_ge in E. rewrite length_app. cbn [length].
    destruct k as [|[|k]]; [lia|lia|].
    replace (S (S k) - 1)%nat with (S k) in Hu by lia.
    rewrite Nat2Z.inj_succ, Z.pow_succ_r in Hu by lia.
    assert (Hq : 10 ^ Z.of_nat (S k - 1) <= u / 10).
    { replace (S k - 1)%nat with k by lia. apply Z.div_le_lower_bound; lia. }
    pose proof (IH (S k) (u / 10) ltac:(lia) Hq). lia.
Qed.

Lemma dtsep_not_digit c : dtsep_ok c = true -> is_digit c = false.
Proof.
  intros H. destruct c as [[] [] [] [] [] [] [] []];
    first [ reflexivity | vm_compute in H; discriminate H ].
Qed.

Lemma matched_digit_prefix hy co ds more :
  MatchString (layout_re hy co) (ds ++ more) = true ->
  forallb is_digit ds = true -> (length ds <= 8)%nat.
Proof.
  intros H D. apply match_layout in H as ([y0 y1 y2 y3 m0 m1 d0 d1] & t & Hd & E & Ht).
  destruct ds as [|a0 [|a1 [|a2 [|a3 [|a4 [|a5 [|a6 [|a7 [|a8 ds]]]]]]]]]; cbn [length]; try lia.
  exfalso. cbn [forallb] in D. repeat (apply andb_true_iff in D as [? D]).
  destruct hy; cbn in E.
  - injection E as _ _ _ _ -> _.
    match goal with H : is_digit "-" = true |- _ => vm_compute in H; discriminate H end.
  - destruct co as [c|]; cbn [segment_after] in Ht.
    + destruct Ht as (tf & Hf & ->). unfold render_time in E.
      injection E as _ _ _ _ _ _ _ _ -> _.
      unfold wf_time in Hf. do 5 (apply andb_true_iff in Hf as [Hf _]).
      apply dtsep_not_digit in Hf.
      match goal with H : is_digit (fsep tf) = true |- _ => rewrite Hf in H; discriminate H end.
    + subst t. discriminate E.
Qed.

(** X13. A time with a negative year, or with a year of five to nine
    digits, formatted with [ISO8601CompactFormat], is a text that
    [ParseISO8601Timestamp] rejects: the layout only reads back for years
    0 to 9999. *)
Theorem compact_format_needs_a_four_digit_year (t : time_Time) (c : civil) :
  civil_of t = Some c ->
  c_year c < 0 \/ 9999 < c_year c <= 999999999 ->
  exists s, Format t ISO8601CompactFormat = Some s
            /\ ParseISO8601Timestamp s = Val (time_zero, Some (invalid_timestamp s)).
Proof.
  intros Hc Hy. destruct (civil_of_ranges t c Hc) as (Hm & Hd & _).
  rewrite (format_compact t c Hc). eexists. split; [reflexivity|].
  apply no_match_error. intros hy co.
  match goal with |- MatchString _ ?s = _ => destruct (MatchString (layout_re hy co) s) eqn:E end;
    [exfalso|reflexivity].
  destruct Hy as [Hy|Hy].
  - unfold appendInt at 1 in E. replace (c_year c <? 0) with true in E
      by (symmetry; apply Z.ltb_lt; lia).
    cbn [app] in E. apply matched_first in E. discriminate E.
  - destruct (appendInt2 (c_month c) ltac:(lia)) as (m0 & m1 & Em & Dm0 & Dm1 & _).
    destruct (appendInt2 (c_day c) ltac:(lia)) as (d0 & d1 & Ed & Dd0 & Dd1 & _).
    rewrite Em, Ed in E. unfold appendInt at 1 in E.
    replace (c_year c <? 0) with false in E by (symmetry; apply Z.ltb_ge; lia).
    rewrite Z.abs_eq in E by lia. cbn [app] in E.
    destruct (decimal_digits_spec 20 9 (c_year c) ltac:(lia)
                ltac:(change (10 ^ Z.of_nat 9) with 1000000000; lia)) as (_ & D & _).
    pose proof (decimal_digits_length_ge 20 5 (c_year c) ltac:(lia)
                  ltac:(change (10 ^ Z.of_nat (5 - 1)) with 10000; lia)) as L.
    set (year := repeat "0"%char (4 - length (decimal_digits 20 (c_year c)))
                 ++ decimal_digits 20 (c_year c)) in E.
    match type of E with
    | MatchString _ (year ++ _ :: _ :: _ :: _ :: ?more) = true =>
        change (MatchString (layout_re hy co) (year ++ [m0; m1; d0; d1] ++ more) = true) in E;
        rewrite (app_assoc year [m0; m1; d0; d1] more) in E
    end.
    apply matched_digit_prefix in E.
    + subst year. rewrite !length_app in E. cbn [length] in E. lia.
    + subst year. rewrite !forallb_app, forallb_digit_zeros, D. cbn [forallb].
      now rewrite Dm0, Dm1, Dd0, Dd1.
Qed.

Lemma compact_format_needs_a_four_digit_year_witness :
  exists s, Format (time_Date 12020 2 17 11 39 27 0 time_UTC) ISO8601CompactFormat = Some s
            /\ ParseISO8601Timestamp s = Val (time_zero, Some (invalid_timestamp s)).
Proof.
  apply (compact_format_needs_a_four_digit_year
           (time_Date 12020 2 17 11 39 27 0 time_UTC) (Civil 12020 2 17 11 39 27 0 0)).
  - reflexivity.
  - right. cbn. lia.
Defined.

(** X14. For a [Time] whose date and time of day, read in its own
    location, have a year from 0 to 9999, the text that [Format] gives for
    [ISO8601CompactFormat] is read back by [UnmarshalText], and between
    double quotes by [UnmarshalJSON], as the [Date] of the same date and
    time of day with no nanoseconds, in UTC, whatever the receiver held. *)
Theorem date_compact_format_unmarshal (t t0 : Wrapper.Time) (c : civil) :
  civil_of (Wrapper.Time_Time t) = Some c -> 0 <= c_year c <= 9999 ->
  exists text,
    Format (Wrapper.Time_Time t) ISO8601CompactFormat = Some text
    /\ Wrapper.UnmarshalText t0 text
       = Val (Wrapper.Date (c_year c) (c_month c) (c_day c) (c_hour c) (c_minute c)
                (c_second c) 0 time_UTC, None)
    /\ Wrapper.UnmarshalJSON t0 (Wrapper.dquote :: text ++ [Wrapper.dquote])
       = Val (Wrapper.Date (c_year c) (c_month c) (c_day c) (c_hour c) (c_minute c)
                (c_second c) 0 time_UTC, None).
Proof.
  intros Hc Hy.
  destruct (civil_of_ranges _ _ Hc) as (Hm & Hd & Hh & Hn & Hs & _).
  rewrite (format_compact _ _ Hc). eexists. split; [reflexivity|].
  match goal with |- Wrapper.UnmarshalText t0 ?x = _ /\ _ => set (text := x) end.
  assert (P : ParseISO8601Timestamp text
              = Val (time_Date (c_year c) (c_month c) (c_day c) (c_hour c) (c_minute c)
                       (c_second c) 0 time_UTC, None))
    by (apply compact_parses; lia).
  apply parse_with_value in P.
  assert (W : forall r, Wrapper.UnmarshalText r text
                        = Val (Wrapper.Date (c_year c) (c_month c) (c_day c) (c_hour c)
                                 (c_minute c) (c_second c) 0 time_UTC, None)).
  { intros r. unfold Wrapper.UnmarshalText, Wrapper.ParseISO8601Timestamp.
    rewrite (proj2 (parse_with_value _ _ _) P). reflexivity. }
  split; [apply W|].
  destruct (literal_quoted Wrapper.dquote text (or_introl eq_refl)) as (A & B & C).
  rewrite (UnmarshalJSON_cases t0 _ C), A, B. apply (W t0).
Qed.

Lemma date_compact_format_unmarshal_witness :
  exists text,
    Format (Wrapper.Time_Time
              (Wrapper.Date 2020 2 29 0 10 20 658731000
                 (time_FixedZone (str "-02:30") (-9000))))
      ISO8601CompactFormat = Some text
    /\ Wrapper.UnmarshalText new_year_2001 text
       = Val (Wrapper.Date 2020 2 29 0 10 20 0 time_UTC, None)
    /\ Wrapper.UnmarshalJSON new_year_2001 (Wrapper.dquote :: text ++ [Wrapper.dquote])
       = Val (Wrapper.Date 2020 2 29 0 10 20 0 time_UTC, None).
Proof.
  apply (date_compact_format_unmarshal
           (Wrapper.Date 2020 2 29 0 10 20 658731000 (time_FixedZone (str "-02:30") (-9000)))
           new_year_2001 (Civil 2020 2 29 0 10 20 658731000 (-9000))).
  - reflexivity.
  - cbn. lia.
Defined.

(* ================================================================= *)
(** ** String, read back *)

Lemma trim_right_split c w : exists k, w = trim_right c w ++ repeat c k.
Proof.
  induction w as [|a w [k E]]; [exists 0%nat; reflexivity|]. cbn [trim_right].
  destruct (trim_right c w) as [|x kept].
  - cbn [app] in E. destruct (Ascii.eqb_spec a c) as [->|N].
    + exists (S k). cbn [app repeat]. now rewrite <- E.
    + exists k. cbn [app]. now rewrite <- E.
  - exists k. cbn [app]. cbn [app] in E. now rewrite <- E.
Qed.

Lemma trim_right_app c u v :
  trim_right c v <> [] -> trim_right c (u ++ v) = u ++ trim_right c v.
Proof.
  intros H. induction u as [|a u IH]; [reflexivity|]. cbn [app trim_right]. rewrite IH.
  destruct (u ++ trim_right c v) eqn:E; [|reflexivity].
  apply app_eq_nil in E as [_ E]. contradiction.
Qed.

Lemma trim_right_last c w :
  trim_right c w <> [] -> exists front l, trim_right c w = front ++ [l] /\ l <> c.
Proof.
  induction w as [|a w IH]; cbn [trim_right]; [congruence|].
  destruct (trim_right c w) as [|x kept].
  - destruct (Ascii.eqb_spec a c) as [->|N]; [congruence|]. intros _. exists [], a. auto.
  - intros _. destruct IH as (front & l & E & N); [discriminate|].
    exists (a :: front), l. rewrite E. auto.
Qed.

Lemma drop_last_keeps c u l : l <> c -> drop_last c (u ++ [l]) = u ++ [l].
Proof.
  intros N. unfold drop_last. rewrite rev_app_distr. cbn [rev app].
  destruct (Ascii.eqb_spec l c); [contradiction|reflexivity].
Qed.

Lemma appendNano_frac b ns :
  0 <= ns <= 999999999 ->
  exists fr, appendNano b ns "." = b ++ render_frac fr
             /\ frac_ok fr = true /\ nanos_of fr = ns.
Proof.
  intros H. unfold appendNano. destruct (ns =? 0) eqn:E.
  - apply Z.eqb_eq in E. subst ns. exists None. rewrite app_nil_r. auto.
  - apply Z.eqb_neq in E.
    destruct (appendInt_spec ns 9 ltac:(lia)
                ltac:(change (10 ^ Z.of_nat 9) with 1000000000; lia)) as (L & D & V).
    set (w := appendInt ns 9) in *.
    destruct (trim_right_split "0" w) as [k S].
    assert (T : trim_right "0" w <> []).
    { intros T. rewrite T in S. cbn [app] in S. rewrite S in V.
      unfold decimal_value in V. rewrite decimal_zeros in V. lia. }
    assert (Dt : forallb is_digit (trim_right "0" w) = true).
    { rewrite S, forallb_app in D. now apply andb_true_iff in D as [D _]. }
    assert (Lt : (1 <= length (trim_right "0" w) <= 9)%nat).
    { pose proof (f_equal (@length ascii) S) as Ls. rewrite length_app, repeat_length in Ls.
      destruct (trim_right "0" w); [congruence|cbn [length] in *; lia]. }
    exists (Some ("."%char, trim_right "0" w)). cbn [render_frac frac_ok nanos_of].
    repeat split.
    + rewrite app_assoc, (trim_right_app _ _ _ T).
      destruct (trim_right_last _ _ T) as (front & l & El & _).
      assert (Dl : is_digit l = true).
      { rewrite El, forallb_app in Dt. apply andb_true_iff in Dt as [_ Dt]. cbn in Dt.
        now rewrite andb_true_r in Dt. }
      rewrite El, app_assoc, drop_last_keeps.
      * now rewrite <- !app_assoc.
      * intros ->. discriminate Dl.
    + rewrite Dt. change (fsep_ok ".") with true. cbn [andb].
      rewrite (proj2 (Nat.leb_le _ _) (proj1 Lt)), (proj2 (Nat.leb_le _ _) (proj2 Lt)).
      reflexivity.
    + rewrite pad9_zeros.
      pose proof (f_equal (@length ascii) S) as Ls. rewrite length_app, repeat_length in Ls.
      replace (9 - length (trim_right "0" w))%nat with k by lia. now rewrite <- S.
Qed.

Lemma offset_hour_of_value a b :
  is_digit a = true -> is_digit b = true ->
  between 0 (decimal_value [a; b]) 19 = true ->
  in_cls [("0", "0"); ("1", "1")]%char a = true.
Proof. intros Ha Hb H. ok_cases H Ha Hb. Qed.

Lemma appendZone_offset b off :
  -71940 <= off <= 71940 -> off mod 60 = 0 ->
  exists tz, appendZone b off = b ++ tz
             /\ offset_ok tz = true /\ offset_complete tz = true
             /\ zone_offset (zone_value tz) = off
             /\ (off = 0 -> zone_value tz = time_UTC).
Proof.
  intros R M. unfold appendZone. destruct (off =? 0) eqn:E.
  - exists (str "Z"). repeat split; try reflexivity. apply Z.eqb_eq in E. now subst.
  - apply Z.eqb_neq in E.
    assert (Q : exists q, off = q * 60)
      by (exists (off / 60); pose proof (Z.div_mod off 60 ltac:(lia)); lia).
    destruct Q as [q ->]. rewrite Z.quot_mul by lia.
    set (sg := if q <? 0 then "-"%char else "+"%char).
    set (z := if q <? 0 then - q else q).
    assert (Hz : 1 <= z <= 1199 /\ q * 60 = sign_of sg * (z * 60) /\ sign_ok sg = true).
    { unfold z, sg. destruct (q <? 0) eqn:N; [apply Z.ltb_lt in N|apply Z.ltb_ge in N];
        (split; [lia|split; [|reflexivity]]).
      - change (sign_of "-") with (-1). lia.
      - change (sign_of "+") with 1. lia. }
    destruct Hz as (Rz & Eo & Hs).
    rewrite Z.quot_div_nonneg, Z.rem_mod_nonneg by lia.
    pose proof (Z.div_mod z 60 ltac:(lia)) as Ez.
    pose proof (Z.mod_pos_bound z 60 ltac:(lia)) as Bm.
    assert (Bh : 0 <= z / 60 <= 19).
    { split; [apply Z.div_pos; lia|]. apply Z.lt_succ_r, Z.div_lt_upper_bound; lia. }
    destruct (appendInt2 (z / 60) ltac:(lia)) as (h0 & h1 & -> & Dh0 & Dh1 & Vh).
    destruct (appendInt2 (z mod 60) ltac:(lia)) as (m0 & m1 & -> & Dm0 & Dm1 & Vm).
    exists [sg; h0; h1; ":"%char; m0; m1]. split; [reflexivity|].
    assert (O : offset_ok [sg; h0; h1; ":"%char; m0; m1] = true).
    { unfold offset_ok. rewrite Hs, Dh1.
      rewrite (offset_hour_of_value _ _ Dh0 Dh1) by (rewrite Vh; apply between_spec; lia).
      rewrite (minute_ok_of_value _ _ Dm0 Dm1) by (rewrite Vm; apply between_spec; lia).
      reflexivity. }
    repeat split; try assumption; try reflexivity.
    + rewrite (zone_value_offset _ O). cbn [offset_seconds]. rewrite Vh, Vm. lia.
    + intros Z0. contradiction.
Qed.

Lemma RFC3339Nano_parses (c : civil) :
  0 <= c_year c <= 9999 -> 1 <= c_month c <= 12 -> 1 <= c_day c <= 31 ->
  0 <= c_hour c <= 23 -> 0 <= c_minute c <= 59 -> 0 <= c_second c <= 61 ->
  0 <= c_nsec c <= 999999999 ->
  -71940 <= c_offset c <= 71940 -> c_offset c mod 60 = 0 ->
  exists loc,
    ParseISO8601Timestamp
      (appendZone
         (appendNano
            (appendInt (c_year c) 4 ++ ["-"%char] ++ appendInt (c_month c) 2
             ++ ["-"%char] ++ appendInt (c_day c) 2 ++ ["T"%char]
             ++ appendInt (c_hour c) 2 ++ [":"%char] ++ appendInt (c_minute c) 2
             ++ [":"%char] ++ appendInt (c_second c) 2)
            (c_nsec c) ".")
         (c_offset c))
    = Val (time_Date (c_year c) (c_month c) (c_day c) (c_hour c) (c_minute c) (c_second c)
             (c_nsec c) loc, None)
    /\ zone_offset loc = c_offset c /\ (c_offset c = 0 -> loc = time_UTC).
Proof.
  intros Hy Hm Hd Hh Hn Hs Hf Ho Mo.
  destruct (appendInt4 _ Hy) as (y0 & y1 & y2 & y3 & -> & Oy & Vy).
  destruct (appendInt2 (c_month c) ltac:(lia)) as (m0 & m1 & -> & Dm0 & Dm1 & Vm).
  destruct (appendInt2 (c_day c) ltac:(lia)) as (d0 & d1 & -> & Dd0 & Dd1 & Vd).
  destruct (appendInt2 (c_hour c) ltac:(lia)) as (h0 & h1 & -> & Dh0 & Dh1 & Vh).
  destruct (appendInt2 (c_minute c) ltac:(lia)) as (n0 & n1 & -> & Dn0 & Dn1 & Vn).
  destruct (appendInt2 (c_second c) ltac:(lia)) as (s0 & s1 & -> & Ds0 & Ds1 & Vs).
  match goal with |- context [appendNano ?b _ _] =>
    destruct (appendNano_frac b (c_nsec c) Hf) as (fr & -> & Wf & Vf) end.
  rewrite nanos_of_scaled in Vf.
  match goal with |- context [appendZone ?b _] =>
    destruct (appendZone_offset b (c_offset c) Ho Mo) as (tz & -> & Wz & Cz & Vz & Uz) end.
  pose (df := DateFields y0 y1 y2 y3 m0 m1 d0 d1).
  pose (tf := TimeFields "T" h0 h1 n0 n1 s0 s1 fr tz).
  assert (Wd : wf_date df = true).
  { unfold wf_date, df. cbn [fy0 fy1 fy2 fy3 fm0 fm1 fd0 fd1]. rewrite Oy.
    rewrite (month_ok_of_value _ _ Dm0 Dm1) by (rewrite Vm; apply between_spec; lia).
    rewrite (day_ok_of_value _ _ Dd0 Dd1) by (rewrite Vd; apply between_spec; lia).
    reflexivity. }
  assert (Wt : wf_time tf = true).
  { unfold wf_time, tf. cbn [fsep fh0 fh1 fn0 fn1 fs0 fs1 ffrac ftz].
    rewrite (hour_ok_of_value _ _ Dh0 Dh1) by (rewrite Vh; apply between_spec; lia).
    rewrite (minute_ok_of_value _ _ Dn0 Dn1) by (rewrite Vn; apply between_spec; lia).
    rewrite (second_ok_of_value _ _ Ds0 Ds1) by (rewrite Vs; apply between_spec; lia).
    rewrite Wf, Wz. reflexivity. }
  exists (zone_value tz). split; [|auto].
  change ((([y0; y1; y2; y3] ++ ["-"%char] ++ [m0; m1] ++ ["-"%char] ++ [d0; d1] ++ ["T"%char]
            ++ [h0; h1] ++ [":"%char] ++ [n0; n1] ++ [":"%char] ++ [s0; s1])
           ++ render_frac fr) ++ tz)
    with (render_date true df ++ render_time true tf).
  rewrite (parse_time_value true true df tf Wd Wt Cz).
  unfold timestamp_value, df, tf, year_of, month_of, day_of, hour_of, minute_of, second_of.
  cbn [fy0 fy1 fy2 fy3 fm0 fm1 fd0 fd1 fsep fh0 fh1 fn0 fn1 fs0 fs1 ffrac ftz].
  rewrite Vy, Vm, Vd, Vh, Vn, Vs, Vf. reflexivity.
Qed.

(** X15. [String] and [UnmarshalText] fit together: for a [Time] with a
    year from 0 to 9999, in a zone whose offset is a whole number of
    minutes within 19 hours 59 minutes of UTC, the text of [String] is
    accepted by [UnmarshalText], which stores the same date, time of day
    and nanoseconds in a location with the same offset ([time.UTC] for
    offset zero), whatever the receiver held. *)
Theorem string_is_read_back (t t0 : Wrapper.Time) (c : civil) :
  civil_of (Wrapper.Time_Time t) = Some c ->
  0 <= c_year c <= 9999 ->
  -71940 <= c_offset c <= 71940 -> c_offset c mod 60 = 0 ->
  exists text loc,
    Wrapper.String t = Some text
    /\ Wrapper.UnmarshalText t0 text
       = Val (Wrapper.Date (c_year c) (c_month c) (c_day c) (c_hour c) (c_minute c)
                (c_second c) (c_nsec c) loc, None)
    /\ zone_offset loc = c_offset c
    /\ (c_offset c = 0 -> loc = time_UTC).
Proof.
  intros Hc Hy Ho Mo.
  destruct (civil_of_ranges _ _ Hc) as (Hm & Hd & Hh & Hn & Hs & Hf).
  destruct (RFC3339Nano_parses c Hy Hm Hd Hh Hn ltac:(lia) Hf Ho Mo) as (loc & P & Z & U).
  unfold Wrapper.String. rewrite (format_RFC3339Nano _ _ Hc).
  eexists. exists loc. split; [reflexivity|]. split; [|auto].
  unfold Wrapper.UnmarshalText, Wrapper.ParseISO8601Timestamp.
  apply parse_with_value in P. rewrite (proj2 (parse_with_value _ _ _) P). reflexivity.
Qed.

Lemma string_is_read_back_witness :
  exists text loc,
    Wrapper.String (Wrapper.Date 2020 2 17 11 39 27 658731000
                      (time_FixedZone (str "EST") (-9000))) = Some text
    /\ Wrapper.UnmarshalText new_year_2001 text
       = Val (Wrapper.Date 2020 2 17 11 39 27 658731000 loc, None)
    /\ zone_offset loc = -9000
    /\ (-9000 = 0 -> loc = time_UTC).
Proof.
  apply (string_is_read_back
           (Wrapper.Date 2020 2 17 11 39 27 658731000 (time_FixedZone (str "EST") (-9000)))
           new_year_2001 (Civil 2020 2 17 11 39 27 658731000 (-9000))).
  - reflexivity.
  - cbn. lia.
  - cbn. lia.
  - reflexivity.
Defined.
